(** * go-iscsi-helper: util/ns_evaluator.go

    A shallow embedding of [ForkAndSwitchToNamespace] and of the raw system
    call wrappers it is built from ([read], [write], [openat], [open],
    [setns], [close_raw], [switchNs]).

    The Go function runs in two processes: everything up to the fork is run
    by the caller, the branch [pid != 0] by the parent and the rest by the
    child.  The embedding is one function of the kernel's answers; the child
    is the same function run where fork answered 0.  Every system call a
    process completes is logged in a trace, so that statements about what was
    or was not attempted (a clone, a close, a signal) are statements about
    that trace.

    What is modelled and how:
    - the kernel is a record of answers ([Kernel]): what [pipe2], [fork],
      [openat], [setns], [close] and [kill] answer, as functions of their
      arguments, and scripts of answers for the successive [read]s and
      [write]s on the pipe; a script that runs out is a call that blocks;
    - time is the instant at which each [read] returns, set against the
      timer of [time.After(timeout)] in the [select];
    - a Go [error] is the text of its [Error()], [nil] is [None];
    - [int] and [uintptr] are [Z], with the conversion between them written
      out; lengths and indices of slices are [nat];
    - encoding/json at the type parameter [T] is an interface ([JSON]), and
      [filepath.Join] a parameter;
    - the diagnostics printed with [fmt.Println] are left out; the two
      [logrus] calls are events of the trace.

    The functions of iscsi/initiator.go, which call into this file through
    [CleanupScsiNodes], are embedded after it. *)

From Stdlib Require Import Strings.Byte Strings.String Numbers.DecimalString.
From Stdlib Require Import ZArith List Bool Lia Arith.
Import ListNotations.

Set Implicit Arguments.

(** ** Bytes, Go strings and the library helpers used by the source *)

Definition bytes := list byte.

(** A Go string literal, as the bytes it holds. *)
Definition B (s : string) : bytes := list_byte_of_string s.

(** [make([]byte, n)]: n zero bytes. *)
Definition make (n : nat) : bytes := repeat x00 n.

(** [strings.HasPrefix] / [bytes.HasPrefix]. *)
Fixpoint HasPrefix (s prefix : bytes) {struct prefix} : bool :=
  match prefix, s with
  | [], _ => true
  | _ :: _, [] => false
  | p :: prefix', c :: s' => Byte.eqb c p && HasPrefix s' prefix'
  end.

(** [strings.TrimPrefix]. *)
Definition TrimPrefix (s prefix : bytes) : bytes :=
  if HasPrefix s prefix then skipn (length prefix) s else s.

(** [bytes.Contains]. *)
Fixpoint Contains (b subslice : bytes) : bool :=
  HasPrefix b subslice ||
  match b with
  | [] => false
  | _ :: b' => Contains b' subslice
  end.

(** Go's checked index expression [b[i]]: [None] is the run-time panic
    "index out of range". *)
Definition index (b : bytes) (i : Z) : option byte :=
  if ((i <? 0) || (Z.of_nat (length b) <=? i))%Z then None
  else nth_error b (Z.to_nat i).

(** The slice expression [b[:j]] for an in-range [j]. *)
Definition slice_to (b : bytes) (j : Z) : bytes := firstn (Z.to_nat j) b.

(** The slice expression [b[i:]] for an in-range [i]. *)
Definition slice_from (b : bytes) (i : Z) : bytes := skipn (Z.to_nat i) b.

(** A Go [error] is modelled by the text its [Error()] method gives; the nil
    error is [None]. *)
Definition error := bytes.

(** [errors.New]. *)
Definition errors_New (msg : bytes) : option error := Some msg.

(** [errors.Wrapf(err, msg)] of github.com/pkg/errors: nil stays nil, and the
    text of the wrapped error is [msg: cause]. *)
Definition Wrapf (err : option error) (msg : bytes) : option error :=
  match err with
  | None => None
  | Some cause => Some (msg ++ B ": " ++ cause)
  end.

(** ** Error numbers *)

Definition Errno := Z.

Definition EPERM  : Errno := 1%Z.
Definition ENOENT : Errno := 2%Z.
Definition ESRCH  : Errno := 3%Z.
Definition EINTR  : Errno := 4%Z.
Definition EIO    : Errno := 5%Z.
Definition EBADF  : Errno := 9%Z.
Definition EAGAIN : Errno := 11%Z.
Definition ENOMEM : Errno := 12%Z.
Definition EACCES : Errno := 13%Z.
Definition EINVAL : Errno := 22%Z.
Definition EMFILE : Errno := 24%Z.
Definition EPIPE  : Errno := 32%Z.

(** [syscall.Errno.Error]: the table entry when there is one, [errno N]
    otherwise (only the numbers named above are tabulated here). *)
Definition Errno_Error (e : Errno) : error :=
  match e with
  | 1%Z => B "operation not permitted"
  | 2%Z => B "no such file or directory"
  | 3%Z => B "no such process"
  | 4%Z => B "interrupted system call"
  | 5%Z => B "input/output error"
  | 9%Z => B "bad file descriptor"
  | 11%Z => B "resource temporarily unavailable"
  | 12%Z => B "cannot allocate memory"
  | 13%Z => B "permission denied"
  | 22%Z => B "invalid argument"
  | 24%Z => B "too many open files"
  | 32%Z => B "broken pipe"
  | _ => B "errno " ++ B (NilZero.string_of_int (Z.to_int e))
  end.

(** [unix.BytePtrFromString]: EINVAL when the string holds a NUL byte, else
    the NUL-terminated copy the pointer refers to. *)
Definition BytePtrFromString (s : bytes) : Errno + bytes :=
  if Contains s [x00] then inl EINVAL else inr (s ++ [x00]).

(** The C string a [*byte] points to: the bytes before the first NUL. *)
Fixpoint cstring (p : bytes) : bytes :=
  match p with
  | [] => []
  | c :: p' => if Byte.eqb c x00 then [] else c :: cstring p'
  end.

(** Constants of golang.org/x/sys/unix (linux/amd64). *)
Definition AT_FDCWD     : Z := (-100)%Z.
Definition O_RDONLY     : Z := 0%Z.
Definition O_LARGEFILE  : Z := 0%Z.
Definition CLONE_NEWNS  : Z := 131072%Z.       (* 0x00020000 *)
Definition CLONE_NEWNET : Z := 1073741824%Z.   (* 0x40000000 *)
Definition SIGINT       : Z := 2%Z.
Definition perm_0644    : Z := 420%Z.          (* 0644 *)

(** ** The kernel, as seen through [unix.RawSyscall] *)

(** What the kernel answers to one system call. *)
Inductive SysRet : Type :=
| SysOk (v : Z)
| SysErr (e : Errno).

(** [unix.RawSyscall] hands back the result register as a 64-bit [uintptr]
    and the error number: on failure the register is all ones. *)
Definition RawSyscall (a : SysRet) : Z * Errno :=
  match a with
  | SysOk v => ((v mod 2 ^ 64)%Z, 0%Z)
  | SysErr e => ((2 ^ 64 - 1)%Z, e)
  end.

(** The conversion [int(r)] of a [uintptr]: two's complement reading. *)
Definition int (r : Z) : Z :=
  if (r <? 2 ^ 63)%Z then r else (r - 2 ^ 64)%Z.

(** One answer to a [read] on the pipe: after [ra_dt] units of time the call
    returns, with an error or with at most [S more] of the bytes in the
    pipe. *)
Inductive ReadKind : Type :=
| RdErr (e : Errno)
| RdOk (more : nat).

Record ReadAns : Type := { ra_dt : nat; ra_kind : ReadKind }.

(** One answer to a [write] on the pipe: an error, or at most [S more] bytes
    taken. *)
Inductive WriteAns : Type :=
| WrErr (e : Errno)
| WrOk (more : nat).

(** What the read end of the pipe will ever offer: the bytes put in at the
    write end, and whether every copy of the write end gets closed. *)
Record Feed : Type := { feed_bytes : bytes; feed_closed : bool }.

Record Kernel : Type := {
  k_pipe  : Errno + (Z * Z);        (* pipe2: the two descriptors, or an error *)
  k_fork  : SysRet;                 (* fork, as answered in this process *)
  k_fs    : bytes -> option SysRet; (* path lookup: None when no such file;
                                       else what opening it answers *)
  k_setns : Z -> Z -> SysRet;       (* setns(fd, nstype) *)
  k_close : Z -> SysRet;            (* close(fd) *)
  k_write : list WriteAns;          (* successive writes; none left: blocks *)
  k_feed  : Feed;                   (* what arrives on the read end *)
  k_read  : list ReadAns;           (* successive reads; none left: blocks *)
  k_kill  : Z -> Z -> option Errno; (* kill(pid, sig) *)
  k_tie   : bool                    (* select with both cases ready:
                                       true picks the reader's message *)
}.

(** ** Traces *)

Inductive Level : Type := ErrorLevel | WarnLevel.

Inductive Event : Type :=
| EvPipe (r : Errno + (Z * Z))
| EvFork (r : SysRet)
| EvOpenat (dirfd : Z) (path : bytes) (flags mode : Z) (r : SysRet)
| EvSetns (fd nstype : Z) (r : SysRet)
| EvClose (fd : Z) (r : SysRet)
| EvRead (fd : Z) (cap : nat) (r : SysRet)
| EvWrite (fd : Z) (p : bytes) (r : SysRet)
| EvKill (pid sig : Z) (r : option Errno)
| EvExitGroup (code : Z)
| EvCall_toExecute
| EvLogrus (l : Level) (msg : bytes).

(** A computation that logs the events it performs. *)
Definition M (A : Type) : Type := (list Event * A)%type.

Definition ret {A} (a : A) : M A := ([], a).

Definition bind {A C} (m : M A) (f : A -> M C) : M C :=
  let (t1, a) := m in
  let (t2, c) := f a in
  (t1 ++ t2, c).

Definition emit (e : Event) : M unit := ([e], tt).

Definition emit_all (t : list Event) : M unit := (t, tt).

Declare Scope go_scope.
Delimit Scope go_scope with go.
Notation "x <- m ;; k" := (bind m (fun x => k))
  (at level 61, m at next level, right associativity) : go_scope.
Notation "' pat <- m ;; k" := (bind m (fun x => match x with pat => k end))
  (at level 61, pat pattern, m at next level, right associativity) : go_scope.
Notation "m ;;; k" := (bind m (fun _ => k))
  (at level 61, right associativity) : go_scope.
Open Scope go_scope.

Definition trace_of {A} (m : M A) : list Event := fst m.
Definition value_of {A} (m : M A) : A := snd m.

(** ** Raw system call wrappers (ns_evaluator.go, lines 159-217) *)

(** The kernel's answer to [read(fd, p)] with [cap = len(p)], and the bytes
    it copies into [p]: [None] when the call never returns (nothing in the
    pipe and a write end still open). *)
Definition sys_read (a : ReadAns) (feed : bytes) (closed : bool) (cap : nat)
  : option (SysRet * bytes) :=
  match ra_kind a with
  | RdErr e => Some (SysErr e, [])
  | RdOk more =>
      match feed with
      | [] => if closed then Some (SysOk 0, []) else None
      | _ :: _ =>
          let data := firstn (Nat.min (S more) cap) feed in
          Some (SysOk (Z.of_nat (length data)), data)
      end
  end.

(** The kernel's answer to [write(fd, p)]. *)
Definition sys_write (a : WriteAns) (p : bytes) : SysRet :=
  match a with
  | WrErr e => SysErr e
  | WrOk more => SysOk (Z.of_nat (Nat.min (S more) (length p)))
  end.

(** The bytes a completed [write(fd, p)] that answered [r] put in the pipe. *)
Definition taken (p : bytes) (r : SysRet) : bytes :=
  match r with
  | SysOk n => firstn (Z.to_nat n) p
  | SysErr _ => []
  end.

(** [func read(fd int, p []byte) (n int, err error)], given the kernel's
    answer: [n = int(r0)], and [err] is reset to nil when [n >= 0]. *)
Definition read (fd : Z) (cap : nat) (r : SysRet) : M (Z * option error) :=
  let '(r0, e) := RawSyscall r in
  let n := int r0 in
  emit (EvRead fd cap r) ;;;
  ret (n, if (n >=? 0)%Z then None else Some (Errno_Error e)).

(** [func write(fd int, p []byte) (n int, err error)], given the kernel's
    answer. *)
Definition write (fd : Z) (p : bytes) (r : SysRet) : M (Z * option error) :=
  let '(r0, e) := RawSyscall r in
  let n := int r0 in
  emit (EvWrite fd p r) ;;;
  ret (n, if (n >=? 0)%Z then None else Some (Errno_Error e)).

Section Process.

Variable K : Kernel.

(** The kernel's answer to [openat]: ENOENT when the path names no file. *)
Definition sys_openat (path : bytes) : SysRet :=
  match k_fs K (cstring path) with
  | None => SysErr ENOENT
  | Some r => r
  end.

(** [func openat(dirfd int, path *byte, flags int, mode uint32) (fd int, err error)] *)
Definition openat (dirfd : Z) (path : bytes) (flags mode : Z)
  : M (Z * option error) :=
  let r := sys_openat path in
  let '(r0, e) := RawSyscall r in
  let fd := int r0 in
  emit (EvOpenat dirfd path flags mode r) ;;;
  ret (fd, if (fd >=? 0)%Z then None else Some (Errno_Error e)).

(** [func open(path *byte, mode int, perm uint32) (fd int, err error)] *)
Definition open (path : bytes) (mode perm : Z) : M (Z * option error) :=
  openat AT_FDCWD path (Z.lor mode O_LARGEFILE) perm.

(** [func setns(fd int, nstype int) (err error)]: [err] is reset to nil when
    the result register is 0. *)
Definition setns (fd nstype : Z) : M (option error) :=
  let r := k_setns K fd nstype in
  let '(out, e) := RawSyscall r in
  emit (EvSetns fd nstype r) ;;;
  ret (if (out =? 0)%Z then None else Some (Errno_Error e)).

(** [func close_raw(fd int) (err error)] *)
Definition close_raw (fd : Z) : M (option error) :=
  let r := k_close K fd in
  let '(out, e) := RawSyscall r in
  emit (EvClose fd r) ;;;
  ret (if (out =? 0)%Z then None else Some (Errno_Error e)).

(** ** [switchNs] (lines 219-254) *)

Definition switchNs (mountNs netNs : bytes) : M (option error) :=
  '(fd, err) <- open netNs O_RDONLY perm_0644 ;;
  match err with
  | Some _ => ret (Wrapf err (B "failed to open net namespace"))
  | None =>
  err <- setns fd CLONE_NEWNET ;;
  match err with
  | Some _ =>
      close_raw fd ;;;
      ret (Wrapf err (B "failed to setns net namespace"))
  | None =>
  err <- close_raw fd ;;
  match err with
  | Some _ => ret (Wrapf err (B "failed to close net namespace"))
  | None =>
  '(fd, err) <- open mountNs O_RDONLY perm_0644 ;;
  if (fd <? 0)%Z && (match err with Some _ => true | None => false end)
  then ret (Wrapf err (B "failed to open mount namespace"))
  else
  err <- setns fd CLONE_NEWNS ;;
  match err with
  | Some _ =>
      close_raw fd ;;;
      ret (Wrapf err (B "failed to setns mount namespace"))
  | None =>
  err <- close_raw fd ;;
  match err with
  | Some _ => ret (Wrapf err (B "failed to close mount namespace"))
  | None => ret None
  end end end end end.

End Process.

(** ** The result type and its JSON codec *)

Inductive result (A : Type) : Type :=
| Ok (a : A)
| Err (e : error).
Arguments Ok {A} a.
Arguments Err {A} e.

(** What encoding/json does at the type parameter [T].  [Marshal] takes the
    [*T] the logic returned (nil is [None]); [Unmarshal data v] is
    [json.Unmarshal(data, &v)] and gives the updated [v].  The three laws are
    those of encoding/json that the framing relies on: a nil pointer is
    encoded as [null], the encoder escapes control characters so its output
    holds no NUL byte, and decoding [null] into a zero value leaves it as it
    is. *)
Class JSON (T : Type) : Type := {
  zero : T;
  Marshal : option T -> result bytes;
  Unmarshal : bytes -> T -> result T;
  Marshal_nil : Marshal None = Ok (B "null");
  Marshal_no_NUL : forall out base, Marshal out = Ok base -> ~ In x00 base;
  Unmarshal_null : Unmarshal (B "null") zero = Ok zero
}.

(** How a call of the Go function ends in the process that runs it. *)
Inductive Outcome (T : Type) : Type :=
| Returns (out : option T) (err : option error)  (* return out, err *)
| Panics (msg : bytes)                           (* run-time panic *)
| Exits (code : Z)                               (* exit_group: no return *)
| Crashed                                        (* the process died in the logic *)
| Hangs.                                         (* blocked for ever *)
Arguments Returns {T} out err.
Arguments Panics {T} msg.
Arguments Exits {T} code.
Arguments Crashed {T}.
Arguments Hangs {T}.

(** A call of the caller's [toExecute], a function of no argument to a
    pointer to [T] and an error: it returns a pair, or ends the process it
    runs in (a panic, an exit, a fatal signal), or never returns. *)
Inductive Logic (T : Type) : Type :=
| Gives (out : option T) (err : option error)
| Crashes
| Runs_on.
Arguments Gives {T} out err.
Arguments Crashes {T}.
Arguments Runs_on {T}.


(** What the reader goroutine did: the calls it completed, each with the time
    at which it completed, and the message it offers on [done] with the time
    of the offer ([None]: it never gets that far). *)
Record ReaderRun : Type := {
  rr_events : list (nat * Event);
  rr_done : option (nat * bytes)
}.

Definition stamp (now : nat) (t : list Event) : list (nat * Event) :=
  map (pair now) t.

(** The events completed no later than [d]. *)
Definition until (d : nat) (t : list (nat * Event)) : list Event :=
  map snd (filter (fun te => fst te <=? d) t).

Inductive Selected : Type :=
| CaseDone (buf : bytes)
| CaseTimer.

Section Call.

Context {T : Type} {codec : JSON T}.

(** [filepath.Join] at two elements. *)
Variable Join : bytes -> bytes -> bytes.

Variable K : Kernel.

(** [unix.Pipe(pipes)] *)
Definition unix_Pipe : M (Errno + (Z * Z)) :=
  emit (EvPipe (k_pipe K)) ;;; ret (k_pipe K).

(** [unix.Kill(pid, sig)] *)
Definition unix_Kill (pid sig : Z) : M (option error) :=
  let r := k_kill K pid sig in
  emit (EvKill pid sig r) ;;;
  ret (match r with None => None | Some e => Some (Errno_Error e) end).

(** The loop of the reader goroutine (lines 55-71) and what follows it
    (lines 72-73).  [feed] is what is still to come out of the pipe and [now]
    the time so far. *)
Fixpoint reader_loop (fd : Z) (script : list ReadAns) (feed : bytes)
    (closed : bool) (now bufSize bufIndex : nat) (buf : bytes) : ReaderRun :=
  let '(buf, bufSize) :=
    if bufIndex =? bufSize
    then (buf ++ make bufSize, bufSize * 2)
    else (buf, bufSize) in
  match script with
  | [] => {| rr_events := []; rr_done := None |}
  | a :: script' =>
      let p := slice_from buf (Z.of_nat bufIndex) in
      match sys_read a feed closed (length p) with
      | None => {| rr_events := []; rr_done := None |}
      | Some (r, data) =>
          let now := now + ra_dt a in
          let '(t, (n, err)) := read fd (length p) r in
          let buf := firstn bufIndex buf ++ data ++ skipn (length data) p in
          match err with
          | Some e =>
              {| rr_events :=
                   stamp now
                     (t ++ [EvLogrus ErrorLevel
                              (B "failed to read from setns pipe: " ++ e)]);
                 rr_done := Some (now, []) |}
          | None =>
              let bufIndex := bufIndex + Z.to_nat n in
              if (n =? 0)%Z || Contains (slice_to buf (Z.of_nat bufIndex)) [x00]
              then
                {| rr_events := stamp now (t ++ trace_of (close_raw K fd));
                   rr_done := Some (now, slice_to buf (Z.of_nat bufIndex)) |}
              else
                let rest :=
                  reader_loop fd script' (skipn (length data) feed) closed
                    now bufSize bufIndex buf in
                {| rr_events := stamp now t ++ rr_events rest;
                   rr_done := rr_done rest |}
          end
      end
  end.

(** The reader goroutine (lines 51-74). *)
Definition reader (fd : Z) : ReaderRun :=
  let bufSize := 256 in
  let bufIndex := 0 in
  let buf := make bufSize in
  reader_loop fd (k_read K) (feed_bytes (k_feed K)) (feed_closed (k_feed K))
    0 bufSize bufIndex buf.

(** The [select] of lines 76-105: the timer of [time.After(timeout)] fires at
    [timeout] (at once when it is not positive); the case that is ready
    first is taken, and when both are ready together the scheduler picks. *)
Definition select (r : ReaderRun) (timeout : Z) : Selected :=
  let d := Z.to_nat timeout in
  match rr_done r with
  | None => CaseTimer
  | Some (t, buf) =>
      if t <? d then CaseDone buf
      else if d <? t then CaseTimer
      else if k_tie K then CaseDone buf else CaseTimer
  end.

(** The body of [case buf := <-done] (lines 78-96). *)
Definition on_done (buf : bytes) : Outcome T :=
  match index buf (Z.of_nat (length buf) - 1) with
  | None => Panics (B "runtime error: index out of range [-1]")
  | Some last_byte =>
      if negb (Byte.eqb last_byte x00)
      then Returns None (errors_New (B "invalid termination character, not NUL"))
      else
        let out := slice_to buf (Z.of_nat (length buf) - 1) in
        if HasPrefix out (B "err:")
        then Returns None (errors_New (TrimPrefix out (B "err:")))
        else if HasPrefix out (B "ok:")
        then
          match Unmarshal (TrimPrefix out (B "ok:")) zero with
          | Err e => Returns None (Some e)
          | Ok unmarshalled => Returns (Some unmarshalled) None
          end
        else Returns None (Some (B "unknown response: " ++ out))
  end.

(** The message the child builds (lines 127-141). *)
Definition message (out : option T) (err : option error) : bytes :=
  let msg :=
    match err with
    | Some e => B "err:" ++ e
    | None =>
        match Marshal out with
        | Err e => B "err:" ++ e
        | Ok base => B "ok:" ++ base
        end
    end in
  msg ++ [x00].

(** The write loop (lines 143-150): [true] when the loop is left, [false]
    when a write never returns. *)
Fixpoint write_loop (fd : Z) (script : list WriteAns) (msg : bytes)
    (written : Z) {struct script} : M bool :=
  if (written <? Z.of_nat (length msg))%Z then
    match script with
    | [] => ret false
    | a :: script' =>
        let p := slice_from msg written in
        '(newly_written, err) <- write fd p (sys_write a p) ;;
        match err with
        | Some _ => ret true
        | None => write_loop fd script' msg (written + newly_written)%Z
        end
    end
  else ret true.

(** The parent's branch, [if pid != 0] (lines 45-106). *)
Definition parent (pipes : Z * Z) (pid : Z) (timeout : Z) : M (Outcome T) :=
  close_raw K (snd pipes) ;;;
  let r := reader (fst pipes) in
  match select r timeout with
  | CaseDone buf =>
      emit_all (map snd (rr_events r)) ;;;
      ret (on_done buf)
  | CaseTimer =>
      emit_all (until (Z.to_nat timeout) (rr_events r)) ;;;
      err <- unix_Kill (int pid) SIGINT ;;
      match err with
      | Some e =>
          emit (EvLogrus WarnLevel (B "failed to kill setns process: " ++ e))
      | None => ret tt
      end ;;;
      ret (Returns None (errors_New (B "ForkAndSwitchToNamespace timed out")))
  end.

(** The child's part (lines 108-156). *)
Definition child (pipes : Z * Z) (mountNs netNs : bytes)
    (toExecute : Logic T) : M (Outcome T) :=
  err <- switchNs K mountNs netNs ;;
  r <- match err with
       | None => emit EvCall_toExecute ;;; ret toExecute
       | Some _ => ret (Gives None err)
       end ;;
  match r with
  | Runs_on => ret Hangs
  | Crashes => ret Crashed
  | Gives out err =>
      let msg := message out err in
      left_loop <- write_loop (snd pipes) (k_write K) msg 0 ;;
      if left_loop then
        close_raw K (snd pipes) ;;;
        emit (EvExitGroup 0) ;;;
        ret (Exits 0)
      else ret Hangs
  end.

(** [func ForkAndSwitchToNamespace[T interface{}](ns, timeout, toExecute)],
    with [ns string], [timeout time.Duration] and the result a pointer to
    [T] (nil is [None]) and an error. *)
Definition ForkAndSwitchToNamespace (ns : bytes) (timeout : Z)
    (toExecute : Logic T) : M (Outcome T) :=
  match BytePtrFromString (Join ns (B "mnt")) with
  | inl e => ret (Returns None (Some (Errno_Error e)))
  | inr mountNs =>
  match BytePtrFromString (Join ns (B "net")) with
  | inl e => ret (Returns None (Some (Errno_Error e)))
  | inr netNs =>
  made <- unix_Pipe ;;
  match made with
  | inl e =>
      ret (Returns None (Wrapf (Some (Errno_Error e)) (B "failed to init pipes")))
  | inr pipes =>
  emit (EvFork (k_fork K)) ;;;
  let '(pid, e) := RawSyscall (k_fork K) in
  let err := Some (Errno_Error e) in
  if (int pid =? -1)%Z
  then ret (Returns None (Wrapf err (B "failed to fork")))
  else if negb (pid =? 0)%Z
  then parent pipes pid timeout
  else child pipes mountNs netNs toExecute
  end end end.

End Call.

(** ** The two processes together *)

(** The kernel as the child sees it: the same answers, fork answering 0. *)
Definition in_child (K : Kernel) : Kernel :=
  {| k_pipe := k_pipe K; k_fork := SysOk 0; k_fs := k_fs K;
     k_setns := k_setns K; k_close := k_close K; k_write := k_write K;
     k_feed := k_feed K; k_read := k_read K; k_kill := k_kill K;
     k_tie := k_tie K |}.

(** The kernel with the read end of the pipe fed by [f]. *)
Definition fed_by (f : Feed) (K : Kernel) : Kernel :=
  {| k_pipe := k_pipe K; k_fork := k_fork K; k_fs := k_fs K;
     k_setns := k_setns K; k_close := k_close K; k_write := k_write K;
     k_feed := f; k_read := k_read K; k_kill := k_kill K;
     k_tie := k_tie K |}.

(** The bytes that the writes on [fd] logged in a trace put in the pipe. *)
Fixpoint piped (fd : Z) (t : list Event) : bytes :=
  match t with
  | [] => []
  | EvWrite fd' p r :: t' =>
      (if (fd' =? fd)%Z then taken p r else []) ++ piped fd t'
  | _ :: t' => piped fd t'
  end.

(** What a child's run leaves in the pipe: the bytes it wrote, and the write
    end closed once the child is gone, by its exit or by a crash (the parent
    has closed its own copy at line 47). *)
Definition feed_of {T} (w : Z) (run : M (Outcome T)) : Feed :=
  {| feed_bytes := piped w (trace_of run);
     feed_closed :=
       match value_of run with
       | Exits _ | Crashed => true
       | _ => false
       end |}.

Section System.

Context {T : Type} {codec : JSON T}.
Variable Join : bytes -> bytes -> bytes.

(** The run of the child that the fork of a call creates. *)
Definition forked_child (K : Kernel) (ns : bytes) (timeout : Z)
    (toExecute : Logic T) : M (Outcome T) :=
  ForkAndSwitchToNamespace Join (in_child K) ns timeout toExecute.

(** A call as its caller observes it: the function run in the calling
    process, its pipe fed by the child the fork creates. *)
Definition observed (K : Kernel) (ns : bytes) (timeout : Z)
    (toExecute : Logic T) : M (Outcome T) :=
  match k_pipe K with
  | inr pipes =>
      let f := feed_of (snd pipes) (forked_child K ns timeout toExecute) in
      ForkAndSwitchToNamespace Join (fed_by f K) ns timeout toExecute
  | inl _ => ForkAndSwitchToNamespace Join K ns timeout toExecute
  end.

End System.

(** * iscsi/initiator.go

    The functions of the package drive the iscsiadm command through a
    [*util.NamespaceExecutor] and read its output; [CleanupScsiNodes] looks
    at files and removes them inside the namespace of the executor, through
    [ForkAndSwitchToNamespace].

    What is modelled and how:
    - the executor, the lookup [util.GetKnownDevices], [util.NsStat] and the
      type [util.KernelDevice] are not part of these sources: the executor
      is a record of answers, each a function of the calls made so far, and
      the device type is a parameter;
    - every call made through the executor, every sleep, every line logged
      and every call of [ForkAndSwitchToNamespace] is recorded in order, so
      that statements about what was or was not run are statements about
      that record;
    - a call of [ForkAndSwitchToNamespace] is the function of the first part
      as its caller observes it, under the kernel that the host supplies for
      that call; the function literal handed to it is what its body does in
      the child, where a library call returns, ends the child or blocks;
    - [bufio.Scanner] is the list of the lines it gives, with its limit on
      the length of a line;
    - [strings.TrimSpace], [filepath.Join] and [filepath.Dir] are
      parameters, and so are the package variables
      [DeviceWaitRetryCounts], [DeviceWaitRetryInterval] and
      [ScsiNodesDirs]; a [time.Duration] is its number of nanoseconds. *)

(** ** Library helpers *)

(** [strings.HasSuffix]. *)
Definition HasSuffix (s suffix : bytes) : bool :=
  HasPrefix (rev s) (rev suffix).

(** [strings.Split(s, sep)[0]] for a non-empty [sep]: what comes before the
    first [sep] in [s], or all of [s]. *)
Fixpoint before_first (s sep : bytes) : bytes :=
  if HasPrefix s sep then []
  else match s with
       | [] => []
       | c :: s' => c :: before_first s' sep
       end.

(** [strconv.Itoa], [strconv.FormatInt(i, 10)] and the verb [%v] at an
    integer: the decimal text. *)
Definition Itoa (i : Z) : bytes := B (NilZero.string_of_int (Z.to_int i)).

(** [bufio.MaxScanTokenSize]. *)
Definition MaxScanTokenSize : Z := 65536%Z.

(** The [dropCR] of bufio: one trailing carriage return is dropped. *)
Definition dropCR (data : bytes) : bytes :=
  match rev data with
  | x0d :: r => rev r
  | _ => data
  end.

(** The texts that [scanner.Scan()] / [scanner.Text()] give in turn for a
    [bufio.NewScanner(strings.NewReader(data))] with the default split
    function: the lines without their end-of-line marker, the last one also
    when it has none; scanning stops without a text at a line that does not
    fit the scanner's buffer.  [cur] is the line read so far. *)
Fixpoint scan_lines (data cur : bytes) : list bytes :=
  match data with
  | [] =>
      match cur with
      | [] => []
      | _ :: _ =>
          if (Z.of_nat (length cur) <? MaxScanTokenSize)%Z
          then [dropCR cur] else []
      end
  | c :: data' =>
      if Byte.eqb c x0a
      then if (Z.of_nat (length cur) <? MaxScanTokenSize)%Z
           then dropCR cur :: scan_lines data' []
           else []
      else scan_lines data' (cur ++ [c])
  end.

Definition Scanner_lines (data : bytes) : list bytes := scan_lines data [].

(** [time.Second], in nanoseconds. *)
Definition Second : Z := 1000000000%Z.

(** ** The executor and the record of what was done *)

(** An [fs.FileInfo], as far as it is looked at: [Size()] and
    [Mode().IsRegular()]. *)
Record FileInfo : Type := {
  Size : Z;
  IsRegular : bool
}.

(** What [CleanupScsiNodes] has [util.ForkAndSwitchToNamespace] run in the
    namespace: the four function literals of lines 336-377, each with the
    path it captures. *)
Inductive Job : Type :=
| JobExists (path : bytes)   (* util.NsStat(path), for its error alone *)
| JobList (path : bytes)     (* listFiles(path) *)
| JobStat (path : bytes)     (* util.NsStat(path) *)
| JobRemove (path : bytes).  (* os.Remove(path) *)

Inductive Call : Type :=
| CallExecute (binary : bytes) (opts : list bytes)
| CallExecuteWithTimeout (timeout : Z) (binary : bytes) (opts : list bytes)
| CallGetKnownDevices
| CallSleep (d : Z)
| CallInfof (msg : bytes)
| CallForkAndSwitchToNamespace (ns : bytes) (timeout : Z) (job : Job).

(** A library call made by the logic in the forked child: it returns, or it
    ends the child, or it never returns (the note of ns_evaluator.go, lines
    110-113). *)
Inductive InChild (A : Type) : Type :=
| Back (a : A)
| Dies
| Blocks.
Arguments Back {A} a.
Arguments Dies {A}.
Arguments Blocks {A}.

(** A [*util.NamespaceExecutor], with the host it acts on, each answer
    depending on the calls made before: what a command prints and the error
    it ends with; what [util.GetKnownDevices] gives; the namespace directory
    that [GetNamespace()] names; what the kernel does during a call of
    [util.ForkAndSwitchToNamespace]; and, in the child of such a call, what
    [util.NsStat] returns, the paths that [filepath.WalkDir] hands to its
    function with the error it returns once that function has answered nil
    each time, and what [os.Remove] returns. *)
Record NamespaceExecutor (KernelDevice : Type) : Type := {
  ne_answer : list Call -> Call -> bytes * option error;
  ne_devices : list Call -> (bytes -> option KernelDevice) * option error;
  ne_namespace : bytes;
  ne_kernel : list Call -> Kernel;
  ne_NsStat : list Call -> bytes -> InChild (option FileInfo * option error);
  ne_WalkDir : list Call -> bytes -> InChild (list bytes * option error);
  ne_Remove : list Call -> bytes -> InChild (option error)
}.

(** A computation that records the calls it makes after those made before. *)
Definition Sh (A : Type) : Type := list Call -> list Call * A.

Definition sh_ret {A} (a : A) : Sh A := fun h => (h, a).

Definition sh_bind {A C} (m : Sh A) (f : A -> Sh C) : Sh C :=
  fun h => let (h', a) := m h in f a h'.

Declare Scope sh_scope.
Delimit Scope sh_scope with sh.
Notation "x <-- m ;; k" := (sh_bind m (fun x => k))
  (at level 61, m at next level, right associativity) : sh_scope.
Notation "' pat <-- m ;; k" := (sh_bind m (fun x => match x with pat => k end))
  (at level 61, pat pattern, m at next level, right associativity) : sh_scope.
Open Scope sh_scope.

Module Iscsi.

Section Package.

Variable KernelDevice : Type.

(** [strings.TrimSpace]. *)
Variable TrimSpace : bytes -> bytes.

(** The package variables [DeviceWaitRetryCounts] and
    [DeviceWaitRetryInterval]. *)
Variable DeviceWaitRetryCounts : Z.
Variable DeviceWaitRetryInterval : Z.

Definition iscsiBinary : bytes := B "iscsiadm".
Definition scanModeManual : bytes := B "manual".
Definition scanModeAuto : bytes := B "auto".
Definition ScanTimeout : Z := (10 * Second)%Z.
Definition shellBinary : bytes := B "sh".

(** The package variable [ScsiNodesDirs]. *)
Variable ScsiNodesDirs : list bytes.

(** [filepath.Join] and [filepath.Dir]. *)
Variable Join : bytes -> bytes -> bytes.
Variable Dir : bytes -> bytes.

(** encoding/json at the three result types of [CleanupScsiNodes]: the
    empty interface, a slice of strings (the nil slice is the empty list)
    and [fs.FileInfo] (the nil interface is [None]). *)
Variable Any : Type.
Context {codec_any : JSON Any}.
Context {codec_paths : JSON (list bytes)}.
Context {codec_info : JSON (option FileInfo)}.

Variable ne : NamespaceExecutor KernelDevice.

(** [ne.Execute(binary, opts)] *)
Definition Execute (binary : bytes) (opts : list bytes)
  : Sh (bytes * option error) :=
  fun h => (h ++ [CallExecute binary opts],
            ne_answer ne h (CallExecute binary opts)).

(** [ne.ExecuteWithTimeout(timeout, binary, opts)] *)
Definition ExecuteWithTimeout (timeout : Z) (binary : bytes)
    (opts : list bytes) : Sh (bytes * option error) :=
  fun h => (h ++ [CallExecuteWithTimeout timeout binary opts],
            ne_answer ne h (CallExecuteWithTimeout timeout binary opts)).

(** [util.GetKnownDevices(ne)] *)
Definition GetKnownDevices
  : Sh ((bytes -> option KernelDevice) * option error) :=
  fun h => (h ++ [CallGetKnownDevices], ne_devices ne h).

(** [time.Sleep(d)] *)
Definition Sleep (d : Z) : Sh unit := fun h => (h ++ [CallSleep d], tt).

(** [logrus.Infof], with the line it logs. *)
Definition Infof (msg : bytes) : Sh unit :=
  fun h => (h ++ [CallInfof msg], tt).

(** [append(opts, "-p", ip)] when [ip] is not the empty string. *)
Definition with_portal (opts : list bytes) (ip : bytes) : list bytes :=
  match ip with
  | [] => opts
  | _ :: _ => opts ++ [B "-p"; ip]
  end.

Definition CheckForInitiatorExistence : Sh (option error) :=
  let opts := [B "--version"] in
  '(_, err) <-- Execute iscsiBinary opts ;;
  sh_ret err.

Definition UpdateScsiDeviceTimeout (devName : bytes) (timeout : Z)
  : Sh (option error) :=
  let opts :=
    [B "-c";
     B "echo " ++ Itoa timeout ++ B " > /sys/block/" ++ devName
       ++ B "/device/timeout"] in
  '(_, err) <-- Execute shellBinary opts ;;
  sh_ret err.

Definition UpdateIscsiDeviceAbortTimeout (target : bytes) (timeout : Z)
  : Sh (option error) :=
  let opts :=
    [B "-m"; B "node"; B "-T"; target; B "-o"; B "update";
     B "-n"; B "node.session.err_timeo.abort_timeout";
     B "-v"; Itoa timeout] in
  '(_, err) <-- Execute iscsiBinary opts ;;
  sh_ret err.

Definition DiscoverTarget (ip target : bytes) : Sh (option error) :=
  let opts := [B "-m"; B "discovery"; B "-t"; B "sendtargets"; B "-p"; ip] in
  '(output, err) <-- Execute iscsiBinary opts ;;
  match err with
  | Some _ => sh_ret err
  | None =>
      if Contains output (B "Could not")
      then sh_ret (Some (B "cannot discover target: " ++ output))
      else if negb (Contains output target)
      then sh_ret (Some (B "cannot find target " ++ target
                           ++ B " in discovered targets " ++ output))
      else sh_ret None
  end.

Definition DeleteDiscoveredTarget (ip target : bytes) : Sh (option error) :=
  let opts := [B "-m"; B "node"; B "-o"; B "delete"; B "-T"; target] in
  let opts := with_portal opts ip in
  '(_, err) <-- Execute iscsiBinary opts ;;
  sh_ret err.

Definition IsTargetDiscovered (ip target : bytes) : Sh bool :=
  let opts := [B "-m"; B "node"; B "-T"; target] in
  let opts := with_portal opts ip in
  '(_, err) <-- Execute iscsiBinary opts ;;
  sh_ret (match err with None => true | Some _ => false end).

Definition manualScanSession (ip target : bytes) : Sh (option error) :=
  let opts := [B "-m"; B "node"; B "-T"; target; B "-p"; ip; B "--rescan"] in
  '(_, err) <-- ExecuteWithTimeout ScanTimeout iscsiBinary opts ;;
  sh_ret err.

Definition getIscsiNodeSessionScanMode (ip target : bytes)
  : Sh (bytes * option error) :=
  let opts :=
    [B "-m"; B "node"; B "-T"; target; B "-p"; ip; B "-o"; B "show"] in
  '(output, err) <-- ExecuteWithTimeout ScanTimeout iscsiBinary opts ;;
  match err with
  | Some _ => sh_ret ([], err)
  | None =>
      if Contains output (B "node.session.scan = manual")
      then sh_ret (scanModeManual, None)
      else sh_ret (scanModeAuto, None)
  end.

Definition LoginTarget (ip target : bytes) : Sh (option error) :=
  let opts := [B "-m"; B "node"; B "-T"; target; B "-p"; ip; B "--login"] in
  '(_, err) <-- Execute iscsiBinary opts ;;
  match err with
  | Some _ => sh_ret err
  | None =>
  '(scanMode, err) <-- getIscsiNodeSessionScanMode ip target ;;
  match err with
  | Some _ => sh_ret (Wrapf err (B "Failed to get node.session.scan mode"))
  | None =>
  if list_eq_dec byte_eq_dec scanMode scanModeManual
  then
    _ <-- Infof (B "Manually rescan LUNs of the target " ++ target
                  ++ B ":" ++ ip) ;;
    err <-- manualScanSession ip target ;;
    match err with
    | Some _ =>
        sh_ret (Wrapf err
                  (B "failed to manually rescan iscsi session of target "
                     ++ target ++ B ":" ++ ip))
    | None => sh_ret None
    end
  else
    _ <-- Infof
            (B "default: automatically rescan all LUNs of all iscsi sessions") ;;
    sh_ret None
  end end.

Definition LogoutTarget (ip target : bytes) : Sh (option error) :=
  let opts := [B "-m"; B "node"; B "-T"; target; B "--logout"] in
  let opts := with_portal opts ip in
  '(_, err) <-- Execute iscsiBinary opts ;;
  sh_ret err.

(** The loop of [IsTargetLoggedIn] over the scanner's lines (lines
    193-202). *)
Fixpoint session_found (ip target : bytes) (lines : list bytes) : bool :=
  match lines with
  | [] => false
  | line :: lines' =>
      if Contains line (ip ++ B ":")
      then if HasSuffix line (B " " ++ target)
              || Contains line (B " " ++ target ++ B " ")
           then true
           else session_found ip target lines'
      else session_found ip target lines'
  end.

Definition IsTargetLoggedIn (ip target : bytes) : Sh bool :=
  let opts := [B "-m"; B "session"] in
  '(output, err) <-- Execute iscsiBinary opts ;;
  match err with
  | Some _ => sh_ret false
  | None => sh_ret (session_found ip target (Scanner_lines output))
  end.

(** The loop of [findScsiDevice] over the scanner's lines (lines 270-301):
    the name it leaves in [name] (empty when the loop ends without a break),
    or the error it returns from inside the loop. *)
Fixpoint scan_for_disk (output targetLine ipLine lunLine : bytes)
    (lines : list bytes) (inTarget inIP inLun : bool) : result bytes :=
  let diskPrefix := B "Attached scsi disk" in
  let stateLine := B "State:" in
  match lines with
  | [] => Ok []
  | text :: lines' =>
      if negb inTarget
         && (Contains text (targetLine ++ B " ") || HasSuffix text targetLine)
      then scan_for_disk output targetLine ipLine lunLine lines'
             true inIP inLun
      else if inTarget && Contains text ipLine
      then scan_for_disk output targetLine ipLine lunLine lines'
             inTarget true inLun
      else if inIP && Contains text lunLine
      then scan_for_disk output targetLine ipLine lunLine lines'
             inTarget inIP true
      else if inLun
      then
        let line := text in
        if negb (Contains line diskPrefix)
        then Err (B "invalid output format, cannot find disk in: " ++ line
                    ++ [x0a] ++ B " " ++ output)
        else
          let line := TrimSpace (before_first line stateLine) in
          let line := TrimPrefix line diskPrefix in
          Ok (TrimSpace line)
      else scan_for_disk output targetLine ipLine lunLine lines'
             inTarget inIP inLun
  end.

Definition findScsiDevice (ip target : bytes) (lun : Z)
  : Sh (option KernelDevice * option error) :=
  let opts := [B "-m"; B "session"; B "-P"; B "3"] in
  '(output, err) <-- Execute iscsiBinary opts ;;
  match err with
  | Some _ => sh_ret (None, err)
  | None =>
  let targetLine := B "Target: " ++ target in
  let ipLine := B " " ++ ip ++ B ":" in
  let lunLine := B "Lun: " ++ Itoa lun in
  match scan_for_disk output targetLine ipLine lunLine (Scanner_lines output)
          false false false with
  | Err e => sh_ret (None, Some e)
  | Ok name =>
  match name with
  | [] => sh_ret (None, Some (B "cannot find iSCSI device"))
  | _ :: _ =>
  '(devices, err) <-- GetKnownDevices ;;
  match err with
  | Some _ => sh_ret (None, err)
  | None =>
  match devices name with
  | None =>
      sh_ret (None,
              Some (B "cannot find kernel device for iSCSI device: " ++ name))
  | Some dev => sh_ret (Some dev, None)
  end end end end end.

(** The loop of [GetDevice] (lines 164-170), with [n] passes left. *)
Fixpoint GetDevice_loop (ip target : bytes) (lun : Z) (n : nat)
    (dev : option KernelDevice) (err : option error)
  : Sh (option KernelDevice * option error) :=
  match n with
  | 0 => sh_ret (dev, err)
  | S n' =>
      '(dev, err) <-- findScsiDevice ip target lun ;;
      match err with
      | None => sh_ret (dev, err)
      | Some _ =>
          _ <-- Sleep DeviceWaitRetryInterval ;;
          GetDevice_loop ip target lun n' dev err
      end
  end.

Definition GetDevice (ip target : bytes) (lun : Z)
  : Sh (option KernelDevice * option error) :=
  '(dev, err) <-- GetDevice_loop ip target lun
                    (Z.to_nat DeviceWaitRetryCounts) None None ;;
  match err with
  | Some _ => sh_ret (None, err)
  | None => sh_ret (dev, None)
  end.

Definition RescanTarget (ip target : bytes) : Sh (option error) :=
  let opts := [B "-m"; B "node"; B "-T"; target; B "-R"] in
  let opts := with_portal opts ip in
  '(_, err) <-- Execute iscsiBinary opts ;;
  sh_ret err.

(** [time.Minute], in nanoseconds. *)
Definition Minute : Z := (60 * Second)%Z.

(** [util.ForkAndSwitchToNamespace(ne.GetNamespace(), time.Minute, logic)],
    as its caller observes it.  [job] names the function literal, [logic]
    is what that literal does in the child. *)
Definition in_namespace {T : Type} {codec : JSON T} (job : Job)
    (logic : list Call -> Logic T) : Sh (Outcome T) :=
  fun h =>
    (h ++ [CallForkAndSwitchToNamespace (ne_namespace ne) Minute job],
     value_of (observed Join (ne_kernel ne h) (ne_namespace ne) Minute
                 (logic h))).

(** The literal of lines 336-339 and 344-347:
    [_, err := util.NsStat(path); return nil, err]. *)
Definition check_exists (path : bytes) : Sh (Outcome Any) :=
  in_namespace (JobExists path)
    (fun h =>
       match ne_NsStat ne h path with
       | Back (_, err) => Gives None err
       | Dies => Crashes
       | Blocks => Runs_on
       end).

(** [listFiles] (lines 321-332): the walk function appends every path it
    is given and answers nil. *)
Definition listFiles (path : bytes) (h : list Call)
  : InChild (list bytes * option error) :=
  match ne_WalkDir ne h path with
  | Back (out, err) =>
      match err with
      | Some _ => Back ([], err)
      | None => Back (out, None)
      end
  | Dies => Dies
  | Blocks => Blocks
  end.

(** The literal of lines 352-355:
    [output, err := listFiles(path); return &output, err]. *)
Definition list_files (path : bytes) : Sh (Outcome (list bytes)) :=
  in_namespace (JobList path)
    (fun h =>
       match listFiles path h with
       | Back (output, err) => Gives (Some output) err
       | Dies => Crashes
       | Blocks => Runs_on
       end).

(** The literal of lines 360-363:
    [output, err := util.NsStat(path); return &output, err]. *)
Definition stat_file (path : bytes) : Sh (Outcome (option FileInfo)) :=
  in_namespace (JobStat path)
    (fun h =>
       match ne_NsStat ne h path with
       | Back (output, err) => Gives (Some output) err
       | Dies => Crashes
       | Blocks => Runs_on
       end).

(** The literals of lines 368-370 and 375-377:
    [return nil, os.Remove(path)]. *)
Definition remove_path (path : bytes) : Sh (Outcome Any) :=
  in_namespace (JobRemove path)
    (fun h =>
       match ne_Remove ne h path with
       | Back err => Gives None err
       | Dies => Crashes
       | Blocks => Runs_on
       end).

(** A function that returns an error alone ends as the call that did not
    return to it ended. *)
Definition ends_as {T : Type} (o : Outcome T) : Outcome unit :=
  match o with
  | Returns _ err => Returns None err
  | Panics msg => Panics msg
  | Exits code => Exits code
  | Crashed => Crashed
  | Hangs => Hangs
  end.

(** The panic of a dereference of nil. *)
Definition nil_dereference : bytes :=
  B "runtime error: invalid memory address or nil pointer dereference".

(** The loop over the files (lines 359-379): [None] when the loop runs to
    its end, and otherwise how the function ends from inside it. *)
Fixpoint clean_files (files : list bytes) : Sh (option (Outcome unit)) :=
  match files with
  | [] => sh_ret None
  | file :: files' =>
      stat <-- stat_file file ;;
      match stat with
      | Returns output None =>
          match output with
          | Some (Some info) =>
              if (Size info =? 0)%Z && IsRegular info
              then
                removed <-- remove_path file ;;
                match removed with
                | Returns _ None =>
                    upper <-- remove_path (Dir file) ;;
                    match upper with
                    | Returns _ _ => clean_files files'
                    | _ => sh_ret (Some (ends_as upper))
                    end
                | Returns _ (Some e) =>
                    sh_ret
                      (Some
                         (Returns None
                            (Wrapf (Some e)
                               (B "failed to clean up empty iSCSI node file "
                                  ++ file))))
                | _ => sh_ret (Some (ends_as removed))
                end
              else clean_files files'
          | _ => sh_ret (Some (Panics nil_dereference))
          end
      | Returns _ (Some e) =>
          sh_ret
            (Some
               (Returns None
                  (Wrapf (Some e)
                     (B "failed to check iSCSI node file " ++ file))))
      | _ => sh_ret (Some (ends_as stat))
      end
  end.

(** The loop over the directories (lines 335-380). *)
Fixpoint clean_dirs (target : bytes) (dirs : list bytes)
  : Sh (Outcome unit) :=
  match dirs with
  | [] => sh_ret (Returns None None)
  | dir :: dirs' =>
      found <-- check_exists dir ;;
      match found with
      | Returns _ (Some _) => clean_dirs target dirs'
      | Returns _ None =>
          let targetDir := Join dir target in
          found <-- check_exists targetDir ;;
          match found with
          | Returns _ (Some _) => clean_dirs target dirs'
          | Returns _ None =>
              listed <-- list_files targetDir ;;
              match listed with
              | Returns output None =>
                  match output with
                  | Some files =>
                      ended <-- clean_files files ;;
                      match ended with
                      | Some o => sh_ret o
                      | None => clean_dirs target dirs'
                      end
                  | None => sh_ret (Panics nil_dereference)
                  end
              | Returns _ (Some e) =>
                  sh_ret
                    (Returns None
                       (Wrapf (Some e)
                          (B "failed to search iSCSI directory "
                             ++ targetDir)))
              | _ => sh_ret (ends_as listed)
              end
          | _ => sh_ret (ends_as found)
          end
      | _ => sh_ret (ends_as found)
      end
  end.

Definition CleanupScsiNodes (target : bytes) : Sh (Outcome unit) :=
  clean_dirs target ScsiNodesDirs.

End Package.

End Iscsi.

(** * The vocabulary of the statements *)

(** ** What the kernel does *)

(** The kernel answers every read of the script with bytes (or with the end
    of file), never with an error. *)
Definition answers_reads (script : list ReadAns) : Prop :=
  Forall (fun a => exists more, ra_kind a = RdOk more) script.

(** The time all the reads of a script take together. *)
Definition total_dt (script : list ReadAns) : nat :=
  fold_right (fun a n => ra_dt a + n) 0 script.

(** The kernel answers every write of the script by taking bytes. *)
Definition answers_writes (script : list WriteAns) : Prop :=
  Forall (fun a => exists more, a = WrOk more) script.

(** The kernel carries a message through the pipe within the deadline: it
    takes every write and answers every read, with answers enough for the
    whole message, and all the reads return before the timer fires.  The
    message is a Go slice, so its length fits in an [int]. *)
Record Carries (K : Kernel) (msg : bytes) (timeout : Z) : Prop := {
  carries_writes : answers_writes (k_write K);
  carries_written : length msg <= length (k_write K);
  carries_reads : answers_reads (k_read K);
  carries_read : length msg < length (k_read K);
  carries_fits : (Z.of_nat (length msg) < 2 ^ 63)%Z;
  carries_in_time : total_dt (k_read K) < Z.to_nat timeout
}.

(** The kernel opens the handle at [path] as the descriptor [fd]. *)
Definition opens_as (K : Kernel) (path : bytes) (fd : Z) : Prop :=
  sys_openat K path = SysOk fd /\ (0 <= fd < 2 ^ 63)%Z.

(** The kernel lets every step of the namespace switch succeed. *)
Definition switches (K : Kernel) (mountNs netNs : bytes) : Prop :=
  exists fd fd',
    opens_as K netNs fd /\ k_setns K fd CLONE_NEWNET = SysOk 0
    /\ k_close K fd = SysOk 0
    /\ opens_as K mountNs fd' /\ k_setns K fd' CLONE_NEWNS = SysOk 0
    /\ k_close K fd' = SysOk 0.

(** The steps [switchNs] takes, in order. *)
Inductive Step : Type :=
| OpenNet | SetnsNet | CloseNet | OpenMount | SetnsMount | CloseMount.

(** The text [switchNs] wraps the error of a step with. *)
Definition step_text (s : Step) : bytes :=
  match s with
  | OpenNet => B "failed to open net namespace"
  | SetnsNet => B "failed to setns net namespace"
  | CloseNet => B "failed to close net namespace"
  | OpenMount => B "failed to open mount namespace"
  | SetnsMount => B "failed to setns mount namespace"
  | CloseMount => B "failed to close mount namespace"
  end.

(** The steps on the network namespace. *)
Definition is_net_step (s : Step) : bool :=
  match s with
  | OpenNet | SetnsNet | CloseNet => true
  | _ => false
  end.

(** The kernel lets the steps before [s] succeed and answers step [s] with
    the error [e]. *)
Definition fails_at (K : Kernel) (mountNs netNs : bytes) (s : Step)
    (e : Errno) : Prop :=
  match s with
  | OpenNet => sys_openat K netNs = SysErr e
  | SetnsNet =>
      exists fd, opens_as K netNs fd /\ k_setns K fd CLONE_NEWNET = SysErr e
  | CloseNet =>
      exists fd, opens_as K netNs fd /\ k_setns K fd CLONE_NEWNET = SysOk 0
                 /\ k_close K fd = SysErr e
  | OpenMount =>
      exists fd, opens_as K netNs fd /\ k_setns K fd CLONE_NEWNET = SysOk 0
                 /\ k_close K fd = SysOk 0
                 /\ sys_openat K mountNs = SysErr e
  | SetnsMount =>
      exists fd fd', opens_as K netNs fd /\ k_setns K fd CLONE_NEWNET = SysOk 0
                 /\ k_close K fd = SysOk 0
                 /\ opens_as K mountNs fd'
                 /\ k_setns K fd' CLONE_NEWNS = SysErr e
  | CloseMount =>
      exists fd fd', opens_as K netNs fd /\ k_setns K fd CLONE_NEWNET = SysOk 0
                 /\ k_close K fd = SysOk 0
                 /\ opens_as K mountNs fd'
                 /\ k_setns K fd' CLONE_NEWNS = SysOk 0
                 /\ k_close K fd' = SysErr e
  end.

(** ** What a trace shows *)

(** The paths of the [openat] calls of a trace, in order. *)
Fixpoint opened (t : list Event) : list bytes :=
  match t with
  | [] => []
  | EvOpenat _ path _ _ _ :: t' => path :: opened t'
  | _ :: t' => opened t'
  end.

(** The namespace kinds of the [setns] calls of a trace, in order. *)
Fixpoint joined (t : list Event) : list Z :=
  match t with
  | [] => []
  | EvSetns _ nstype _ :: t' => nstype :: joined t'
  | _ :: t' => joined t'
  end.

(** The events of the namespace switch: opens, joins, and closes of
    descriptors that an open gave. *)
Definition ns_event (K : Kernel) (e : Event) : Prop :=
  match e with
  | EvOpenat _ _ _ _ _ => True
  | EvSetns _ _ _ => True
  | EvClose fd _ =>
      exists path v, sys_openat K path = SysOk v /\ fd = int (v mod 2 ^ 64)
  | _ => False
  end.

(** The deadline elapses before the reader offers a message: it never offers
    one, or offers it later. *)
Definition deadline_first (r : ReaderRun) (timeout : Z) : Prop :=
  match rr_done r with
  | None => True
  | Some (t, _) => Z.to_nat timeout < t
  end.

(** The reader completed a read that failed. *)
Definition read_failed_in (r : ReaderRun) : Prop :=
  exists t fd cap e, In (t, EvRead fd cap (SysErr e)) (rr_events r).

(** The reader's first read on [fd] answered the end of file. *)
Definition eof_at_once (fd : Z) (r : ReaderRun) : Prop :=
  exists t cap rest, rr_events r = (t, EvRead fd cap (SysOk 0)) :: rest.

(** ** What a call meets *)

Section Vocabulary.

Context {T : Type} {codec : JSON T}.
Variable Join : bytes -> bytes -> bytes.

(** The set-up of a call succeeds: both paths are free of NUL bytes, the
    pipe is made, and fork answers the child's process id to the caller. *)
Record Cloned (K : Kernel) (ns : bytes) (pipes : Z * Z) (pid : Z)
    (mountNs netNs : bytes) : Prop := {
  cloned_mnt : BytePtrFromString (Join ns (B "mnt")) = inr mountNs;
  cloned_net : BytePtrFromString (Join ns (B "net")) = inr netNs;
  cloned_pipe : k_pipe K = inr pipes;
  cloned_fork : k_fork K = SysOk pid;
  cloned_pid : (0 < pid < 2 ^ 63)%Z
}.

(** What the child encodes: the error of the namespace switch when it
    failed, and otherwise what the logic returned (lines 115-124). *)
Definition encoded (K : Kernel) (mountNs netNs : bytes)
    (toExecute : Logic T) : Logic T :=
  match value_of (switchNs K mountNs netNs) with
  | None => toExecute
  | Some e => Gives None (Some e)
  end.

(** The value round-trips through encoding/json at [T]: it is encoded, and
    its encoding decodes, into a fresh zero value, to the value itself. *)
Definition Serializable (v : T) : Prop :=
  exists base, Marshal (Some v) = Ok base /\ Unmarshal base zero = Ok v.

End Vocabulary.

(** ** What the namespace switch leaves behind *)

(** The event is a close of the descriptor [fd]. *)
Definition closes_fd (fd : Z) (e : Event) : bool :=
  match e with
  | EvClose fd' _ => (fd' =? fd)%Z
  | _ => false
  end.

(** Every descriptor that an [openat] of the trace gave is closed by a later
    call of the trace. *)
Fixpoint handles_closed (t : list Event) : Prop :=
  match t with
  | [] => True
  | EvOpenat _ _ _ _ (SysOk fd) :: t' =>
      ((0 <= fd < 2 ^ 63)%Z -> existsb (closes_fd fd) t' = true)
      /\ handles_closed t'
  | _ :: t' => handles_closed t'
  end.

(** The event is a write that the kernel refused. *)
Definition refused_write (e : Event) : bool :=
  match e with
  | EvWrite _ _ (SysErr _) => true
  | _ => false
  end.

(** ** What the executor was asked *)

(** From the history [h], [k] attempts in a row have failed, each followed
    by a sleep of [d]: [h'] is the history after them and [e] the error of
    the last one (nil when there was none). *)
Inductive failed_attempts (A : Type) (attempt : Sh (A * option error))
    (d : Z) (h : list Call)
  : nat -> list Call -> option error -> Prop :=
| failed_none : failed_attempts attempt d h 0 h None
| failed_more (k : nat) (h' : list Call) (e0 : option error)
    (h'' : list Call) (a : A) (e : error) :
    failed_attempts attempt d h k h' e0 ->
    attempt h' = (h'', (a, Some e)) ->
    failed_attempts attempt d h (S k) (h'' ++ [CallSleep d]) (Some e).
Arguments failed_attempts {A} attempt d h _ _ _.
Arguments failed_none {A} attempt d h.
Arguments failed_more {A} [attempt d h k h' e0 h'' a e] _ _.

(** ** What a session listing holds *)

(** The line names the target (initiator.go, lines 277-278). *)
Definition names_target (targetLine text : bytes) : bool :=
  Contains text (targetLine ++ B " ") || HasSuffix text targetLine.

(** The name that [findScsiDevice] reads off a disk line (lines 296-298). *)
Definition disk_name (TrimSpace : bytes -> bytes) (line : bytes) : bytes :=
  TrimSpace
    (TrimPrefix (TrimSpace (before_first line (B "State:")))
       (B "Attached scsi disk")).

(** The lines hold, in this order: a first line [t] that names the target; a
    first line [i] after it with the portal; a first line [u] after that
    with the LUN and without the portal; and [d], the first line after [u]
    with neither the portal nor the LUN.  The lines between [i] and [u] are
    any lines with the portal or without the LUN. *)
Definition leads_to (targetLine ipLine lunLine : bytes) (lines : list bytes)
    (d : bytes) : Prop :=
  exists l1 t l2 i l3 u l4 rest,
    lines = l1 ++ t :: l2 ++ i :: l3 ++ u :: l4 ++ d :: rest
    /\ Forall (fun x => names_target targetLine x = false) l1
    /\ names_target targetLine t = true
    /\ Forall (fun x => Contains x ipLine = false) l2
    /\ Contains i ipLine = true
    /\ Forall (fun x => Contains x ipLine = true \/ Contains x lunLine = false)
         l3
    /\ (Contains u ipLine = false /\ Contains u lunLine = true)
    /\ Forall (fun x => Contains x ipLine = true \/ Contains x lunLine = true)
         l4
    /\ (Contains d ipLine = false /\ Contains d lunLine = false).

(** What [findScsiDevice] makes of the line it examines (lines 292-298):
    the name of the disk, or the error it returns from inside the loop. *)
Definition examined (TrimSpace : bytes -> bytes) (output line : bytes)
  : result bytes :=
  if Contains line (B "Attached scsi disk")
  then Ok (disk_name TrimSpace line)
  else Err (B "invalid output format, cannot find disk in: " ++ line
              ++ [x0a] ++ B " " ++ output).

(** ** What a clean-up removes *)

(** [P] holds of every one of the [calls], each with the calls made before
    it, which start with [h]. *)
Fixpoint each_call (P : list Call -> Call -> Prop) (h calls : list Call)
  : Prop :=
  match calls with
  | [] => True
  | c :: calls' => P h c /\ each_call P (h ++ [c]) calls'
  end.

Section Removals.

Variable KernelDevice : Type.
Variable Join : bytes -> bytes -> bytes.
Variable Dir : bytes -> bytes.
Variable Any : Type.
Context {codec_any : JSON Any}.
Context {codec_info : JSON (option FileInfo)}.
Variable ne : NamespaceExecutor KernelDevice.

(** The call into the namespace for [job]. *)
Definition into_namespace (job : Job) : Call :=
  CallForkAndSwitchToNamespace (ne_namespace ne) Iscsi.Minute job.

(** After the calls [h], [file] has just been reported as an empty regular
    file: the last call is the stat of [file], and what came back from it is
    a file status of size 0 and of regular mode, with a nil error. *)
Definition reported_empty (h : list Call) (file : bytes) : Prop :=
  exists h' info,
    h = h' ++ [into_namespace (JobStat file)]
    /\ snd (Iscsi.stat_file Join ne file h') = Returns (Some (Some info)) None
    /\ Size info = 0%Z
    /\ IsRegular info = true.

(** The call [c], made after the calls [h], is not a removal, or is the
    removal of a file just reported as empty, or is the removal of the
    directory of such a file just after the file itself was removed. *)
Definition accounted_for (h : list Call) (c : Call) : Prop :=
  match c with
  | CallForkAndSwitchToNamespace _ _ (JobRemove p) =>
      reported_empty h p
      \/ exists h' file out,
           h = h' ++ [into_namespace (JobRemove file)]
           /\ reported_empty h' file
           /\ snd (Iscsi.remove_path (Any := Any) Join ne file h') = Returns out None
           /\ p = Dir file
  | _ => True
  end.

End Removals.

(** The three errors that [CleanupScsiNodes] wraps. *)
Definition cleanup_error (e : error) : Prop :=
  exists path cause,
    e = (B "failed to search iSCSI directory " ++ path) ++ B ": " ++ cause
    \/ e = (B "failed to check iSCSI node file " ++ path) ++ B ": " ++ cause
    \/ e = (B "failed to clean up empty iSCSI node file " ++ path)
             ++ B ": " ++ cause.

(** ** What a namespace switch does, call by call *)

(** The system call left 0 in the result register: the test of success of
    [setns] and [close_raw]. *)
Definition answered_zero (r : SysRet) : Prop := fst (RawSyscall r) = 0%Z.

(** The descriptor that [open] returns for [path]. *)
Definition handle_of (K : Kernel) (path : bytes) : Z :=
  int (fst (RawSyscall (sys_openat K path))).

(** The six calls of a namespace switch that goes all the way, in order,
    each with the answer of the kernel: the open, the join and the close for
    the network namespace, then the same for the mount namespace. *)
Definition full_switch (K : Kernel) (mountNs netNs : bytes) : list Event :=
  let fd := handle_of K netNs in
  let fd' := handle_of K mountNs in
  [EvOpenat AT_FDCWD netNs (Z.lor O_RDONLY O_LARGEFILE) perm_0644
     (sys_openat K netNs);
   EvSetns fd CLONE_NEWNET (k_setns K fd CLONE_NEWNET);
   EvClose fd (k_close K fd);
   EvOpenat AT_FDCWD mountNs (Z.lor O_RDONLY O_LARGEFILE) perm_0644
     (sys_openat K mountNs);
   EvSetns fd' CLONE_NEWNS (k_setns K fd' CLONE_NEWNS);
   EvClose fd' (k_close K fd')].

(** ** What a clean-up may do *)

(** The call looks without touching: it is an existence check or a
    listing. *)
Definition looks_only (c : Call) : bool :=
  match c with
  | CallForkAndSwitchToNamespace _ _ (JobExists _) => true
  | CallForkAndSwitchToNamespace _ _ (JobList _) => true
  | _ => false
  end.

(** The call is a removal. *)
Definition is_removal (c : Call) : bool :=
  match c with
  | CallForkAndSwitchToNamespace _ _ (JobRemove _) => true
  | _ => false
  end.

(** encoding/json at [fs.FileInfo]: decoding into the nil interface value
    never gives a file status; it fails, or leaves the value nil. *)
Definition decodes_no_status (codec : JSON (option FileInfo)) : Prop :=
  forall base v, Unmarshal base zero = Ok v -> v = None.

(** ** Concrete instances, for running the model *)

Module Sample.

(** encoding/json at [T = bool]. *)
Definition Marshal_bool (out : option bool) : result bytes :=
  match out with
  | None => Ok (B "null")
  | Some true => Ok (B "true")
  | Some false => Ok (B "false")
  end.

Definition Unmarshal_bool (data : bytes) (v : bool) : result bool :=
  if list_eq_dec byte_eq_dec data (B "null") then Ok v
  else if list_eq_dec byte_eq_dec data (B "true") then Ok true
  else if list_eq_dec byte_eq_dec data (B "false") then Ok false
  else Err (B "json: cannot unmarshal into Go value of type bool").

#[export] Instance JSON_bool : JSON bool.
Proof.
  refine {| zero := false;
            Marshal := Marshal_bool;
            Unmarshal := Unmarshal_bool;
            Marshal_nil := eq_refl;
            Marshal_no_NUL := _;
            Unmarshal_null := eq_refl |}.
  intros [[|]|] base; intros [= <-]; cbn; intuition discriminate.
Defined.

(** [filepath.Join] on a clean, non-empty directory path. *)
Definition Join (dir elem : bytes) : bytes := dir ++ B "/" ++ elem.

Definition ns : bytes := B "/proc/4242/ns".

(** A kernel under which everything succeeds: the pipe is (3, 4), the child
    is process 4243, both handles exist and open as descriptor 5, every write
    takes up to 8 bytes and every read hands over up to 5 bytes after one
    unit of time. *)
Definition fine : Kernel :=
  {| k_pipe := inr (3, 4)%Z;
     k_fork := SysOk 4243;
     k_fs := fun path =>
       if list_eq_dec byte_eq_dec path (B "/proc/4242/ns/net") then Some (SysOk 5)
       else if list_eq_dec byte_eq_dec path (B "/proc/4242/ns/mnt") then Some (SysOk 5)
       else None;
     k_setns := fun _ _ => SysOk 0;
     k_close := fun _ => SysOk 0;
     k_write := repeat (WrOk 7) 80;
     k_feed := {| feed_bytes := []; feed_closed := false |};
     k_read := repeat {| ra_dt := 1; ra_kind := RdOk 4 |} 80;
     k_kill := fun _ _ => None;
     k_tie := true |}.

Definition mountNs : bytes := B "/proc/4242/ns/mnt" ++ [x00].
Definition netNs : bytes := B "/proc/4242/ns/net" ++ [x00].

(** As [fine], but the directory holds no [net] entry. *)
Definition no_net : Kernel :=
  {| k_pipe := k_pipe fine; k_fork := k_fork fine;
     k_fs := fun path =>
       if list_eq_dec byte_eq_dec path (B "/proc/4242/ns/mnt") then Some (SysOk 5)
       else None;
     k_setns := k_setns fine; k_close := k_close fine;
     k_write := k_write fine; k_feed := k_feed fine; k_read := k_read fine;
     k_kill := k_kill fine; k_tie := k_tie fine |}.

(** As [fine], but joining a namespace is not permitted. *)
Definition denied : Kernel :=
  {| k_pipe := k_pipe fine; k_fork := k_fork fine; k_fs := k_fs fine;
     k_setns := fun _ _ => SysErr EPERM; k_close := k_close fine;
     k_write := k_write fine; k_feed := k_feed fine; k_read := k_read fine;
     k_kill := k_kill fine; k_tie := k_tie fine |}.

(** As [fine], but fork fails with EAGAIN. *)
Definition no_fork : Kernel :=
  {| k_pipe := k_pipe fine; k_fork := SysErr EAGAIN; k_fs := k_fs fine;
     k_setns := k_setns fine; k_close := k_close fine;
     k_write := k_write fine; k_feed := k_feed fine; k_read := k_read fine;
     k_kill := k_kill fine; k_tie := k_tie fine |}.

(** As [fine], but the first read on the pipe fails with EIO. *)
Definition read_error : Kernel :=
  {| k_pipe := k_pipe fine; k_fork := k_fork fine; k_fs := k_fs fine;
     k_setns := k_setns fine; k_close := k_close fine;
     k_write := k_write fine; k_feed := k_feed fine;
     k_read := [{| ra_dt := 1; ra_kind := RdErr EIO |}];
     k_kill := k_kill fine; k_tie := k_tie fine |}.

(** As [fine], with the pipe delivering an [ok:] payload and no sentinel
    before the write end is closed. *)
Definition truncated : Kernel :=
  fed_by {| feed_bytes := B "ok:true"; feed_closed := true |} fine.

(** As [fine], with the whole message for [true] in the pipe, and a child
    that cannot be signalled. *)
Definition unkillable : Kernel :=
  {| k_pipe := k_pipe fine; k_fork := k_fork fine; k_fs := k_fs fine;
     k_setns := k_setns fine; k_close := k_close fine;
     k_write := k_write fine;
     k_feed := {| feed_bytes := B "ok:true" ++ [x00]; feed_closed := true |};
     k_read := k_read fine;
     k_kill := fun _ _ => Some ESRCH; k_tie := k_tie fine |}.

(** As [fine], but the directory holds no [mnt] entry. *)
Definition no_mnt : Kernel :=
  {| k_pipe := k_pipe fine; k_fork := k_fork fine;
     k_fs := fun path =>
       if list_eq_dec byte_eq_dec path (B "/proc/4242/ns/net") then Some (SysOk 5)
       else None;
     k_setns := k_setns fine; k_close := k_close fine;
     k_write := k_write fine; k_feed := k_feed fine; k_read := k_read fine;
     k_kill := k_kill fine; k_tie := k_tie fine |}.





(** [strings.TrimSpace] on ASCII text: the white space of ASCII is dropped
    at both ends. *)
Definition is_space (c : byte) : bool :=
  match c with
  | x09 | x0a | x0b | x0c | x0d | x20 => true
  | _ => false
  end.

Fixpoint trim_left (s : bytes) : bytes :=
  match s with
  | [] => []
  | c :: s' => if is_space c then trim_left s' else s
  end.

Definition TrimSpace (s : bytes) : bytes :=
  rev (trim_left (rev (trim_left s))).

(** A text made of lines. *)
Definition text_of (lines : list bytes) : bytes :=
  concat (map (fun l => l ++ [x0a]) lines).

(** [util.KernelDevice]. *)
Record KernelDevice : Type := {
  Name : bytes;
  Major : Z;
  Minor : Z
}.

Definition sdc : KernelDevice := {| Name := B "sdc"; Major := 8; Minor := 32 |}.

(** A host on which the session listing is [listing] once [ready] calls
    have been made, and empty before; the node is in manual scan mode; the
    kernel knows the disk [sdc]; every command succeeds.  Its namespace is
    [ns], the kernel is [fine] during every call into it, and it holds no
    file at all. *)
Definition host (ready : nat) (listing : bytes)
  : NamespaceExecutor KernelDevice :=
  {| ne_answer := fun h c =>
       match c with
       | CallExecute _ opts =>
           if list_eq_dec (list_eq_dec byte_eq_dec) opts
                [B "-m"; B "session"; B "-P"; B "3"]
           then if length h <? ready then ([], None) else (listing, None)
           else ([], None)
       | CallExecuteWithTimeout _ _ _ =>
           (B "node.session.scan = manual" ++ [x0a], None)
       | _ => ([], None)
       end;
     ne_devices := fun _ =>
       (fun name =>
          if list_eq_dec byte_eq_dec name (B "sdc") then Some sdc else None,
        None);
     ne_namespace := ns;
     ne_kernel := fun _ => fine;
     ne_NsStat := fun _ _ => Back (None, Some (B "no such file or directory"));
     ne_WalkDir := fun _ _ => Back ([], Some (B "no such file or directory"));
     ne_Remove := fun _ _ => Back (Some (B "no such file or directory")) |}.

(** A listing of two targets: the first has LUN 0 only, and the disk of
    LUN 1 of the second is [sdc]. *)
Definition two_targets : bytes :=
  text_of
    [B "Target: iqn.2019-10.io.longhorn:vol1 (non-flash)";
     B "    Current Portal: 172.17.0.2:3260,1";
     B "    Attached SCSI devices:";
     B "    scsi12 Channel 00 Id 0 Lun: 0";
     B "Target: iqn.2019-10.io.longhorn:vol2 (non-flash)";
     B "    Current Portal: 172.17.0.3:3260,1";
     B "    scsi13 Channel 00 Id 0 Lun: 0";
     B "    scsi13 Channel 00 Id 0 Lun: 1";
     B "        Attached scsi disk sdc      State: running"].

(** A listing in which LUN 1 has no disk attached yet. *)
Definition no_disk_yet : bytes :=
  text_of
    [B "Target: iqn.2019-10.io.longhorn:vol1 (non-flash)";
     B "    Current Portal: 172.17.0.2:3260,1";
     B "    scsi12 Channel 00 Id 0 Lun: 1";
     B "Target: iqn.2019-10.io.longhorn:vol2 (non-flash)"].

(** The initial value of the package variable [ScsiNodesDirs]. *)
Definition ScsiNodesDirs : list bytes :=
  [B "/etc/iscsi/nodes/"; B "/var/lib/iscsi/nodes/"].

(** [filepath.Dir] on a clean path: the path up to its last separator, or
    the root. *)
Fixpoint after_separator (r : bytes) : bytes :=
  match r with
  | [] => []
  | c :: r' => if Byte.eqb c x2f then r' else after_separator r'
  end.

Definition Dir (path : bytes) : bytes :=
  match rev (after_separator (rev path)) with
  | [] => B "/"
  | d => d
  end.

(** encoding/json as far as a host that sends back errors and nil results
    needs it: nil is encoded as [null], which decodes to the value that was
    there, and nothing else is encoded or decoded. *)
Definition Marshal_of_nil (T : Type) (out : option T) : result bytes :=
  match out with
  | None => Ok (B "null")
  | Some _ => Err (B "json: unsupported value")
  end.

Definition Unmarshal_of_nil (T : Type) (data : bytes) (v : T) : result T :=
  if list_eq_dec byte_eq_dec data (B "null") then Ok v
  else Err (B "json: cannot unmarshal into Go value").

Definition JSON_of_nil (T : Type) (z : T) : JSON T.
Proof.
  refine {| zero := z;
            Marshal := @Marshal_of_nil T;
            Unmarshal := @Unmarshal_of_nil T;
            Marshal_nil := eq_refl;
            Marshal_no_NUL := _;
            Unmarshal_null := eq_refl |}.
  intros [v|] base; intros [= <-]; cbn; intuition discriminate.
Defined.

(** One millisecond, in nanoseconds. *)
Definition millisecond : nat := Z.to_nat 1000000.

(** As [fine], at the pace of a machine: every read on the pipe returns a
    millisecond after it was made; a read hands over up to 256 bytes and a
    write takes up to 4096, with 400 answers for each. *)
Definition steady : Kernel :=
  {| k_pipe := k_pipe fine; k_fork := k_fork fine; k_fs := k_fs fine;
     k_setns := k_setns fine; k_close := k_close fine;
     k_write := repeat (WrOk 4095) 400;
     k_feed := k_feed fine;
     k_read := repeat {| ra_dt := millisecond; ra_kind := RdOk 255 |} 400;
     k_kill := k_kill fine; k_tie := k_tie fine |}.

(** As [steady], but the first read on the pipe is interrupted: it fails
    with EINTR. *)
Definition interrupted : Kernel :=
  {| k_pipe := k_pipe fine; k_fork := k_fork fine; k_fs := k_fs fine;
     k_setns := k_setns fine; k_close := k_close fine;
     k_write := k_write steady;
     k_feed := k_feed fine;
     k_read := {| ra_dt := millisecond; ra_kind := RdErr EINTR |}
                 :: k_read steady;
     k_kill := k_kill fine; k_tie := k_tie fine |}.

(** [filepath.Join] of a clean directory path, with or without a final
    separator, and a clean element. *)
Definition Join_clean (dir elem : bytes) : bytes :=
  match rev dir with
  | x2f :: r => rev r ++ B "/" ++ elem
  | _ => dir ++ B "/" ++ elem
  end.

(** encoding/json at a slice of strings, for strings of plain characters:
    printable ASCII but for the quote, the backslash and the three
    characters that the encoder escapes for HTML.  Other strings are outside
    this codec, which refuses them.  The nil slice is [null]. *)
Definition plain (c : byte) : bool :=
  ((32 <=? Byte.to_N c)%N && (Byte.to_N c <=? 126)%N)
  && negb (Byte.eqb c x22 || Byte.eqb c x5c || Byte.eqb c x3c
           || Byte.eqb c x3e || Byte.eqb c x26).

Fixpoint render_items (l : list bytes) : bytes :=
  match l with
  | [] => []
  | s :: l' =>
      [x22] ++ s ++ [x22]
        ++ match l' with
           | [] => []
           | _ :: _ => B "," ++ render_items l'
           end
  end.

Definition Marshal_strings (out : option (list bytes)) : result bytes :=
  match out with
  | None => Ok (B "null")
  | Some [] => Ok (B "null")
  | Some l =>
      if forallb (forallb plain) l
      then Ok (B "[" ++ render_items l ++ B "]")
      else Err (B "json: string outside the codec")
  end.

(** The string up to its closing quote, and what follows the quote. *)
Fixpoint take_string (s : bytes) : option (bytes * bytes) :=
  match s with
  | [] => None
  | c :: s' =>
      if Byte.eqb c x22 then Some ([], s')
      else if plain c
      then match take_string s' with
           | Some (a, rest) => Some (c :: a, rest)
           | None => None
           end
      else None
  end.

Fixpoint parse_items (fuel : nat) (s : bytes) : option (list bytes) :=
  match fuel with
  | 0 => None
  | S fuel' =>
      match s with
      | [] => None
      | q :: s1 =>
          if Byte.eqb q x22
          then match take_string s1 with
               | Some (a, [c]) => if Byte.eqb c x5d then Some [a] else None
               | Some (a, c :: rest) =>
                   if Byte.eqb c x2c
                   then match parse_items fuel' rest with
                        | Some l => Some (a :: l)
                        | None => None
                        end
                   else None
               | _ => None
               end
          else None
      end
  end.

Definition Unmarshal_strings (data : bytes) (v : list bytes)
  : result (list bytes) :=
  if list_eq_dec byte_eq_dec data (B "null") then Ok []
  else if list_eq_dec byte_eq_dec data (B "[]") then Ok []
  else match data with
       | c :: rest =>
           if Byte.eqb c x5b
           then match parse_items (length rest) rest with
                | Some l => Ok l
                | None => Err (B "json: cannot unmarshal into Go value of type []string")
                end
           else Err (B "json: cannot unmarshal into Go value of type []string")
       | [] => Err (B "unexpected end of JSON input")
       end.

Lemma plain_not_NUL (s : bytes) : forallb plain s = true -> ~ In x00 s.
Proof.
  induction s as [|c s IH]; cbn [forallb In]; [tauto|].
  intros H. apply andb_true_iff in H. destruct H as [Hc Hs].
  intros [->|Hin]; [vm_compute in Hc; discriminate Hc | exact (IH Hs Hin)].
Qed.

Lemma render_items_no_NUL (l : list bytes) :
  forallb (forallb plain) l = true -> ~ In x00 (render_items l).
Proof.
  induction l as [|s l IH]; cbn [forallb render_items]; [tauto|].
  intros H. apply andb_true_iff in H. destruct H as [Hs Hl].
  intros Hin. cbn [app] in Hin. destruct Hin as [Hin|Hin]; [discriminate|].
  apply in_app_or in Hin. destruct Hin as [Hin|Hin];
    [exact (plain_not_NUL s Hs Hin)|].
  cbn [app] in Hin. destruct Hin as [Hin|Hin]; [discriminate|].
  destruct l as [|s' l']; [exact Hin|].
  cbn [B list_byte_of_string app] in Hin.
  destruct Hin as [Hin|Hin]; [discriminate|].
  exact (IH Hl Hin).
Qed.

Definition JSON_strings : JSON (list bytes).
Proof.
  refine {| zero := [];
            Marshal := Marshal_strings;
            Unmarshal := Unmarshal_strings;
            Marshal_nil := eq_refl;
            Marshal_no_NUL := _;
            Unmarshal_null := eq_refl |}.
  intros [[|s l]|] base.
  - intros [= <-]. cbn. intuition discriminate.
  - unfold Marshal_strings.
    destruct (forallb (forallb plain) (s :: l)) eqn:E; [|discriminate].
    intros H.
    assert (Hbase : base = B "[" ++ render_items (s :: l) ++ B "]")
      by congruence.
    rewrite Hbase. intros Hin.
    apply in_app_or in Hin. destruct Hin as [Hin|Hin].
    { cbn in Hin. intuition discriminate. }
    apply in_app_or in Hin. destruct Hin as [Hin|Hin].
    + exact (render_items_no_NUL _ E Hin).
    + cbn in Hin. intuition discriminate.
  - intros [= <-]. cbn. intuition discriminate.
Defined.

(** encoding/json at [fs.FileInfo]: the file status that [os] gives has no
    exported field, so it is encoded as the empty object, and a nil value
    as [null]; nothing but [null] is decoded into the interface. *)
Definition Marshal_FileInfo (out : option (option FileInfo)) : result bytes :=
  match out with
  | Some (Some _) => Ok (B "{}")
  | _ => Ok (B "null")
  end.

Definition Unmarshal_FileInfo (data : bytes) (v : option FileInfo)
  : result (option FileInfo) :=
  if list_eq_dec byte_eq_dec data (B "null") then Ok v
  else Err (B "json: cannot unmarshal object into Go value of type fs.FileInfo").

Definition JSON_FileInfo : JSON (option FileInfo).
Proof.
  refine {| zero := None;
            Marshal := Marshal_FileInfo;
            Unmarshal := Unmarshal_FileInfo;
            Marshal_nil := eq_refl;
            Marshal_no_NUL := _;
            Unmarshal_null := eq_refl |}.
  intros [[info|]|] base; intros [= <-]; cbn; intuition discriminate.
Defined.

(** A host with the node directory of one target: every directory exists,
    the walk of a directory gives the directory and its file [default], an
    empty regular file that can be removed.  Its namespace is [ns] and the
    kernel is [steady] during every call into it. *)
Definition busy : NamespaceExecutor KernelDevice :=
  {| ne_answer := fun _ _ => ([], None);
     ne_devices := fun _ => (fun _ => None, None);
     ne_namespace := ns;
     ne_kernel := fun _ => steady;
     ne_NsStat := fun _ path =>
       if HasSuffix path (B "/default")
       then Back (Some {| Size := 0; IsRegular := true |}, None)
       else Back (Some {| Size := 4096; IsRegular := false |}, None);
     ne_WalkDir := fun _ path => Back ([path; path ++ B "/default"], None);
     ne_Remove := fun _ _ => Back None |}.

End Sample.


(** * Properties *)

(** Boolean comparisons in hypotheses, as the propositions they decide. *)
Ltac zbool :=
  repeat match goal with
  | H : (_ <? _)%Z = true |- _ => apply Z.ltb_lt in H
  | H : (_ <? _)%Z = false |- _ => apply Z.ltb_ge in H
  | H : (_ <=? _)%Z = true |- _ => apply Z.leb_le in H
  | H : (_ <=? _)%Z = false |- _ => apply Z.leb_gt in H
  | H : (_ >=? _)%Z = _ |- _ => rewrite Z.geb_leb in H
  | H : (_ =? _)%Z = true |- _ => apply Z.eqb_eq in H
  | H : (_ =? _)%Z = false |- _ => apply Z.eqb_neq in H
  | H : (_ <? _) = true |- _ => apply Nat.ltb_lt in H
  | H : (_ <? _) = false |- _ => apply Nat.ltb_ge in H
  | H : (_ <=? _) = true |- _ => apply Nat.leb_le in H
  | H : (_ <=? _) = false |- _ => apply Nat.leb_gt in H
  | H : (_ =? _) = true |- _ => apply Nat.eqb_eq in H
  | H : (_ =? _) = false |- _ => apply Nat.eqb_neq in H
  end.

(** ** Bytes *)

Lemma byte_eqb_eq (a b : byte) : Byte.eqb a b = true <-> a = b.
Proof.
  split; [apply byte_dec_bl | apply byte_dec_lb].
Qed.

Lemma byte_eqb_neq (a b : byte) : Byte.eqb a b = false <-> a <> b.
Proof.
  split.
  - apply Byte.eqb_false.
  - intros Hne. destruct (Byte.eqb a b) eqn:E; [|reflexivity].
    apply byte_eqb_eq in E. contradiction.
Qed.

Lemma HasPrefix_one (b : bytes) (c : byte) :
  HasPrefix b [c] = match b with [] => false | x :: _ => Byte.eqb x c end.
Proof.
  destruct b as [|x b]; cbn; [reflexivity|]. apply andb_true_r.
Qed.

Lemma Contains_NUL (b : bytes) : Contains b [x00] = true <-> In x00 b.
Proof.
  induction b as [|x b IH].
  - cbn. split; [discriminate | contradiction].
  - change (Contains (x :: b) [x00])
      with (HasPrefix (x :: b) [x00] || Contains b [x00]).
    rewrite HasPrefix_one, orb_true_iff, IH, byte_eqb_eq. cbn. tauto.
Qed.

Lemma Contains_NUL_false (b : bytes) : Contains b [x00] = false <-> ~ In x00 b.
Proof.
  rewrite <- Contains_NUL. destruct (Contains b [x00]); split; intros H;
    try discriminate; try reflexivity; exfalso; apply H; reflexivity.
Qed.

Lemma HasPrefix_app (p s : bytes) : HasPrefix (p ++ s) p = true.
Proof.
  induction p as [|c p IH]; cbn; [reflexivity|].
  rewrite IH, andb_true_r. apply byte_eqb_eq. reflexivity.
Qed.

Lemma TrimPrefix_app (p s : bytes) : TrimPrefix (p ++ s) p = s.
Proof.
  unfold TrimPrefix. rewrite HasPrefix_app.
  rewrite skipn_app, skipn_all, Nat.sub_diag. reflexivity.
Qed.

Lemma cstring_terminated (s : bytes) : ~ In x00 s -> cstring (s ++ [x00]) = s.
Proof.
  induction s as [|c s IH]; intros Hn; cbn; [reflexivity|].
  destruct (Byte.eqb c x00) eqn:E.
  - apply byte_eqb_eq in E. subst c. exfalso. apply Hn. left. reflexivity.
  - rewrite IH; [reflexivity|]. intros Hin. apply Hn. right. exact Hin.
Qed.

Lemma BytePtrFromString_inr (s p : bytes) :
  BytePtrFromString s = inr p -> p = s ++ [x00] /\ cstring p = s.
Proof.
  unfold BytePtrFromString. destruct (Contains s [x00]) eqn:E; [discriminate|].
  intros [= <-]. split; [reflexivity|].
  apply cstring_terminated, Contains_NUL_false, E.
Qed.

Lemma index_last (b : bytes) (c : byte) :
  index (b ++ [c]) (Z.of_nat (length (b ++ [c])) - 1) = Some c.
Proof.
  unfold index. rewrite length_app. cbn [length].
  replace (Z.of_nat (length b + 1) - 1)%Z with (Z.of_nat (length b)) by lia.
  destruct (Z.of_nat (length b) <? 0)%Z eqn:E1; [zbool; lia|].
  destruct (Z.of_nat (length b + 1) <=? Z.of_nat (length b))%Z eqn:E2;
    [zbool; lia|].
  cbn [orb]. rewrite Nat2Z.id, nth_error_app2, Nat.sub_diag by lia. reflexivity.
Qed.

Lemma slice_to_last (b : bytes) (c : byte) :
  slice_to (b ++ [c]) (Z.of_nat (length (b ++ [c])) - 1) = b.
Proof.
  unfold slice_to. rewrite length_app. cbn [length].
  replace (Z.of_nat (length b + 1) - 1)%Z with (Z.of_nat (length b)) by lia.
  rewrite Nat2Z.id, firstn_app, Nat.sub_diag, firstn_all. cbn.
  apply app_nil_r.
Qed.

Lemma index_empty (i : Z) : index [] i = None.
Proof.
  unfold index. cbn [length].
  destruct (i <? 0)%Z eqn:E1; [reflexivity|].
  destruct (Z.of_nat 0 <=? i)%Z eqn:E2; [reflexivity|]. zbool. lia.
Qed.

(** ** The trace monad *)

Lemma trace_of_bind {A C} (m : M A) (f : A -> M C) :
  trace_of (bind m f) = trace_of m ++ trace_of (f (value_of m)).
Proof.
  unfold bind, value_of, trace_of. destruct m as [t a]. cbn.
  destruct (f a). reflexivity.
Qed.

(** ** Machine integers *)

Lemma int_small (v : Z) : (0 <= v < 2 ^ 63)%Z -> int (v mod 2 ^ 64) = v.
Proof.
  intros H. rewrite Z.mod_small by lia. unfold int.
  destruct (v <? 2 ^ 63)%Z eqn:E; [reflexivity | zbool; lia].
Qed.

(** ** The reader goroutine *)

Lemma read_ok (fd : Z) (cap k : nat) :
  (Z.of_nat k < 2 ^ 63)%Z ->
  read fd cap (SysOk (Z.of_nat k))
  = ([EvRead fd cap (SysOk (Z.of_nat k))], (Z.of_nat k, None)).
Proof.
  intros Hk. unfold read, RawSyscall. rewrite int_small by lia.
  destruct (Z.of_nat k >=? 0)%Z eqn:E; [reflexivity|]. zbool. lia.
Qed.

Lemma read_failed (fd : Z) (cap : nat) (e : Errno) :
  read fd cap (SysErr e)
  = ([EvRead fd cap (SysErr e)], ((-1)%Z, Some (Errno_Error e))).
Proof. reflexivity. Qed.

Lemma firstn_skipn_length (j : nat) (l : bytes) :
  l = firstn j l ++ skipn (length (firstn j l)) l.
Proof.
  rewrite length_firstn. destruct (Nat.le_ge_cases j (length l)) as [H|H].
  - rewrite Nat.min_l by exact H. symmetry. apply firstn_skipn.
  - rewrite Nat.min_r by exact H.
    rewrite firstn_all2, skipn_all by lia. symmetry. apply app_nil_r.
Qed.

(** Growing the buffer when it is full keeps what it holds and leaves room. *)
Lemma grow_room (bufSize bufIndex : nat) (buf : bytes) :
  length buf = bufSize -> bufIndex <= bufSize -> 0 < bufSize ->
  exists buf1 bufSize1,
    (if bufIndex =? bufSize
     then (buf ++ make bufSize, bufSize * 2)
     else (buf, bufSize)) = (buf1, bufSize1)
    /\ length buf1 = bufSize1 /\ bufIndex < bufSize1
    /\ firstn bufIndex buf1 = firstn bufIndex buf.
Proof.
  intros Hlen Hle Hpos. destruct (bufIndex =? bufSize) eqn:E; zbool.
  - exists (buf ++ make bufSize), (bufSize * 2). split; [reflexivity|].
    unfold make. rewrite length_app, repeat_length.
    repeat split; try lia.
    rewrite firstn_app. replace (bufIndex - length buf) with 0 by lia.
    cbn. apply app_nil_r.
  - exists buf, bufSize. repeat split; try assumption. lia.
Qed.

Lemma reader_loop_delivers (K : Kernel) (fd : Z) (script : list ReadAns) :
  forall (feed : bytes) (now bufSize bufIndex : nat) (buf : bytes),
    answers_reads script ->
    length feed < length script ->
    (Z.of_nat (length feed) < 2 ^ 63)%Z ->
    length buf = bufSize -> bufIndex <= bufSize -> 0 < bufSize ->
    ~ In x00 (firstn bufIndex buf) ->
    exists m rest t,
      rr_done (reader_loop K fd script feed true now bufSize bufIndex buf)
      = Some (t, firstn bufIndex buf ++ m)
      /\ feed = m ++ rest
      /\ (rest = [] \/ In x00 m)
      /\ t <= now + total_dt script.
Proof.
  induction script as [|a script IH];
    intros feed now bufSize bufIndex buf Hans Hlong Hfit Hlen Hle Hpos Hacc.
  - cbn in Hlong. lia.
  - destruct (Forall_inv Hans) as [more Hkind].
    pose proof (Forall_inv_tail Hans) as Hans'.
    destruct (grow_room buf Hlen Hle Hpos)
      as (buf1 & bufSize1 & Hgrow & Hlen1 & Hroom & Hkeep).
    cbn [reader_loop]. rewrite Hgrow.
    unfold sys_read. rewrite Hkind.
    assert (Hp : length (slice_from buf1 (Z.of_nat bufIndex))
                 = length buf1 - bufIndex).
    { unfold slice_from. rewrite Nat2Z.id. apply length_skipn. }
    destruct feed as [|c feed].
    + (* end of file *)
      rewrite (read_ok fd _ 0) by (cbn; lia).
      change (Z.of_nat 0 =? 0)%Z with true. cbn [orb].
      exists [], [], (now + ra_dt a). cbn [rr_done].
      repeat split; [|left; reflexivity | cbn; lia].
      f_equal. f_equal. unfold slice_to, slice_from.
      rewrite !Nat2Z.id. cbn [length skipn app]. rewrite Nat.add_0_r.
      rewrite firstn_skipn. rewrite app_nil_r. exact Hkeep.
    + set (feed0 := c :: feed) in *.
      set (p := slice_from buf1 (Z.of_nat bufIndex)) in *.
      set (data := firstn (Nat.min (S more) (length p)) feed0).
      assert (Hdata : 1 <= length data <= length p).
      { unfold data. rewrite length_firstn. subst feed0. cbn [length].
        rewrite Hp. lia. }
      assert (Hdfeed : length data <= length feed0).
      { unfold data. rewrite length_firstn. lia. }
      rewrite read_ok by lia.
      rewrite Nat2Z.id.
      set (buf2 := firstn bufIndex buf1 ++ data ++ skipn (length data) p).
      assert (Hacc2 : slice_to buf2 (Z.of_nat (bufIndex + length data))
                      = firstn bufIndex buf ++ data).
      { unfold slice_to, buf2. rewrite Nat2Z.id, <- Hkeep.
        rewrite app_assoc, firstn_app.
        assert (Hl : length (firstn bufIndex buf1 ++ data)
                     = bufIndex + length data).
        { rewrite length_app, length_firstn. lia. }
        rewrite Hl, Nat.sub_diag. cbn [firstn].
        rewrite app_nil_r. rewrite <- Hl. apply firstn_all. }
      assert (Hlen2 : length buf2 = bufSize1).
      { unfold buf2. rewrite !length_app, length_firstn, length_skipn. lia. }
      destruct (Z.of_nat (length data) =? 0)%Z eqn:Ez; [zbool; lia|].
      cbn [orb]. rewrite Hacc2.
      destruct (Contains (firstn bufIndex buf ++ data) [x00]) eqn:Ec.
      * exists data, (skipn (length data) feed0), (now + ra_dt a).
        cbn [rr_done]. repeat split.
        -- apply firstn_skipn_length.
        -- right. apply Contains_NUL in Ec. apply in_app_or in Ec.
           destruct Ec as [Ec|Ec]; [contradiction | exact Ec].
        -- cbn. lia.
      * cbn [rr_done].
        destruct (IH (skipn (length data) feed0) (now + ra_dt a)
                     bufSize1 (bufIndex + length data) buf2)
          as (m & rest & t & Hdone & Hfeed & Hend & Ht).
        -- exact Hans'.
        -- rewrite length_skipn. cbn [length] in Hlong. lia.
        -- rewrite length_skipn. lia.
        -- exact Hlen2.
        -- lia.
        -- lia.
        -- unfold slice_to in Hacc2. rewrite Nat2Z.id in Hacc2.
           rewrite Hacc2. apply Contains_NUL_false. exact Ec.
        -- unfold slice_to in Hacc2. rewrite Nat2Z.id in Hacc2.
           rewrite Hacc2 in Hdone.
           exists (data ++ m), rest, t. repeat split.
           ++ rewrite Hdone. rewrite app_assoc. reflexivity.
           ++ rewrite <- app_assoc, <- Hfeed. apply firstn_skipn_length.
           ++ destruct Hend as [Hend|Hend]; [left; exact Hend|].
              right. apply in_or_app. right. exact Hend.
           ++ cbn [total_dt fold_right]. fold (total_dt script). lia.
Qed.

Lemma reader_delivers (K : Kernel) (fd : Z) (body : bytes) :
  k_feed K = {| feed_bytes := body ++ [x00]; feed_closed := true |} ->
  ~ In x00 body ->
  answers_reads (k_read K) ->
  length (body ++ [x00]) < length (k_read K) ->
  (Z.of_nat (length (body ++ [x00])) < 2 ^ 63)%Z ->
  exists t,
    rr_done (reader K fd) = Some (t, body ++ [x00])
    /\ t <= total_dt (k_read K).
Proof.
  intros Hfeed Hbody Hans Hlong Hfit. unfold reader. rewrite Hfeed.
  cbn [feed_bytes feed_closed].
  destruct (@reader_loop_delivers K fd (k_read K) (body ++ [x00]) 0 256 0
              (make 256) Hans Hlong Hfit)
    as (m & rest & t & Hdone & Hsplit & Hend & Ht).
  - unfold make. apply repeat_length.
  - lia.
  - lia.
  - cbn. tauto.
  - exists t. split; [|exact Ht]. rewrite Hdone. cbn [firstn app].
    f_equal. f_equal.
    destruct Hend as [Hend|Hend].
    + subst rest. rewrite app_nil_r in Hsplit. symmetry. exact Hsplit.
    + (* the sentinel is the last byte sent, so nothing is left *)
      destruct rest as [|r rest0].
      * rewrite app_nil_r in Hsplit. symmetry. exact Hsplit.
      * exfalso.
        destruct (exists_last (l := r :: rest0)) as (rest' & c & Hrest);
          [discriminate|].
        rewrite Hrest, app_assoc in Hsplit.
        apply app_inj_tail in Hsplit. destruct Hsplit as [Hsplit _].
        apply Hbody. rewrite Hsplit. apply in_or_app. left. exact Hend.
Qed.

(** ** The write loop *)

Lemma write_ok (fd : Z) (p : bytes) (k : nat) :
  (Z.of_nat k < 2 ^ 63)%Z ->
  write fd p (SysOk (Z.of_nat k))
  = ([EvWrite fd p (SysOk (Z.of_nat k))], (Z.of_nat k, None)).
Proof.
  intros Hk. unfold write, RawSyscall. rewrite int_small by lia.
  destruct (Z.of_nat k >=? 0)%Z eqn:E; [reflexivity|]. zbool. lia.
Qed.

Lemma write_loop_sends (fd : Z) (script : list WriteAns)
    (msg : bytes) :
  forall w : nat,
    answers_writes script ->
    length msg - w <= length script ->
    w <= length msg ->
    (Z.of_nat (length msg) < 2 ^ 63)%Z ->
    exists t,
      write_loop fd script msg (Z.of_nat w) = (t, true)
      /\ piped fd t = skipn w msg.
Proof.
  induction script as [|a script IH]; intros w Hans Hleft Hw Hfit.
  - cbn [length] in Hleft. assert (w = length msg) by lia. subst w.
    exists []. cbn [write_loop].
    destruct (Z.of_nat (length msg) <? Z.of_nat (length msg))%Z eqn:E;
      [zbool; lia|].
    split; [reflexivity|]. rewrite skipn_all. reflexivity.
  - cbn [write_loop].
    destruct (Z.of_nat w <? Z.of_nat (length msg))%Z eqn:E; zbool.
    + destruct (Forall_inv Hans) as [more ->].
      pose proof (Forall_inv_tail Hans) as Hans'.
      unfold slice_from. rewrite Nat2Z.id. cbn [sys_write].
      set (p := skipn w msg).
      assert (Hp : length p = length msg - w) by apply length_skipn.
      set (k := Nat.min (S more) (length p)).
      assert (Hk : 1 <= k <= length p) by (unfold k; lia).
      rewrite write_ok by lia.
      destruct (IH (w + k)) as (t & Hloop & Hpiped);
        [exact Hans' | cbn [length] in Hleft; lia | lia | exact Hfit |].
      exists (EvWrite fd p (SysOk (Z.of_nat k)) :: t).
      cbn [bind]. rewrite <- Nat2Z.inj_add, Hloop. split; [reflexivity|].
      cbn [piped app]. rewrite Z.eqb_refl, Hpiped. cbn [taken].
      rewrite Nat2Z.id. unfold p.
      replace (w + k) with (k + w) by lia.
      rewrite <- skipn_skipn. apply firstn_skipn.
    + assert (w = length msg) by lia. subst w.
      exists []. split; [reflexivity|]. rewrite skipn_all. reflexivity.
Qed.

(** The write loop performs writes only, whatever the kernel answers. *)
Lemma write_loop_writes (fd : Z) (script : list WriteAns)
    (msg : bytes) :
  forall written : Z,
    Forall (fun e => exists p r, e = EvWrite fd p r)
      (trace_of (write_loop fd script msg written)).
Proof.
  induction script as [|a script IH]; intros written; cbn [write_loop].
  - destruct (written <? Z.of_nat (length msg))%Z; constructor.
  - destruct (written <? Z.of_nat (length msg))%Z; [|constructor].
    rewrite trace_of_bind. apply Forall_app. split.
    + unfold write. destruct (RawSyscall _). cbn.
      constructor; [eauto | constructor].
    + destruct (value_of _) as [n [e|]]; [constructor | apply IH].
Qed.

(** ** Error texts hold no NUL byte *)

Lemma B_cons (c : Ascii.ascii) (s : string) :
  B (String c s) = Ascii.byte_of_ascii c :: B s.
Proof. reflexivity. Qed.

Lemma digits_no_NUL (d : Decimal.uint) :
  ~ In x00 (B (NilEmpty.string_of_uint d)).
Proof.
  induction d; cbn [NilEmpty.string_of_uint]; rewrite ?B_cons;
    cbn; intuition discriminate.
Qed.

Lemma decimal_no_NUL (d : Decimal.int) :
  ~ In x00 (B (NilZero.string_of_int d)).
Proof.
  destruct d as [d|d]; cbn [NilZero.string_of_int].
  - unfold NilZero.string_of_uint.
    destruct d; try apply digits_no_NUL. cbn. intuition discriminate.
  - rewrite B_cons. intros [H|H]; [discriminate|]. revert H.
    unfold NilZero.string_of_uint.
    destruct d; try apply digits_no_NUL. cbn. intuition discriminate.
Qed.

Lemma Errno_Error_no_NUL (e : Errno) : ~ In x00 (Errno_Error e).
Proof.
  assert (Hdefault :
    ~ In x00 (B "errno " ++ B (NilZero.string_of_int (Z.to_int e)))).
  { intros H. apply in_app_or in H. destruct H as [H|H].
    - cbn in H. intuition discriminate.
    - exact (decimal_no_NUL _ H). }
  unfold Errno_Error.
  repeat match goal with
  | |- ~ In _ (match ?x with _ => _ end) => destruct x
  end;
  first [exact Hdefault | cbn; intuition discriminate].
Qed.

(** ** The wrappers *)

Section Wrappers.

Variable K : Kernel.

Lemma openat_ok (dirfd : Z) (path : bytes) (flags mode fd : Z) :
  sys_openat K path = SysOk fd -> (0 <= fd < 2 ^ 63)%Z ->
  openat K dirfd path flags mode
  = ([EvOpenat dirfd path flags mode (SysOk fd)], (fd, None)).
Proof.
  intros Hans Hfd. unfold openat. rewrite Hans. unfold RawSyscall.
  rewrite int_small by lia.
  destruct (fd >=? 0)%Z eqn:E; [reflexivity|]. zbool. lia.
Qed.

Lemma openat_failed (dirfd : Z) (path : bytes) (flags mode : Z) (e : Errno) :
  sys_openat K path = SysErr e ->
  openat K dirfd path flags mode
  = ([EvOpenat dirfd path flags mode (SysErr e)],
     ((-1)%Z, Some (Errno_Error e))).
Proof.
  intros Hans. unfold openat. rewrite Hans. reflexivity.
Qed.

Lemma openat_trace (dirfd : Z) (path : bytes) (flags mode : Z) :
  trace_of (openat K dirfd path flags mode)
  = [EvOpenat dirfd path flags mode (sys_openat K path)].
Proof.
  unfold openat. destruct (RawSyscall _). reflexivity.
Qed.

Lemma setns_ok (fd nstype : Z) :
  k_setns K fd nstype = SysOk 0 ->
  setns K fd nstype = ([EvSetns fd nstype (SysOk 0)], None).
Proof.
  intros Hans. unfold setns. rewrite Hans. reflexivity.
Qed.

Lemma setns_failed (fd nstype : Z) (e : Errno) :
  k_setns K fd nstype = SysErr e ->
  setns K fd nstype
  = ([EvSetns fd nstype (SysErr e)], Some (Errno_Error e)).
Proof.
  intros Hans. unfold setns. rewrite Hans. reflexivity.
Qed.

Lemma setns_trace (fd nstype : Z) :
  trace_of (setns K fd nstype) = [EvSetns fd nstype (k_setns K fd nstype)].
Proof.
  unfold setns. destruct (RawSyscall _). reflexivity.
Qed.

Lemma close_raw_ok (fd : Z) :
  k_close K fd = SysOk 0 ->
  close_raw K fd = ([EvClose fd (SysOk 0)], None).
Proof.
  intros Hans. unfold close_raw. rewrite Hans. reflexivity.
Qed.

Lemma close_raw_failed (fd : Z) (e : Errno) :
  k_close K fd = SysErr e ->
  close_raw K fd = ([EvClose fd (SysErr e)], Some (Errno_Error e)).
Proof.
  intros Hans. unfold close_raw. rewrite Hans. reflexivity.
Qed.

Lemma close_raw_trace (fd : Z) :
  trace_of (close_raw K fd) = [EvClose fd (k_close K fd)].
Proof.
  unfold close_raw. destruct (RawSyscall _). reflexivity.
Qed.

End Wrappers.

(** ** [switchNs], step by step *)

Lemma opened_app (t1 t2 : list Event) :
  opened (t1 ++ t2) = opened t1 ++ opened t2.
Proof.
  induction t1 as [|e t1 IH]; [reflexivity|].
  destruct e; cbn; rewrite ?IH; reflexivity.
Qed.

Lemma joined_app (t1 t2 : list Event) :
  joined (t1 ++ t2) = joined t1 ++ joined t2.
Proof.
  induction t1 as [|e t1 IH]; [reflexivity|].
  destruct e; cbn; rewrite ?IH; reflexivity.
Qed.

Lemma piped_app (fd : Z) (t1 t2 : list Event) :
  piped fd (t1 ++ t2) = piped fd t1 ++ piped fd t2.
Proof.
  induction t1 as [|e t1 IH]; [reflexivity|].
  destruct e; cbn; rewrite ?IH, ?app_assoc; reflexivity.
Qed.

(** When a step fails, [switchNs] has made the calls up to that step and no
    other, and gives the error wrapped with the name of the step. *)
Lemma switchNs_fails_at (K : Kernel) (mountNs netNs : bytes) (s : Step)
    (e : Errno) :
  fails_at K mountNs netNs s e ->
  value_of (switchNs K mountNs netNs)
  = Some (step_text s ++ B ": " ++ Errno_Error e)
  /\ opened (trace_of (switchNs K mountNs netNs))
     = (if is_net_step s then [netNs] else [netNs; mountNs])
  /\ joined (trace_of (switchNs K mountNs netNs))
     = match s with
       | OpenNet => []
       | SetnsNet | CloseNet | OpenMount => [CLONE_NEWNET]
       | SetnsMount | CloseMount => [CLONE_NEWNET; CLONE_NEWNS]
       end
  /\ piped 0 (trace_of (switchNs K mountNs netNs)) = []
  /\ ~ In EvCall_toExecute (trace_of (switchNs K mountNs netNs)).
Proof.
  unfold switchNs, open.
  destruct s; cbn [fails_at]; unfold opens_as.
  - intros H. rewrite (openat_failed _ _ _ _ _ H). cbn.
    intuition discriminate.
  - intros (fd & [Ho Hfd] & Hs).
    rewrite (openat_ok _ _ _ _ _ Ho Hfd). cbn [bind].
    rewrite (setns_failed _ _ _ Hs). cbn [bind].
    pose proof (close_raw_trace K fd) as Hc.
    destruct (close_raw K fd) as [tc vc]. cbn in Hc. subst tc. cbn.
    intuition discriminate.
  - intros (fd & [Ho Hfd] & Hs & Hc).
    rewrite (openat_ok _ _ _ _ _ Ho Hfd). cbn [bind].
    rewrite (setns_ok _ _ _ Hs). cbn [bind].
    rewrite (close_raw_failed _ _ Hc). cbn.
    intuition discriminate.
  - intros (fd & [Ho Hfd] & Hs & Hc & Ho').
    rewrite (openat_ok _ _ _ _ _ Ho Hfd). cbn [bind].
    rewrite (setns_ok _ _ _ Hs). cbn [bind].
    rewrite (close_raw_ok _ _ Hc). cbn [bind].
    rewrite (openat_failed _ _ _ _ _ Ho'). cbn.
    intuition discriminate.
  - intros (fd & fd' & [Ho Hfd] & Hs & Hc & [Ho' Hfd'] & Hs').
    rewrite (openat_ok _ _ _ _ _ Ho Hfd). cbn [bind].
    rewrite (setns_ok _ _ _ Hs). cbn [bind].
    rewrite (close_raw_ok _ _ Hc). cbn [bind].
    rewrite (openat_ok _ _ _ _ _ Ho' Hfd'). cbn [bind].
    destruct (fd' <? 0)%Z eqn:E; [zbool; lia|]. cbn [andb].
    rewrite (setns_failed _ _ _ Hs'). cbn [bind].
    pose proof (close_raw_trace K fd') as Hc'.
    destruct (close_raw K fd') as [tc vc]. cbn in Hc'. subst tc. cbn.
    intuition discriminate.
  - intros (fd & fd' & [Ho Hfd] & Hs & Hc & [Ho' Hfd'] & Hs' & Hc').
    rewrite (openat_ok _ _ _ _ _ Ho Hfd). cbn [bind].
    rewrite (setns_ok _ _ _ Hs). cbn [bind].
    rewrite (close_raw_ok _ _ Hc). cbn [bind].
    rewrite (openat_ok _ _ _ _ _ Ho' Hfd'). cbn [bind].
    destruct (fd' <? 0)%Z eqn:E; [zbool; lia|]. cbn [andb].
    rewrite (setns_ok _ _ _ Hs'). cbn [bind].
    rewrite (close_raw_failed _ _ Hc'). cbn.
    intuition discriminate.
Qed.

(** When every step succeeds, [switchNs] gives nil. *)
Lemma switchNs_succeeds (K : Kernel) (mountNs netNs : bytes) :
  switches K mountNs netNs ->
  value_of (switchNs K mountNs netNs) = None.
Proof.
  intros (fd & fd' & [Ho Hfd] & Hs & Hc & [Ho' Hfd'] & Hs' & Hc').
  unfold switchNs, open.
  rewrite (openat_ok _ _ _ _ _ Ho Hfd). cbn [bind].
  rewrite (setns_ok _ _ _ Hs). cbn [bind].
  rewrite (close_raw_ok _ _ Hc). cbn [bind].
  rewrite (openat_ok _ _ _ _ _ Ho' Hfd'). cbn [bind].
  destruct (fd' <? 0)%Z eqn:E; [zbool; lia|]. cbn [andb].
  rewrite (setns_ok _ _ _ Hs'). cbn [bind].
  rewrite (close_raw_ok _ _ Hc'). reflexivity.
Qed.

(** What [openat] gives: no error and the descriptor the kernel answered, or
    an error and a negative number. *)
Lemma openat_cases (K : Kernel) (dirfd : Z) (path : bytes) (flags mode : Z) :
  forall fd err, value_of (openat K dirfd path flags mode) = (fd, err) ->
    (err = None /\ exists v, sys_openat K path = SysOk v
                             /\ fd = int (v mod 2 ^ 64))
    \/ (err <> None /\ (fd < 0)%Z).
Proof.
  intros fd err. unfold openat.
  destruct (RawSyscall (sys_openat K path)) as [r0 e] eqn:Hraw.
  cbn. destruct (int r0 >=? 0)%Z eqn:E; intros H; injection H as <- <-.
  - left. split; [reflexivity|].
    destruct (sys_openat K path) as [v|e']; cbn in Hraw.
    + injection Hraw as <- _. exists v. split; reflexivity.
    + injection Hraw as <- _. discriminate E.
  - right. split; [discriminate|]. zbool. lia.
Qed.

Lemma switchNs_events (K : Kernel) (mountNs netNs : bytes) :
  Forall (ns_event K) (trace_of (switchNs K mountNs netNs)).
Proof.
  unfold switchNs, open.
  rewrite trace_of_bind, openat_trace.
  destruct (value_of (openat K AT_FDCWD netNs _ _)) as [fd err] eqn:Ho.
  apply openat_cases in Ho.
  constructor; [exact I|].
  destruct err as [e|]; [constructor|].
  destruct Ho as [[_ (v & Hv & Hfd)]|[Hneq _]]; [|contradiction].
  assert (Hclose : ns_event K (EvClose fd (k_close K fd))).
  { cbn. eauto. }
  rewrite trace_of_bind, setns_trace. constructor; [exact I|].
  destruct (value_of (setns K fd CLONE_NEWNET)) as [e|].
  { rewrite trace_of_bind, close_raw_trace.
    constructor; [exact Hclose | constructor]. }
  rewrite trace_of_bind, close_raw_trace. constructor; [exact Hclose|].
  destruct (value_of (close_raw K fd)) as [e|]; [constructor|].
  rewrite trace_of_bind, openat_trace.
  destruct (value_of (openat K AT_FDCWD mountNs _ _)) as [fd' err'] eqn:Ho'.
  apply openat_cases in Ho'.
  constructor; [exact I|].
  destruct ((fd' <? 0)%Z && match err' with Some _ => true | None => false end)
    eqn:Eguard; [constructor|].
  assert (Hclose' : ns_event K (EvClose fd' (k_close K fd'))).
  { destruct Ho' as [[_ (v' & Hv' & Hfd')]|[Hneq Hneg]].
    - cbn. eauto.
    - exfalso. destruct err'; [|contradiction].
      destruct (fd' <? 0)%Z eqn:E; [discriminate|]. zbool. lia. }
  rewrite trace_of_bind, setns_trace. constructor; [exact I|].
  destruct (value_of (setns K fd' CLONE_NEWNS)) as [e|].
  { rewrite trace_of_bind, close_raw_trace.
    constructor; [exact Hclose' | constructor]. }
  rewrite trace_of_bind, close_raw_trace. constructor; [exact Hclose'|].
  destruct (value_of (close_raw K fd')) as [e|]; constructor.
Qed.

Lemma ns_events_piped (K : Kernel) (fd : Z) (t : list Event) :
  Forall (ns_event K) t -> piped fd t = [].
Proof.
  induction 1 as [|e t He _ IH]; [reflexivity|].
  destruct e; cbn in He; try contradiction; exact IH.
Qed.

(** ** The calling process up to the fork *)

Section UpToFork.

Context {T : Type} {codec : JSON T}.
Variable Join : bytes -> bytes -> bytes.

Lemma Cloned_fed (K : Kernel) (f : Feed) ns pipes pid mountNs netNs :
  Cloned Join K ns pipes pid mountNs netNs ->
  Cloned Join (fed_by f K) ns pipes pid mountNs netNs.
Proof.
  intros [H1 H2 H3 H4 H5]. constructor; assumption.
Qed.

(** In the caller, a call that clones goes on as the parent's branch. *)
Lemma in_parent (K : Kernel) ns timeout (toExecute : Logic T)
    pipes pid mountNs netNs :
  Cloned Join K ns pipes pid mountNs netNs ->
  ForkAndSwitchToNamespace Join K ns timeout toExecute
  = (EvPipe (inr pipes) :: EvFork (SysOk pid)
       :: trace_of (parent K pipes pid timeout),
     value_of (parent (T := T) K pipes pid timeout)).
Proof.
  intros [Hm Hn Hp Hf Hpid]. unfold ForkAndSwitchToNamespace.
  rewrite Hm, Hn. unfold unix_Pipe. rewrite Hp, Hf. unfold RawSyscall.
  rewrite Z.mod_small by lia.
  assert (Hint : int pid = pid).
  { unfold int. destruct (pid <? 2 ^ 63)%Z eqn:E; [reflexivity|zbool; lia]. }
  rewrite Hint.
  destruct (pid =? -1)%Z eqn:E1; [zbool; lia|].
  destruct (pid =? 0)%Z eqn:E2; [zbool; lia|].
  cbn [negb]. cbn. destruct (parent K pipes pid timeout). reflexivity.
Qed.

(** In the process the fork creates, the same call goes on as the child's
    part. *)
Lemma in_forked_child (K : Kernel) ns timeout (toExecute : Logic T)
    pipes pid mountNs netNs :
  Cloned Join K ns pipes pid mountNs netNs ->
  forked_child Join K ns timeout toExecute
  = (EvPipe (inr pipes) :: EvFork (SysOk 0)
       :: trace_of (child (in_child K) pipes mountNs netNs toExecute),
     value_of (child (in_child K) pipes mountNs netNs toExecute)).
Proof.
  intros [Hm Hn Hp Hf Hpid]. unfold forked_child, ForkAndSwitchToNamespace.
  rewrite Hm, Hn. unfold unix_Pipe. cbn [in_child k_pipe k_fork].
  rewrite Hp. cbn.
  destruct (child (in_child K) pipes mountNs netNs toExecute). reflexivity.
Qed.

End UpToFork.

(** ** The child *)

Section Child.

Context {T : Type} {codec : JSON T}.

(** The shape of every run of the child: the namespace steps, the call of
    the logic when they succeeded, writes on the write end, and, when the
    write loop is left, the close of the write end and the exit. *)
Lemma child_run (K : Kernel) (pipes : Z * Z) (mountNs netNs : bytes)
    (toExecute : Logic T) :
  let run := child K pipes mountNs netNs toExecute in
  let sw := switchNs K mountNs netNs in
  exists tw,
    trace_of run
    = trace_of sw
      ++ (match value_of sw with None => [EvCall_toExecute] | Some _ => [] end)
      ++ tw
      ++ (match value_of run with
          | Exits _ => [EvClose (snd pipes) (k_close K (snd pipes));
                        EvExitGroup 0]
          | _ => []
          end)
    /\ Forall (fun e => exists p r, e = EvWrite (snd pipes) p r) tw
    /\ match encoded K mountNs netNs toExecute with
       | Gives out err =>
           write_loop (snd pipes) (k_write K) (message out err) 0
           = (tw, match value_of run with Exits _ => true | _ => false end)
           /\ (value_of run = Exits 0 \/ value_of run = Hangs)
       | Crashes => tw = [] /\ value_of run = Crashed
       | Runs_on => tw = [] /\ value_of run = Hangs
       end.
Proof.
  intros run sw. subst run sw. unfold child, encoded.
  destruct (switchNs K mountNs netNs) as [ts sv]. cbn [bind value_of trace_of fst snd].
  assert (Hsend : forall out err,
    let send :=
      (left_loop <- write_loop (snd pipes) (k_write K) (message out err) 0 ;;
       if left_loop
       then close_raw K (snd pipes) ;;; emit (EvExitGroup 0) ;;; ret (Exits 0)
       else ret (@Hangs T)) in
    exists tw,
      fst send
      = tw ++ (match snd send with
               | Exits _ => [EvClose (snd pipes) (k_close K (snd pipes));
                             EvExitGroup 0]
               | _ => []
               end)
      /\ Forall (fun e => exists p r, e = EvWrite (snd pipes) p r) tw
      /\ (snd send = Exits 0 \/ snd send = Hangs)
      /\ write_loop (snd pipes) (k_write K) (message out err) 0
         = (tw, match snd send with Exits _ => true | _ => false end)).
  { intros out err send. subst send.
    pose proof (write_loop_writes (snd pipes) (k_write K) (message out err) 0)
      as Hw.
    destruct (write_loop (snd pipes) (k_write K) (message out err) 0)
      as [tw left_loop].
    cbn [trace_of fst] in Hw. exists tw. cbn [bind].
    destruct left_loop.
    - pose proof (close_raw_trace K (snd pipes)) as Hc.
      destruct (close_raw K (snd pipes)) as [tc vc]. cbn in Hc. subst tc.
      cbn. repeat split; auto.
    - unfold ret. cbn. repeat split; auto. }
  destruct sv as [e|].
  - (* the switch failed: the logic is not called *)
    cbn [ret bind app].
    destruct (Hsend None (Some e)) as (tw & Ht & Hw & Hv & Hl).
    cbn zeta in Ht, Hv, Hl.
    destruct (bind (write_loop _ _ _ _) _) as [t v].
    cbn [fst snd] in *. exists tw. subst t. auto.
  - destruct toExecute as [out err| |].
    + cbn [ret bind emit app].
      destruct (Hsend out err) as (tw & Ht & Hw & Hv & Hl).
      cbn zeta in Ht, Hv, Hl.
      destruct (bind (write_loop _ _ _ _) _) as [t v].
      cbn [fst snd] in *. exists tw. subst t. auto.
    + exists []. cbn. auto.
    + exists []. cbn. auto.
Qed.

(** When the kernel takes every write, the child puts its whole message in
    the pipe and exits. *)
Lemma child_sends (K : Kernel) (pipes : Z * Z) (mountNs netNs : bytes)
    (toExecute : Logic T) (out : option T) (err : option error) :
  encoded K mountNs netNs toExecute = Gives out err ->
  answers_writes (k_write K) ->
  length (message out err) <= length (k_write K) ->
  (Z.of_nat (length (message out err)) < 2 ^ 63)%Z ->
  let run := child K pipes mountNs netNs toExecute in
  value_of run = Exits 0
  /\ piped (snd pipes) (trace_of run) = message out err.
Proof.
  intros Henc Hans Hlong Hfit run.
  destruct (child_run K pipes mountNs netNs toExecute)
    as (tw & Ht & Hw & Hl).
  fold run in Ht, Hl. rewrite Henc in Hl. destruct Hl as [Hl Hv].
  destruct (@write_loop_sends (snd pipes) (k_write K) (message out err) 0 Hans)
    as (t & Hloop & Hpiped); [lia | lia | exact Hfit |].
  change (Z.of_nat 0) with 0%Z in Hloop. rewrite Hloop in Hl.
  injection Hl as <- Hleft.
  assert (Hexit : value_of run = Exits 0).
  { destruct Hv as [Hv|Hv]; [exact Hv|]. rewrite Hv in Hleft. discriminate. }
  split; [exact Hexit|].
  rewrite Ht, Hexit, !piped_app.
  rewrite (ns_events_piped _ (switchNs_events K mountNs netNs)).
  rewrite Hpiped. cbn [skipn].
  destruct (value_of (switchNs K mountNs netNs)); cbn; apply app_nil_r.
Qed.

End Child.

(** ** The parent *)

Section Parent.

Context {T : Type} {codec : JSON T}.

Lemma on_done_last (b : bytes) (c : byte) :
  on_done (T := T) (b ++ [c])
  = if negb (Byte.eqb c x00)
    then Returns None (errors_New (B "invalid termination character, not NUL"))
    else
      if HasPrefix b (B "err:")
      then Returns None (errors_New (TrimPrefix b (B "err:")))
      else if HasPrefix b (B "ok:")
      then
        match Unmarshal (TrimPrefix b (B "ok:")) zero with
        | Err e => Returns None (Some e)
        | Ok unmarshalled => Returns (Some unmarshalled) None
        end
      else Returns None (Some (B "unknown response: " ++ b)).
Proof.
  unfold on_done. rewrite index_last, slice_to_last. reflexivity.
Qed.

Lemma on_done_err (text : bytes) :
  on_done (T := T) ((B "err:" ++ text) ++ [x00]) = Returns None (Some text).
Proof.
  rewrite on_done_last. cbn [Byte.eqb negb].
  change (Byte.eqb x00 x00) with true. cbn [negb].
  rewrite HasPrefix_app, TrimPrefix_app. reflexivity.
Qed.

Lemma on_done_ok (base : bytes) :
  on_done (T := T) ((B "ok:" ++ base) ++ [x00])
  = match Unmarshal base zero with
    | Err e => Returns None (Some e)
    | Ok unmarshalled => Returns (Some unmarshalled) None
    end.
Proof.
  rewrite on_done_last.
  change (Byte.eqb x00 x00) with true. cbn [negb].
  change (HasPrefix (B "ok:" ++ base) (B "err:")) with false.
  cbv iota. rewrite HasPrefix_app, TrimPrefix_app. reflexivity.
Qed.

(** A message that is not empty is always decoded to a returned pair. *)
Lemma on_done_returns (buf : bytes) :
  buf <> [] -> exists out err, on_done (T := T) buf = Returns out err.
Proof.
  intros Hne. destruct (exists_last Hne) as (b & c & ->).
  rewrite on_done_last.
  destruct (negb (Byte.eqb c x00)); [eauto|].
  destruct (HasPrefix b (B "err:")); [eauto|].
  destruct (HasPrefix b (B "ok:")); [|eauto].
  destruct (Unmarshal _ _); eauto.
Qed.

Lemma select_before (K : Kernel) (r : ReaderRun) (timeout : Z) t buf :
  rr_done r = Some (t, buf) -> t < Z.to_nat timeout ->
  select K r timeout = CaseDone buf.
Proof.
  intros Hdone Ht. unfold select. rewrite Hdone.
  destruct (t <? Z.to_nat timeout) eqn:E; [reflexivity|]. zbool. lia.
Qed.

Lemma select_after (K : Kernel) (r : ReaderRun) (timeout : Z) :
  deadline_first r timeout -> select K r timeout = CaseTimer.
Proof.
  unfold deadline_first, select. destruct (rr_done r) as [[t buf]|];
    [|reflexivity].
  intros Ht. destruct (t <? Z.to_nat timeout) eqn:E1; [zbool; lia|].
  destruct (Z.to_nat timeout <? t) eqn:E2; [reflexivity|]. zbool. lia.
Qed.

Lemma parent_done (K : Kernel) (pipes : Z * Z) (pid timeout : Z) buf :
  select K (reader K (fst pipes)) timeout = CaseDone buf ->
  parent K pipes pid timeout
  = (EvClose (snd pipes) (k_close K (snd pipes))
       :: map snd (rr_events (reader K (fst pipes))),
     on_done (T := T) buf).
Proof.
  intros Hsel. unfold parent. rewrite Hsel.
  pose proof (close_raw_trace K (snd pipes)) as Hc.
  destruct (close_raw K (snd pipes)) as [tc vc]. cbn in Hc. subst tc.
  cbn. rewrite app_nil_r. reflexivity.
Qed.

Lemma parent_timer (K : Kernel) (pipes : Z * Z) (pid timeout : Z) :
  select K (reader K (fst pipes)) timeout = CaseTimer ->
  parent K pipes pid timeout
  = (EvClose (snd pipes) (k_close K (snd pipes))
       :: until (Z.to_nat timeout) (rr_events (reader K (fst pipes)))
       ++ EvKill (int pid) SIGINT (k_kill K (int pid) SIGINT)
       :: match k_kill K (int pid) SIGINT with
          | Some e =>
              [EvLogrus WarnLevel
                 (B "failed to kill setns process: " ++ Errno_Error e)]
          | None => []
          end,
     Returns (T := T) None
       (Some (B "ForkAndSwitchToNamespace timed out"))).
Proof.
  intros Hsel. unfold parent. rewrite Hsel.
  pose proof (close_raw_trace K (snd pipes)) as Hc.
  destruct (close_raw K (snd pipes)) as [tc vc]. cbn in Hc. subst tc.
  unfold unix_Kill.
  destruct (k_kill K (int pid) SIGINT) as [e|]; cbn; reflexivity.
Qed.

(** Every path of the parent's branch returns a pair to the caller, but the
    one that takes an empty message. *)
Lemma parent_returns_unless_empty (K : Kernel) (pipes : Z * Z)
    (pid timeout : Z) :
  select K (reader K (fst pipes)) timeout <> CaseDone [] ->
  exists out err,
    value_of (parent (T := T) K pipes pid timeout) = Returns out err.
Proof.
  intros Hne.
  destruct (select K (reader K (fst pipes)) timeout) as [buf|] eqn:Hsel.
  - rewrite (parent_done K pipes pid timeout Hsel). cbn [value_of snd].
    apply on_done_returns. intros ->. exact (Hne eq_refl).
  - rewrite (parent_timer K pipes pid timeout Hsel). cbn [value_of snd].
    eauto.
Qed.

End Parent.

(** ** From the child to the caller *)

Section Relay.

Context {T : Type} {codec : JSON T}.
Variable Join : bytes -> bytes -> bytes.

(** What the child encodes is what the caller decodes, when the message
    holds no NUL byte before its sentinel and the kernel carries it. *)
Lemma observed_relays (K : Kernel) ns timeout (toExecute : Logic T)
    pipes pid mountNs netNs out err body :
  Cloned Join K ns pipes pid mountNs netNs ->
  encoded K mountNs netNs toExecute = Gives out err ->
  message out err = body ++ [x00] -> ~ In x00 body ->
  Carries K (message out err) timeout ->
  value_of (observed Join K ns timeout toExecute)
  = on_done (message out err).
Proof.
  intros Hcl Henc Hmsg Hbody [Hw Hwl Hr Hrl Hfit Htime].
  unfold observed. rewrite (cloned_pipe Hcl).
  rewrite (in_forked_child timeout toExecute Hcl).
  destruct (child_sends (in_child K) pipes mountNs netNs toExecute
              Henc Hw Hwl Hfit) as [Hexit Hpiped].
  set (f := feed_of _ _).
  assert (Hf : f = {| feed_bytes := body ++ [x00]; feed_closed := true |}).
  { unfold f, feed_of. cbn [trace_of value_of fst snd piped].
    rewrite Hpiped, Hmsg.
    change (snd (child (in_child K) pipes mountNs netNs toExecute))
      with (value_of (child (in_child K) pipes mountNs netNs toExecute)).
    rewrite Hexit. reflexivity. }
  rewrite (in_parent timeout toExecute (Cloned_fed f Hcl)).
  cbn [value_of snd].
  rewrite Hmsg in Hrl, Hfit.
  destruct (reader_delivers (fed_by f K) (fst pipes) body Hf Hbody Hr Hrl Hfit)
    as (t & Hdone & Ht).
  cbn [fed_by k_read] in Ht.
  rewrite (parent_done (fed_by f K) pipes pid timeout
             (select_before (fed_by f K) _ timeout Hdone
                (Nat.le_lt_trans _ _ _ Ht Htime))).
  cbn [snd]. rewrite Hmsg. reflexivity.
Qed.

End Relay.

(** ** What the reader's events tell *)

Lemma read_trace (fd : Z) (cap : nat) (r : SysRet) :
  exists n err, read fd cap r = ([EvRead fd cap r], (n, err)).
Proof.
  unfold read. destruct (RawSyscall r) as [r0 e]. cbn. eauto.
Qed.

Lemma sys_read_answer (a : ReadAns) (feed : bytes) (closed : bool) (cap : nat)
    (r : SysRet) (data : bytes) :
  sys_read a feed closed cap = Some (r, data) ->
  (exists e, r = SysErr e /\ ra_kind a = RdErr e)
  \/ (r = SysOk (Z.of_nat (length data))).
Proof.
  unfold sys_read. destruct (ra_kind a) as [e|more].
  - intros [= <- <-]. left. eauto.
  - destruct feed as [|c feed].
    + destruct closed; [|discriminate]. intros [= <- <-]. right. reflexivity.
    + intros [= <- <-]. right. reflexivity.
Qed.

(** A failed read makes the reader offer the nil slice. *)
Lemma reader_loop_failed_read (K : Kernel) (fd : Z) (script : list ReadAns) :
  forall feed closed now bufSize bufIndex buf t fd' cap e,
    In (t, EvRead fd' cap (SysErr e))
       (rr_events (reader_loop K fd script feed closed now bufSize bufIndex buf)) ->
    exists t', rr_done (reader_loop K fd script feed closed now bufSize bufIndex buf)
               = Some (t', []).
Proof.
  induction script as [|a script IH];
    intros feed closed now bufSize bufIndex buf t fd' cap e.
  - cbn [reader_loop]. destruct (bufIndex =? bufSize); cbn; contradiction.
  - cbn [reader_loop].
    destruct (if bufIndex =? bufSize
              then (buf ++ make bufSize, bufSize * 2)
              else (buf, bufSize)) as [buf1 bufSize1].
    destruct (sys_read a feed closed _) as [[r data]|] eqn:Hsys;
      [|cbn; contradiction].
    apply sys_read_answer in Hsys.
    destruct Hsys as [[e' [He' _]]|He']; subst r.
    + rewrite read_failed. cbn [rr_events rr_done]. eauto.
    + destruct (read_trace fd
                  (length (slice_from buf1 (Z.of_nat bufIndex)))
                  (SysOk (Z.of_nat (length data)))) as (n & err & ->).
      destruct err as [msg|]; [cbn [rr_done]; eauto|].
      destruct ((n =? 0)%Z || Contains _ [x00]).
      * rewrite close_raw_trace. cbn [rr_events stamp map app].
        intros [H|[H|[]]]; discriminate.
      * cbn [rr_events rr_done stamp map app].
        intros [H|H]; [discriminate|]. exact (IH _ _ _ _ _ _ _ _ _ _ H).
Qed.

(** A first read that answers the end of file makes the reader offer the
    empty slice. *)
Lemma reader_eof_at_once (K : Kernel) (fd : Z) t cap rest :
  rr_events (reader K fd) = (t, EvRead fd cap (SysOk 0)) :: rest ->
  rr_done (reader K fd) = Some (t, []).
Proof.
  unfold reader. destruct (k_read K) as [|a script]; [discriminate|].
  cbn [reader_loop Nat.eqb].
  destruct (sys_read a _ _ _) as [[r data]|] eqn:Hsys; [|discriminate].
  pose proof Hsys as Hans. apply sys_read_answer in Hans.
  destruct Hans as [[e' [He' _]]|He']; subst r.
  - rewrite read_failed. cbn [rr_events stamp map app]. discriminate.
  - destruct data as [|c data].
    + rewrite (read_ok fd _ 0) by (cbn; lia).
      change (Z.of_nat 0 =? 0)%Z with true. cbn [orb rr_events rr_done].
      rewrite close_raw_trace. cbn [stamp map app]. intros [= <-]. reflexivity.
    + destruct (read_trace fd
                  (length (slice_from (make 256) (Z.of_nat 0)))
                  (SysOk (Z.of_nat (length (c :: data))))) as (n & err & ->).
      assert (Hne : forall tl,
                (0 + ra_dt a, EvRead fd
                   (length (slice_from (make 256) (Z.of_nat 0)))
                   (SysOk (Z.of_nat (length (c :: data))))) :: tl
                <> (t, EvRead fd cap (SysOk 0)) :: rest).
      { intros tl H. injection H as _ _ H _. cbn [length] in H. lia. }
      destruct err as [msg|].
      * cbn [rr_events stamp map app]. intros H. exfalso.
        exact (Hne _ H).
      * destruct ((n =? 0)%Z || Contains _ [x00]).
        -- rewrite close_raw_trace. cbn [rr_events stamp map app].
           intros H. exfalso. exact (Hne _ H).
        -- cbn [rr_events stamp map app].
           intros H. exfalso. exact (Hne _ H).
Qed.

(** * The claims *)

Section Claims.

Context {T : Type} {codec : JSON T}.
Variable Join : bytes -> bytes -> bytes.

Lemma message_ok (v : T) (base : bytes) :
  Marshal (Some v) = Ok base ->
  message (Some v) None = (B "ok:" ++ base) ++ [x00].
Proof.
  intros H. unfold message. rewrite H. reflexivity.
Qed.

Lemma ok_body_no_NUL (out : option T) (base : bytes) :
  Marshal out = Ok base -> ~ In x00 (B "ok:" ++ base).
Proof.
  intros H Hin. apply in_app_or in Hin. destruct Hin as [Hin|Hin].
  - cbn in Hin. intuition discriminate.
  - exact (Marshal_no_NUL _ H Hin).
Qed.

(** C3, as amended.  For every value [v] that encoding/json takes there and
    back at [T] (its encoding decodes, into a zero value, to [v]): the
    message the child builds for a successful result [v] (the JSON of [v]
    after [ok:], then the 0x00 sentinel) is decoded by the parent to [v];
    and a call whose set-up and namespace switch succeed and whose logic
    returns [v] returns [v] and no error when the kernel carries the
    message before the deadline: no write is refused, no read fails, and
    all the reads have returned when the timer fires. *)
Theorem C3_ok_message_round_trip (v : T) (K : Kernel) (ns : bytes)
    (timeout : Z) (pipes : Z * Z) (pid : Z) (mountNs netNs : bytes) :
  Serializable v ->
  Cloned Join K ns pipes pid mountNs netNs ->
  switches K mountNs netNs ->
  Carries K (message (Some v) None) timeout ->
  on_done (message (Some v) None) = Returns (Some v) None
  /\ value_of (observed Join K ns timeout (Gives (Some v) None))
     = Returns (Some v) None.
Proof.
  intros (base & Hm & Hu) Hcl Hsw Hcar.
  apply switchNs_succeeds in Hsw.
  assert (Hdec : on_done (message (Some v) None) = Returns (Some v) None).
  { rewrite (message_ok v Hm), on_done_ok, Hu. reflexivity. }
  split; [exact Hdec|].
  rewrite <- Hdec.
  apply (observed_relays (timeout := timeout) (Gives (Some v) None)
           (B "ok:" ++ base) Hcl).
  - unfold encoded. rewrite Hsw. reflexivity.
  - exact (message_ok v Hm).
  - exact (ok_body_no_NUL _ Hm).
  - exact Hcar.
Qed.


(** C5. When the parent takes the reader's message, and that message is not
    empty and does not end with the 0x00 sentinel, the call returns the error
    "invalid termination character, not NUL" and no result, whatever bytes
    come before the last one. *)
Theorem C5_missing_sentinel_is_an_error (K : Kernel) (ns : bytes)
    (timeout : Z) (toExecute : Logic T) (pipes : Z * Z) (pid : Z)
    (mountNs netNs buf : bytes) :
  Cloned Join K ns pipes pid mountNs netNs ->
  select K (reader K (fst pipes)) timeout = CaseDone buf ->
  buf <> [] ->
  last buf x00 <> x00 ->
  value_of (ForkAndSwitchToNamespace Join K ns timeout toExecute)
  = Returns None (Some (B "invalid termination character, not NUL")).
Proof.
  intros Hcl Hsel Hne Hlast.
  rewrite (in_parent timeout toExecute Hcl). cbn [value_of snd].
  rewrite (parent_done K pipes pid timeout Hsel). cbn [snd].
  destruct (exists_last Hne) as (b & c & ->).
  rewrite last_last in Hlast.
  rewrite on_done_last.
  apply byte_eqb_neq in Hlast. rewrite Hlast. reflexivity.
Qed.

(** C9. When a read on the pipe fails, or the pipe is at its end before any
    byte came, the reader's message is empty; when the parent takes it, the
    sentinel check indexes position -1 and the call panics: it returns
    neither a result nor an error. *)
Theorem C9_empty_message_panics (K : Kernel) (ns : bytes) (timeout : Z)
    (toExecute : Logic T) (pipes : Z * Z) (pid : Z)
    (mountNs netNs buf : bytes) :
  Cloned Join K ns pipes pid mountNs netNs ->
  read_failed_in (reader K (fst pipes))
    \/ eof_at_once (fst pipes) (reader K (fst pipes)) ->
  select K (reader K (fst pipes)) timeout = CaseDone buf ->
  buf = []
  /\ index buf (Z.of_nat (length buf) - 1) = None
  /\ value_of (ForkAndSwitchToNamespace Join K ns timeout toExecute)
     = Panics (B "runtime error: index out of range [-1]")
  /\ forall out err,
       value_of (ForkAndSwitchToNamespace Join K ns timeout toExecute)
       <> Returns out err.
Proof.
  intros Hcl Hempty Hsel.
  assert (Hdone : exists t, rr_done (reader K (fst pipes)) = Some (t, [])).
  { destruct Hempty as [(t & fd & cap & e & Hin)|(t & cap & rest & Hev)].
    - exact (reader_loop_failed_read _ _ _ _ _ _ _ _ _ _ _ _ _ Hin).
    - exists t. exact (reader_eof_at_once K Hev). }
  destruct Hdone as (t & Hdone).
  assert (Hbuf : buf = []).
  { revert Hsel. unfold select. rewrite Hdone.
    destruct (t <? Z.to_nat timeout); [intros [= <-]; reflexivity|].
    destruct (Z.to_nat timeout <? t); [discriminate|].
    destruct (k_tie K); [intros [= <-]; reflexivity | discriminate]. }
  subst buf.
  assert (Hval : value_of (ForkAndSwitchToNamespace Join K ns timeout toExecute)
                 = Panics (B "runtime error: index out of range [-1]")).
  { rewrite (in_parent timeout toExecute Hcl). cbn [value_of snd].
    rewrite (parent_done K pipes pid timeout Hsel). reflexivity. }
  split; [reflexivity|]. split; [apply index_empty|].
  split; [exact Hval|].
  intros out err. rewrite Hval. discriminate.
Qed.

(** C4. When the deadline elapses before the reader offers a message, the
    call returns the time-out error; before that it has sent SIGINT to the
    child's process id, and a failed signal is logged as a warning and
    changes nothing else.  The calls logged are those completed by the
    deadline, then the signal: whatever the reader would offer later is not
    looked at. *)
Theorem C4_timeout_signals_and_returns (K : Kernel) (ns : bytes)
    (timeout : Z) (toExecute : Logic T) (pipes : Z * Z) (pid : Z)
    (mountNs netNs : bytes) :
  Cloned Join K ns pipes pid mountNs netNs ->
  deadline_first (reader K (fst pipes)) timeout ->
  let run := ForkAndSwitchToNamespace Join K ns timeout toExecute in
  value_of run = Returns None (Some (B "ForkAndSwitchToNamespace timed out"))
  /\ In (EvKill pid SIGINT (k_kill K pid SIGINT)) (trace_of run)
  /\ trace_of run
     = [EvPipe (inr pipes); EvFork (SysOk pid);
        EvClose (snd pipes) (k_close K (snd pipes))]
       ++ until (Z.to_nat timeout) (rr_events (reader K (fst pipes)))
       ++ EvKill pid SIGINT (k_kill K pid SIGINT)
       :: match k_kill K pid SIGINT with
          | Some e =>
              [EvLogrus WarnLevel
                 (B "failed to kill setns process: " ++ Errno_Error e)]
          | None => []
          end.
Proof.
  intros Hcl Hlate run. subst run.
  rewrite (in_parent timeout toExecute Hcl).
  rewrite (parent_timer K pipes pid timeout (select_after K _ timeout Hlate)).
  assert (Hint : int pid = pid).
  { pose proof (cloned_pid Hcl). unfold int.
    destruct (pid <? 2 ^ 63)%Z eqn:E; [reflexivity | zbool; lia]. }
  rewrite Hint. cbn [value_of trace_of fst snd app].
  split; [reflexivity|]. split; [|reflexivity].
  right. right. right. apply in_or_app. right. left. reflexivity.
Qed.

End Claims.

(** ** What the events of a run can be *)

Lemma writes_only (fd : Z) (t : list Event) :
  Forall (fun e => exists p r, e = EvWrite fd p r) t ->
  opened t = [] /\ joined t = [] /\ ~ In EvCall_toExecute t
  /\ forall fd' r, ~ In (EvClose fd' r) t.
Proof.
  induction 1 as [|e t (p & r & ->) _ (IH1 & IH2 & IH3 & IH4)].
  - repeat split; try reflexivity; intros; intros [].
  - cbn [opened joined]. repeat split; try assumption.
    + intros [H|H]; [discriminate | exact (IH3 H)].
    + intros fd' r' [H|H]; [discriminate | exact (IH4 _ _ H)].
Qed.

Lemma step_text_no_NUL (s : Step) : ~ In x00 (step_text s).
Proof.
  destruct s; cbn; intuition discriminate.
Qed.

Lemma err_body_no_NUL (s : Step) (e : Errno) :
  ~ In x00 (B "err:" ++ step_text s ++ B ": " ++ Errno_Error e).
Proof.
  intros H. apply in_app_or in H. destruct H as [H|H].
  { cbn in H. intuition discriminate. }
  apply in_app_or in H. destruct H as [H|H].
  { exact (step_text_no_NUL s H). }
  apply in_app_or in H. destruct H as [H|H].
  { cbn in H. intuition discriminate. }
  exact (Errno_Error_no_NUL e H).
Qed.

(** The reader closes the read end right before it offers its message,
    unless it has logged a read error. *)
Lemma reader_loop_closes (K : Kernel) (fd : Z) (script : list ReadAns) :
  forall feed closed now bufSize bufIndex buf t msg,
    rr_done (reader_loop K fd script feed closed now bufSize bufIndex buf)
    = Some (t, msg) ->
    In (t, EvClose fd (k_close K fd))
       (rr_events (reader_loop K fd script feed closed now bufSize bufIndex buf))
    \/ exists text,
         In (t, EvLogrus ErrorLevel text)
            (rr_events
               (reader_loop K fd script feed closed now bufSize bufIndex buf)).
Proof.
  induction script as [|a script IH];
    intros feed closed now bufSize bufIndex buf t msg.
  - cbn [reader_loop]. destruct (bufIndex =? bufSize); discriminate.
  - cbn [reader_loop].
    destruct (if bufIndex =? bufSize
              then (buf ++ make bufSize, bufSize * 2)
              else (buf, bufSize)) as [buf1 bufSize1].
    destruct (sys_read a feed closed _) as [[r data]|]; [|discriminate].
    destruct (read_trace fd (length (slice_from buf1 (Z.of_nat bufIndex))) r)
      as (n & err & ->).
    destruct err as [text|].
    + cbn [rr_done rr_events stamp map app]. intros [= <- <-].
      right. eexists. right. left. reflexivity.
    + destruct ((n =? 0)%Z || Contains _ [x00]).
      * rewrite close_raw_trace. cbn [rr_done rr_events stamp map app].
        intros [= <- <-]. left. right. left. reflexivity.
      * cbn [rr_done rr_events stamp map app]. intros Hdone.
        destruct (IH _ _ _ _ _ _ _ _ Hdone) as [H|[text H]].
        -- left. right. exact H.
        -- right. exists text. right. exact H.
Qed.

Section MoreClaims.

Context {T : Type} {codec : JSON T}.
Variable Join : bytes -> bytes -> bytes.

(** A failing network step, as the child lives it and as the caller sees
    it. *)
Lemma net_failure (K : Kernel) (ns : bytes) (timeout : Z)
    (toExecute : Logic T) (pipes : Z * Z) (pid : Z) (mountNs netNs : bytes)
    (s : Step) (e : Errno) :
  Cloned Join K ns pipes pid mountNs netNs ->
  is_net_step s = true ->
  fails_at K mountNs netNs s e ->
  let run := forked_child Join K ns timeout toExecute in
  let text := step_text s ++ B ": " ++ Errno_Error e in
  opened (trace_of run) = [netNs]
  /\ ~ In CLONE_NEWNS (joined (trace_of run))
  /\ ~ In EvCall_toExecute (trace_of run)
  /\ encoded K mountNs netNs toExecute = Gives None (Some text)
  /\ (Carries K (message (@None T) (Some text)) timeout ->
      value_of (observed Join K ns timeout toExecute)
      = Returns None (Some text)).
Proof.
  intros Hcl Hnet Hfail run text. subst run.
  destruct (switchNs_fails_at K mountNs netNs s e Hfail)
    as (Hval & Hopened & Hjoined & _ & Hcall).
  rewrite Hnet in Hopened.
  assert (Henc : encoded K mountNs netNs toExecute = Gives None (Some text)).
  { unfold encoded. rewrite Hval. reflexivity. }
  rewrite (in_forked_child timeout toExecute Hcl). cbn [trace_of fst].
  destruct (child_run (in_child K) pipes mountNs netNs toExecute)
    as (tw & Ht & Hw & _).
  cbn zeta in Ht.
  change (switchNs (in_child K) mountNs netNs) with (switchNs K mountNs netNs)
    in Ht.
  rewrite Hval in Ht. cbn [app] in Ht.
  destruct (writes_only Hw) as (Hwo & Hwj & Hwc & _).
  set (tail := match value_of (child (in_child K) pipes mountNs netNs toExecute)
               with
               | Exits _ => [EvClose (snd pipes) (k_close (in_child K) (snd pipes));
                             EvExitGroup 0]
               | _ => []
               end) in Ht.
  assert (Htail : opened tail = [] /\ joined tail = []
                  /\ ~ In EvCall_toExecute tail).
  { unfold tail. destruct (value_of (child _ _ _ _ _)); cbn;
      intuition discriminate. }
  destruct Htail as (Hto & Htj & Htc).
  rewrite Ht. cbn [opened joined].
  rewrite !opened_app, !joined_app, Hopened, Hjoined, Hwo, Hwj, Hto, Htj.
  split; [reflexivity|]. split.
  { destruct s; try discriminate Hnet; cbn; intuition discriminate. }
  split.
  { intros [H|[H|H]]; try discriminate.
    apply in_app_or in H. destruct H as [H|H]; [exact (Hcall H)|].
    apply in_app_or in H. destruct H as [H|H]; [exact (Hwc H) | exact (Htc H)]. }
  split; [exact Henc|].
  intros Hcar.
  assert (Hmsg : message (@None T) (Some text) = (B "err:" ++ text) ++ [x00])
    by reflexivity.
  rewrite (observed_relays (timeout := timeout) toExecute (B "err:" ++ text)
             Hcl Henc Hmsg (err_body_no_NUL s e) Hcar).
  rewrite Hmsg. apply on_done_err.
Qed.

(** C6. In the child, when a network-namespace step (the open, the join or
    the close of the net handle) fails: the net handle is the only file the
    child ever opens and it never joins a mount namespace; the logic is not
    called; and the error the child encodes, which the caller gets when the
    kernel carries the message, starts with the name of the failing network
    step. *)
Theorem C6_net_failure_stops_the_switch (K : Kernel) (ns : bytes)
    (timeout : Z) (toExecute : Logic T) (pipes : Z * Z) (pid : Z)
    (mountNs netNs : bytes) (s : Step) (e : Errno) :
  Cloned Join K ns pipes pid mountNs netNs ->
  is_net_step s = true ->
  fails_at K mountNs netNs s e ->
  let run := forked_child Join K ns timeout toExecute in
  let text := step_text s ++ B ": " ++ Errno_Error e in
  opened (trace_of run) = [netNs]
  /\ ~ In CLONE_NEWNS (joined (trace_of run))
  /\ ~ In EvCall_toExecute (trace_of run)
  /\ encoded K mountNs netNs toExecute = Gives None (Some text)
  /\ (Carries K (message (@None T) (Some text)) timeout ->
      value_of (observed Join K ns timeout toExecute)
      = Returns None (Some text)).
Proof.
  intros Hcl Hnet Hfail. exact (net_failure timeout toExecute s e Hcl Hnet Hfail).
Qed.

(** C2, as amended.  A missing net handle file is not found out before the
    clone: when both paths are built and the pipe is made, the caller forks
    without having opened any file; it is the child whose open of the net
    handle fails with ENOENT, which then neither opens the mount handle nor
    calls the logic, and the caller gets the child's error "failed to open
    net namespace: no such file or directory" when the kernel carries the
    message before the deadline. *)
Theorem C2_missing_net_handle_fails_in_the_child (K : Kernel) (ns : bytes)
    (timeout : Z) (toExecute : Logic T) (pipes : Z * Z) (pid : Z)
    (mountNs netNs : bytes) :
  Cloned Join K ns pipes pid mountNs netNs ->
  k_fs K (Join ns (B "net")) = None ->
  let text := B "failed to open net namespace: no such file or directory" in
  (exists t,
     trace_of (ForkAndSwitchToNamespace Join K ns timeout toExecute)
     = [EvPipe (inr pipes); EvFork (SysOk pid)] ++ t)
  /\ opened (trace_of (forked_child Join K ns timeout toExecute)) = [netNs]
  /\ ~ In EvCall_toExecute (trace_of (forked_child Join K ns timeout toExecute))
  /\ (Carries K (message (@None T) (Some text)) timeout ->
      value_of (observed Join K ns timeout toExecute)
      = Returns None (Some text)).
Proof.
  intros Hcl Hmissing text.
  assert (Hfail : fails_at K mountNs netNs OpenNet ENOENT).
  { cbn [fails_at]. unfold sys_openat.
    destruct (BytePtrFromString_inr _ (cloned_net Hcl)) as [_ ->].
    rewrite Hmissing. reflexivity. }
  destruct (net_failure timeout toExecute OpenNet ENOENT Hcl eq_refl Hfail)
    as (Ho & _ & Hc & _ & Hrelay).
  split.
  { rewrite (in_parent timeout toExecute Hcl). cbn [trace_of fst].
    eexists. reflexivity. }
  split; [exact Ho|]. split; [exact Hc|]. exact Hrelay.
Qed.

(** C8, as amended.  After a successful clone, with the descriptors of the
    pipe distinct and not handed out again by an open: the parent's first
    call is the close of its copy of the write end, and when its reader
    offers a message without having logged a read error and the parent takes
    it, the read end has been closed; the child never closes the read end,
    and whenever it exits, its last two calls are the close of the write end
    and the exit. *)
Theorem C8_pipe_ends_closed_by_their_users (K : Kernel) (ns : bytes)
    (timeout : Z) (toExecute : Logic T) (pipes : Z * Z) (pid : Z)
    (mountNs netNs : bytes) :
  Cloned Join K ns pipes pid mountNs netNs ->
  fst pipes <> snd pipes ->
  (forall path v, sys_openat K path = SysOk v ->
                  int (v mod 2 ^ 64) <> fst pipes) ->
  let p := ForkAndSwitchToNamespace Join K ns timeout toExecute in
  let c := forked_child Join K ns timeout toExecute in
  (exists t,
     trace_of p
     = [EvPipe (inr pipes); EvFork (SysOk pid);
        EvClose (snd pipes) (k_close K (snd pipes))] ++ t
     /\ forall buf,
          select K (reader K (fst pipes)) timeout = CaseDone buf ->
          (forall tm text,
             ~ In (tm, EvLogrus ErrorLevel text)
                  (rr_events (reader K (fst pipes)))) ->
          In (EvClose (fst pipes) (k_close K (fst pipes))) t)
  /\ (forall r, ~ In (EvClose (fst pipes) r) (trace_of c))
  /\ (forall code, value_of c = Exits code ->
        exists t,
          trace_of c
          = t ++ [EvClose (snd pipes) (k_close K (snd pipes));
                  EvExitGroup 0]).
Proof.
  intros Hcl Hdistinct Hfresh p c. subst p c.
  split; [|split].
  - rewrite (in_parent timeout toExecute Hcl). cbn [trace_of fst].
    destruct (select K (reader K (fst pipes)) timeout) as [buf'|] eqn:Hsel.
    + rewrite (parent_done K pipes pid timeout Hsel). cbn [fst].
      eexists. split; [reflexivity|].
      intros buf [= <-] Hquiet.
      assert (Hdone : exists tm, rr_done (reader K (fst pipes))
                                 = Some (tm, buf')).
      { revert Hsel. unfold select.
        destruct (rr_done (reader K (fst pipes))) as [[tm b]|]; [|discriminate].
        exists tm. revert Hsel.
        destruct (tm <? Z.to_nat timeout); [intros [= <-]; reflexivity|].
        destruct (Z.to_nat timeout <? tm); [discriminate|].
        destruct (k_tie K); [intros [= <-]; reflexivity | discriminate]. }
      destruct Hdone as (tm & Hdone).
      destruct (reader_loop_closes _ _ _ _ _ _ _ _ _ Hdone) as [H|[text H]].
      * apply (in_map snd) in H. exact H.
      * exfalso. exact (Hquiet _ _ H).
    + rewrite (parent_timer K pipes pid timeout Hsel). cbn [fst].
      eexists. split; [reflexivity|]. discriminate.
  - intros r.
    rewrite (in_forked_child timeout toExecute Hcl). cbn [trace_of fst].
    destruct (child_run (in_child K) pipes mountNs netNs toExecute)
      as (tw & Ht & Hw & _).
    cbn zeta in Ht. rewrite Ht.
    intros [H|[H|H]]; try discriminate.
    apply in_app_or in H. destruct H as [H|H].
    { pose proof (switchNs_events (in_child K) mountNs netNs) as Hev.
      rewrite Forall_forall in Hev. specialize (Hev _ H).
      cbn in Hev. destruct Hev as (path & v & Hv & Hfd).
      exact (Hfresh path v Hv (eq_sym Hfd)). }
    apply in_app_or in H. destruct H as [H|H].
    { destruct (value_of (switchNs (in_child K) mountNs netNs));
        [contradiction|].
      destruct H as [H|[]]. discriminate. }
    apply in_app_or in H. destruct H as [H|H].
    { destruct (writes_only Hw) as (_ & _ & _ & Hnc). exact (Hnc _ _ H). }
    destruct (value_of (child (in_child K) pipes mountNs netNs toExecute));
      try contradiction.
    destruct H as [H|[H|[]]]; [|discriminate].
    injection H as H _. exact (Hdistinct (eq_sym H)).
  - intros code.
    rewrite (in_forked_child timeout toExecute Hcl). cbn [trace_of value_of fst snd].
    destruct (child_run (in_child K) pipes mountNs netNs toExecute)
      as (tw & Ht & _ & _).
    cbn zeta in Ht. intros Hexit.
    rewrite Hexit in Ht. rewrite Ht.
    eexists (_ :: _ :: _). cbn [app]. rewrite !app_assoc. reflexivity.
Qed.

End MoreClaims.

(** ** Calls that return nothing *)

Section Lost.

Context {T : Type} {codec : JSON T}.
Variable Join : bytes -> bytes -> bytes.

(** When the child dies in the logic, nothing is in the pipe and its write
    end is closed: the reader's first read answers the end of file, and when
    it returns before the deadline the call panics on the empty message. *)
Lemma crashed_child_run (K : Kernel) (ns : bytes) (timeout : Z)
    (pipes : Z * Z) (pid : Z) (mountNs netNs : bytes) (a : ReadAns)
    (script : list ReadAns) (more : nat) :
  Cloned Join K ns pipes pid mountNs netNs ->
  switches K mountNs netNs ->
  k_read K = a :: script ->
  ra_kind a = RdOk more ->
  ra_dt a < Z.to_nat timeout ->
  observed Join K ns timeout (@Crashes T)
  = ([EvPipe (inr pipes); EvFork (SysOk pid);
      EvClose (snd pipes) (k_close K (snd pipes));
      EvRead (fst pipes) 256 (SysOk 0);
      EvClose (fst pipes) (k_close K (fst pipes))],
     Panics (B "runtime error: index out of range [-1]")).
Proof.
  intros Hcl Hsw Hread Hkind Hdt. apply switchNs_succeeds in Hsw.
  unfold observed. rewrite (cloned_pipe Hcl).
  rewrite (in_forked_child timeout (@Crashes T) Hcl).
  destruct (child_run (in_child K) pipes mountNs netNs (@Crashes T))
    as (tw & Ht & _ & Hl).
  cbn zeta in Ht.
  change (switchNs (in_child K) mountNs netNs) with (switchNs K mountNs netNs)
    in Ht.
  unfold encoded in Hl.
  change (switchNs (in_child K) mountNs netNs) with (switchNs K mountNs netNs)
    in Hl.
  rewrite Hsw in Ht, Hl. destruct Hl as [-> Hdead].
  rewrite Hdead in Ht. cbn [app] in Ht.
  set (f := feed_of _ _).
  assert (Hf : f = {| feed_bytes := []; feed_closed := true |}).
  { unfold f, feed_of. cbn [trace_of value_of fst snd piped].
    change (snd (child (in_child K) pipes mountNs netNs Crashes))
      with (value_of (child (in_child K) pipes mountNs netNs (@Crashes T))).
    change (fst (child (in_child K) pipes mountNs netNs Crashes))
      with (trace_of (child (in_child K) pipes mountNs netNs (@Crashes T))).
    rewrite Hdead, Ht, piped_app.
    rewrite (ns_events_piped _ (switchNs_events K mountNs netNs)).
    reflexivity. }
  rewrite (in_parent timeout (@Crashes T) (Cloned_fed f Hcl)).
  assert (Hreader : reader (fed_by f K) (fst pipes)
                    = {| rr_events :=
                           [(0 + ra_dt a, EvRead (fst pipes) 256 (SysOk 0));
                            (0 + ra_dt a,
                             EvClose (fst pipes) (k_close K (fst pipes)))];
                         rr_done := Some (0 + ra_dt a, []) |}).
  { unfold reader. cbn [fed_by k_feed k_read]. rewrite Hf, Hread.
    cbn [feed_bytes feed_closed reader_loop Nat.eqb].
    unfold sys_read. rewrite Hkind.
    change (length (slice_from (make 256) (Z.of_nat 0))) with 256.
    change (SysOk 0) with (SysOk (Z.of_nat 0)).
    rewrite (read_ok (fst pipes) 256 0) by (cbn; lia).
    change (Z.of_nat 0 =? 0)%Z with true. cbn [orb].
    rewrite close_raw_trace. reflexivity. }
  assert (Hsel : select (fed_by f K) (reader (fed_by f K) (fst pipes)) timeout
                 = CaseDone []).
  { apply (select_before (fed_by f K) _ timeout (t := 0 + ra_dt a)).
    - rewrite Hreader. reflexivity.
    - exact Hdt. }
  rewrite (parent_done (fed_by f K) pipes pid timeout Hsel).
  rewrite Hreader. reflexivity.
Qed.

(** When the first read on the pipe fails and returns before the deadline,
    the call panics on the empty message, whatever the child sent. *)
Lemma failed_read_run (K : Kernel) (ns : bytes) (timeout : Z)
    (toExecute : Logic T) (pipes : Z * Z) (pid : Z) (mountNs netNs : bytes)
    (a : ReadAns) (script : list ReadAns) (e : Errno) :
  Cloned Join K ns pipes pid mountNs netNs ->
  k_read K = a :: script ->
  ra_kind a = RdErr e ->
  ra_dt a < Z.to_nat timeout ->
  value_of (observed Join K ns timeout toExecute)
  = Panics (B "runtime error: index out of range [-1]").
Proof.
  intros Hcl Hread Hkind Hdt.
  unfold observed. rewrite (cloned_pipe Hcl).
  set (f := feed_of _ _).
  rewrite (in_parent timeout toExecute (Cloned_fed f Hcl)).
  cbn [value_of snd].
  assert (Hdone : rr_done (reader (fed_by f K) (fst pipes))
                  = Some (0 + ra_dt a, [])).
  { unfold reader. cbn [fed_by k_feed k_read]. rewrite Hread.
    cbn [reader_loop Nat.eqb]. unfold sys_read. rewrite Hkind.
    rewrite read_failed. reflexivity. }
  rewrite (parent_done (fed_by f K) pipes pid timeout
             (select_before (fed_by f K) _ timeout Hdone Hdt)).
  reflexivity.
Qed.

End Lost.

(** * The claims at concrete inputs *)

Import Sample.

Lemma fine_cloned (K : Kernel) :
  k_pipe K = k_pipe fine -> k_fork K = k_fork fine ->
  Cloned Sample.Join K ns (3, 4)%Z 4243 mountNs netNs.
Proof.
  intros Hp Hf. constructor.
  - reflexivity.
  - reflexivity.
  - rewrite Hp. reflexivity.
  - rewrite Hf. reflexivity.
  - split; reflexivity.
Defined.

Lemma fine_switches : switches fine mountNs netNs.
Proof.
  exists 5%Z, 5%Z. unfold opens_as.
  repeat match goal with
         | |- _ /\ _ => split
         | |- (_ <= _)%Z => lia
         | |- (_ < _)%Z => lia
         | |- _ = _ => reflexivity
         end.
Defined.

Lemma fine_carries (K : Kernel) (msg : bytes) (timeout : Z) :
  k_write K = k_write fine -> k_read K = k_read fine ->
  length msg < 80 -> 80 < Z.to_nat timeout ->
  Carries K msg timeout.
Proof.
  intros Hw Hr Hlen Htime. constructor; rewrite ?Hw, ?Hr.
  - apply Forall_forall. intros a Ha. apply repeat_spec in Ha. eauto.
  - cbn [k_write fine]. rewrite repeat_length. lia.
  - apply Forall_forall. intros a Ha. apply repeat_spec in Ha.
    subst a. eexists. reflexivity.
  - cbn [k_read fine]. rewrite repeat_length. lia.
  - lia.
  - exact Htime.
Defined.

(** C3, as amended, at [true], under the kernel [fine]. *)
Lemma C3_ok_message_round_trip_witness :
  Serializable true
  /\ value_of (observed Sample.Join fine ns 100 (Gives (Some true) None))
     = Returns (Some true) None.
Proof.
  assert (Hs : Serializable true).
  { exists (B "true"). split; reflexivity. }
  split; [exact Hs|].
  refine (proj2 (@C3_ok_message_round_trip bool _ Sample.Join true fine ns
                   100 (3, 4)%Z 4243 mountNs netNs Hs _ _ _)).
  - apply fine_cloned; reflexivity.
  - exact fine_switches.
  - apply fine_carries; try reflexivity.
    + cbn. lia.
    + vm_compute. lia.
Defined.

(** C3, as stated, fails under the kernel [interrupted] with a deadline of
    a minute: [true] is serializable and the logic returns it at once, but
    the reader's first read fails, the reader hands over nil, and the call
    panics: the caller gets no value. *)
Lemma C3_returned_value_is_lost_on_a_failed_read :
  Serializable true
  /\ value_of (forked_child Sample.Join interrupted ns Iscsi.Minute
                 (Gives (Some true) None))
     = Exits 0
  /\ value_of (observed Sample.Join interrupted ns Iscsi.Minute
                 (Gives (Some true) None))
     = Panics (B "runtime error: index out of range [-1]").
Proof.
  split; [exists (B "true"); split; reflexivity|].
  split.
  - vm_compute. reflexivity.
  - refine (@failed_read_run bool _ Sample.Join interrupted ns Iscsi.Minute
              (Gives (Some true) None) (3, 4)%Z 4243 mountNs netNs
              {| ra_dt := millisecond; ra_kind := RdErr EINTR |}
              (k_read steady) EINTR _ _ _ _).
    + apply fine_cloned; reflexivity.
    + reflexivity.
    + reflexivity.
    + unfold millisecond, Iscsi.Minute, Second. cbn [ra_dt]. lia.
Qed.


(** C5 under the kernel [truncated]: a complete [ok:] payload with no
    sentinel before the write end is closed. *)
Lemma C5_missing_sentinel_is_an_error_witness :
  select truncated (reader truncated 3) 100 = CaseDone (B "ok:true")
  /\ value_of (ForkAndSwitchToNamespace Sample.Join truncated ns 100
                 (Gives (Some true) None))
     = Returns None (Some (B "invalid termination character, not NUL")).
Proof.
  assert (Hsel : select truncated (reader truncated 3) 100
                 = CaseDone (B "ok:true")) by reflexivity.
  split; [exact Hsel|].
  refine (@C5_missing_sentinel_is_an_error bool _ Sample.Join truncated ns 100
            (Gives (Some true) None) (3, 4)%Z 4243 mountNs netNs (B "ok:true")
            _ Hsel _ _).
  - apply fine_cloned; reflexivity.
  - discriminate.
  - cbn. discriminate.
Defined.

(** C9 under the kernel [read_error]: the first read fails with EIO. *)
Lemma C9_empty_message_panics_witness :
  read_failed_in (reader read_error 3)
  /\ value_of (ForkAndSwitchToNamespace Sample.Join read_error ns 100
                 (Gives (Some true) None))
     = Panics (B "runtime error: index out of range [-1]").
Proof.
  assert (Hfail : read_failed_in (reader read_error 3)).
  { exists 1, 3%Z, 256, EIO. left. reflexivity. }
  split; [exact Hfail|].
  refine (proj1 (proj2 (proj2
            (@C9_empty_message_panics bool _ Sample.Join read_error ns 100
               (Gives (Some true) None) (3, 4)%Z 4243 mountNs netNs []
               _ (or_introl Hfail) _)))).
  - apply fine_cloned; reflexivity.
  - reflexivity.
Defined.

(** C4 under the kernel [unkillable] with a deadline of one unit of time:
    the message takes two reads, so two units, to arrive. *)
Lemma C4_timeout_signals_and_returns_witness :
  deadline_first (reader unkillable 3) 1
  /\ value_of (ForkAndSwitchToNamespace Sample.Join unkillable ns 1
                 (Gives (Some true) None))
     = Returns None (Some (B "ForkAndSwitchToNamespace timed out"))
  /\ In (EvKill 4243 SIGINT (Some ESRCH))
        (trace_of (ForkAndSwitchToNamespace Sample.Join unkillable ns 1
                     (Gives (Some true) None))).
Proof.
  assert (Hlate : deadline_first (reader unkillable 3) 1).
  { vm_compute. lia. }
  split; [exact Hlate|].
  pose proof (@C4_timeout_signals_and_returns bool _ Sample.Join unkillable ns
                1 (Gives (Some true) None) (3, 4)%Z 4243 mountNs netNs
                (fine_cloned unkillable eq_refl eq_refl) Hlate) as H.
  cbn zeta in H. split; [exact (proj1 H) | exact (proj1 (proj2 H))].
Defined.

(** C6 under the kernel [denied]: the join of the network namespace fails
    with EPERM. *)
Lemma C6_net_failure_stops_the_switch_witness :
  fails_at denied mountNs netNs SetnsNet EPERM
  /\ opened (trace_of (forked_child Sample.Join denied ns 100
                         (Gives (Some true) None)))
     = [netNs]
  /\ value_of (observed Sample.Join denied ns 100 (Gives (Some true) None))
     = Returns None
         (Some (B "failed to setns net namespace: operation not permitted")).
Proof.
  assert (Hfail : fails_at denied mountNs netNs SetnsNet EPERM).
  { exists 5%Z. split; [split; [reflexivity | lia] | reflexivity]. }
  split; [exact Hfail|].
  pose proof (@C6_net_failure_stops_the_switch bool _ Sample.Join denied ns
                100 (Gives (Some true) None) (3, 4)%Z 4243 mountNs netNs
                SetnsNet EPERM (fine_cloned denied eq_refl eq_refl)
                eq_refl Hfail) as H.
  cbn zeta in H. destruct H as (Ho & _ & _ & _ & Hrelay).
  split; [exact Ho|].
  apply Hrelay. apply fine_carries; try reflexivity.
  - cbn. lia.
  - vm_compute. lia.
Defined.

(** C2, as stated, fails under the kernel [no_net]: the directory holds no
    [net] entry, and yet the call forks; what it returns is the error the
    child sent. *)
Lemma C2_fork_precedes_the_missing_handle :
  k_fs no_net (Sample.Join ns (B "net")) = None
  /\ In (EvFork (SysOk 4243))
        (trace_of (observed Sample.Join no_net ns 100 (Gives (Some true) None)))
  /\ value_of (observed Sample.Join no_net ns 100 (Gives (Some true) None))
     = Returns None
         (Some (B "failed to open net namespace: no such file or directory")).
Proof.
  split; [reflexivity|]. split; [|vm_compute; reflexivity].
  vm_compute. right. left. reflexivity.
Qed.

(** C2, as amended, under the kernel [no_net]. *)
Lemma C2_missing_net_handle_fails_in_the_child_witness :
  k_fs no_net (Sample.Join ns (B "net")) = None
  /\ opened (trace_of (forked_child Sample.Join no_net ns 100
                         (Gives (Some true) None)))
     = [netNs]
  /\ value_of (observed Sample.Join no_net ns 100 (Gives (Some true) None))
     = Returns None
         (Some (B "failed to open net namespace: no such file or directory")).
Proof.
  assert (Hmissing : k_fs no_net (Sample.Join ns (B "net")) = None)
    by reflexivity.
  split; [exact Hmissing|].
  pose proof (@C2_missing_net_handle_fails_in_the_child bool _ Sample.Join
                no_net ns 100 (Gives (Some true) None) (3, 4)%Z 4243
                mountNs netNs (fine_cloned no_net eq_refl eq_refl)
                Hmissing) as H.
  cbn zeta in H. destruct H as (_ & Ho & _ & Hrelay).
  split; [exact Ho|].
  apply Hrelay. apply fine_carries; try reflexivity.
  - cbn. lia.
  - vm_compute. lia.
Defined.

(** C8, as stated, fails under the kernel [fine]: the child runs to its
    exit and never closes descriptor 3, the read end of the pipe. *)
Lemma C8_child_leaves_the_read_end_open :
  k_pipe fine = inr (3, 4)%Z
  /\ value_of (forked_child Sample.Join fine ns 100 (Gives (Some true) None))
     = Exits 0
  /\ forall r,
       ~ In (EvClose 3 r)
            (trace_of (forked_child Sample.Join fine ns 100
                         (Gives (Some true) None))).
Proof.
  split; [reflexivity|]. split; [vm_compute; reflexivity|].
  intros r. vm_compute.
  intros H. repeat (destruct H as [H|H]; [discriminate H|]). exact H.
Qed.

(** C8, as amended, under the kernel [fine]. *)
Lemma C8_pipe_ends_closed_by_their_users_witness :
  (forall r,
     ~ In (EvClose 3 r)
          (trace_of (forked_child Sample.Join fine ns 100
                       (Gives (Some true) None))))
  /\ exists t,
       trace_of (forked_child Sample.Join fine ns 100 (Gives (Some true) None))
       = t ++ [EvClose 4 (SysOk 0); EvExitGroup 0].
Proof.
  assert (Hfresh : forall path v, sys_openat fine path = SysOk v ->
                                  int (v mod 2 ^ 64) <> 3%Z).
  { intros path v. unfold sys_openat. cbn [k_fs fine].
    destruct (list_eq_dec _ _ _); [intros [= <-]; discriminate|].
    destruct (list_eq_dec _ _ _); [intros [= <-]; discriminate|].
    discriminate. }
  pose proof (@C8_pipe_ends_closed_by_their_users bool _ Sample.Join fine ns
                100 (Gives (Some true) None) (3, 4)%Z 4243 mountNs netNs
                (fine_cloned fine eq_refl eq_refl)
                ltac:(discriminate) Hfresh) as H.
  cbn zeta in H. destruct H as (_ & Hread & Hwrite).
  split; [exact Hread|].
  exact (Hwrite 0%Z eq_refl).
Defined.

(** C1 fails when the child dies in the logic before it writes, with a
    deadline of a minute: the write end is closed with nothing sent, the
    reader's first read answers the end of file after a millisecond, its
    message is empty, and the call panics in the sentinel check: no outcome
    at all is returned to the caller. *)
Theorem C1_crashed_child_panics_the_caller :
  observed Sample.Join steady ns Iscsi.Minute (@Crashes bool)
  = ([EvPipe (inr (3, 4)%Z); EvFork (SysOk 4243); EvClose 4 (SysOk 0);
      EvRead 3 256 (SysOk 0); EvClose 3 (SysOk 0)],
     Panics (B "runtime error: index out of range [-1]")).
Proof.
  refine (@crashed_child_run bool _ Sample.Join steady ns Iscsi.Minute
            (3, 4)%Z 4243 mountNs netNs
            {| ra_dt := millisecond; ra_kind := RdOk 255 |}
            (repeat {| ra_dt := millisecond; ra_kind := RdOk 255 |} 399) 255
            _ _ _ _ _).
  - apply fine_cloned; reflexivity.
  - exact fine_switches.
  - reflexivity.
  - reflexivity.
  - unfold millisecond, Iscsi.Minute, Second. cbn [ra_dt]. lia.
Qed.

(** C7 fails under the kernel [no_fork]: the pipe (3, 4) is made, fork
    fails with EAGAIN, and the call returns the wrapped error without a
    close of either descriptor. *)
Theorem C7_failed_fork_leaves_the_pipe_open :
  ForkAndSwitchToNamespace Sample.Join no_fork ns 100 (Gives (Some true) None)
  = ([EvPipe (inr (3, 4)%Z); EvFork (SysErr EAGAIN)],
     Returns None
       (Some (B "failed to fork: resource temporarily unavailable"))).
Proof. vm_compute. reflexivity. Qed.

(** * Further properties of util/ns_evaluator.go *)

(** ** The namespace switch under every kernel *)

(** Whatever the kernel answers, the calls that [switchNs] makes are the
    first [k] of the six calls of a full switch, in that order: the net
    handle is opened first and joined only when it was opened; the mount
    handle is opened only after the network namespace has been joined and
    its handle closed, and joined only when it was opened; and [switchNs]
    returns nil exactly when all six calls were made and the last two
    succeeded as well. *)
Theorem switchNs_keeps_the_order (K : Kernel) (mountNs netNs : bytes) :
  let run := switchNs K mountNs netNs in
  let o := opened (trace_of run) in
  let j := joined (trace_of run) in
  let fd := handle_of K netNs in
  let fd' := handle_of K mountNs in
  (exists k,
     trace_of run = firstn k (full_switch K mountNs netNs)
     /\ 1 <= k <= 6
     /\ (1 < k -> (0 <= fd)%Z)
     /\ (3 < k ->
         answered_zero (k_setns K fd CLONE_NEWNET)
         /\ answered_zero (k_close K fd))
     /\ (4 < k -> (0 <= fd')%Z)
     /\ (value_of run = None
         <-> k = 6
             /\ answered_zero (k_setns K fd' CLONE_NEWNS)
             /\ answered_zero (k_close K fd')))
  /\ ((o = [netNs] /\ j = [])
      \/ (o = [netNs] /\ j = [CLONE_NEWNET])
      \/ (o = [netNs; mountNs] /\ j = [CLONE_NEWNET])
      \/ (o = [netNs; mountNs] /\ j = [CLONE_NEWNET; CLONE_NEWNS]))
  /\ (value_of run = None ->
      o = [netNs; mountNs] /\ j = [CLONE_NEWNET; CLONE_NEWNS]).
Proof.
  cbv zeta.
  unfold full_switch, handle_of, answered_zero, switchNs, open, openat, setns,
    close_raw.
  destruct (RawSyscall (sys_openat K netNs)) as [r0 e0]. cbn [fst].
  destruct (int r0 >=? 0)%Z eqn:E0; cbn.
  2:{ split; [|split; [tauto | discriminate]].
      exists 1. zbool. do 5 (split; [first [reflexivity | lia]|]).
      split; [discriminate | intros [H _]; discriminate H]. }
  destruct (RawSyscall (k_setns K (int r0) CLONE_NEWNET)) as [o1 e1].
  destruct (RawSyscall (k_close K (int r0))) as [o2 e2]. cbn [fst].
  destruct (o1 =? 0)%Z eqn:E1; cbn.
  2:{ split; [|split; [tauto | discriminate]].
      exists 3. zbool. do 5 (split; [first [reflexivity | lia]|]).
      split; [discriminate | intros [H _]; discriminate H]. }
  destruct (o2 =? 0)%Z eqn:E2; cbn.
  2:{ split; [|split; [tauto | discriminate]].
      exists 3. zbool. do 5 (split; [first [reflexivity | lia]|]).
      split; [discriminate | intros [H _]; discriminate H]. }
  destruct (RawSyscall (sys_openat K mountNs)) as [r3 e3]. cbn [fst].
  destruct (int r3 >=? 0)%Z eqn:E3; cbn.
  - assert (Hguard : (int r3 <? 0)%Z = false)
      by (apply Z.ltb_ge; zbool; lia).
    rewrite Hguard. cbn.
    destruct (RawSyscall (k_setns K (int r3) CLONE_NEWNS)) as [o4 e4].
    destruct (RawSyscall (k_close K (int r3))) as [o5 e5]. cbn [fst].
    destruct (o4 =? 0)%Z eqn:E4; cbn.
    2:{ split; [|split; [tauto | discriminate]].
        exists 6. zbool.
        do 5 (split; [first [reflexivity | lia | intros _; split; lia]|]).
        split; [discriminate | intros (_ & H & _); contradiction]. }
    destruct (o5 =? 0)%Z eqn:E5; cbn.
    + split; [|split; [tauto | tauto]].
      exists 6. zbool.
      do 5 (split; [first [reflexivity | lia | intros _; split; lia]|]).
      split; [intros _; repeat split; assumption | reflexivity].
    + split; [|split; [tauto | discriminate]].
      exists 6. zbool.
      do 5 (split; [first [reflexivity | lia | intros _; split; lia]|]).
      split; [discriminate | intros (_ & _ & H); contradiction].
  - assert (Hguard : (int r3 <? 0)%Z = true)
      by (apply Z.ltb_lt; zbool; lia).
    rewrite Hguard. cbn.
    split; [|split; [tauto | discriminate]].
    exists 4. zbool.
    do 5 (split; [first [reflexivity | lia | intros _; split; lia]|]).
    split; [discriminate | intros [H _]; discriminate H].
Qed.

(** Whatever the kernel answers, on every path through [switchNs] each
    descriptor that an open gave is closed before [switchNs] returns: after
    a failed join as well as after a successful one. *)
Theorem switchNs_closes_its_handles (K : Kernel) (mountNs netNs : bytes) :
  handles_closed (trace_of (switchNs K mountNs netNs)).
Proof.
  assert (Hfd : forall v, (0 <= v < 2 ^ 63)%Z ->
                          (int (v mod 2 ^ 64) =? v)%Z = true).
  { intros v Hv. rewrite int_small by exact Hv. apply Z.eqb_refl. }
  assert (Hneg : forall v, (int (v mod 2 ^ 64) >=? 0)%Z = false ->
                           (0 <= v < 2 ^ 63)%Z -> False).
  { intros v E Hv. rewrite int_small in E by exact Hv.
    rewrite Z.geb_leb in E. zbool. lia. }
  unfold switchNs, open, openat, setns, close_raw.
  destruct (sys_openat K netNs) as [v|e]; cbn [RawSyscall]; [|cbn -[Z.pow]; exact I].
  destruct (int (v mod 2 ^ 64) >=? 0)%Z eqn:E; cbn -[Z.pow].
  2: { split; [intros Hv; exfalso; exact (Hneg v E Hv) | exact I]. }
  destruct (RawSyscall (k_setns K _ CLONE_NEWNET)) as [o1 e1].
  destruct (RawSyscall (k_close K _)) as [o2 e2].
  destruct (o1 =? 0)%Z; cbn -[Z.pow].
  2: { split; [intros Hv; rewrite (Hfd v Hv); reflexivity | exact I]. }
  destruct (o2 =? 0)%Z; cbn -[Z.pow].
  2: { split; [intros Hv; rewrite (Hfd v Hv); reflexivity | exact I]. }
  destruct (sys_openat K mountNs) as [v'|e']; cbn [RawSyscall].
  2: { change (int (2 ^ 64 - 1)) with (-1)%Z. cbn -[Z.pow].
       split; [intros Hv; rewrite (Hfd v Hv); reflexivity | exact I]. }
  destruct (int (v' mod _) >=? 0)%Z eqn:E'; cbn -[Z.pow].
  - rewrite andb_false_r.
    destruct (RawSyscall (k_setns K _ CLONE_NEWNS)) as [o4 e4].
    destruct (RawSyscall (k_close K _)) as [o5 e5].
    destruct (o4 =? 0)%Z; cbn -[Z.pow]; [destruct (o5 =? 0)%Z; cbn -[Z.pow]|];
      (split; [intros Hv; rewrite (Hfd v Hv); reflexivity|]);
      (split; [intros Hv'; rewrite (Hfd v' Hv'); reflexivity | exact I]).
  - assert (Hlt : (int (v' mod 2 ^ 64) <? 0)%Z = true).
    { rewrite Z.geb_leb in E'. zbool. apply Z.ltb_lt. lia. }
    rewrite Hlt. cbn -[Z.pow].
    split; [intros Hv; rewrite (Hfd v Hv); reflexivity|].
    split; [intros Hv'; exfalso; exact (Hneg v' E' Hv') | exact I].
Qed.

(** ** What reaches the caller *)

Section Relayed.

Context {T : Type} {codec : JSON T}.
Variable Join : bytes -> bytes -> bytes.

(** When a mount-namespace step (the open, the join or the close of the
    mount handle) fails, the child has already joined the network namespace:
    it is left half switched.  It does not call the logic, and the caller
    gets the error wrapped with the name of the mount step when the kernel
    carries the message. *)
Theorem mount_failure_leaves_the_child_half_switched (K : Kernel)
    (ns : bytes) (timeout : Z) (toExecute : Logic T) (pipes : Z * Z)
    (pid : Z) (mountNs netNs : bytes) (s : Step) (e : Errno) :
  Cloned Join K ns pipes pid mountNs netNs ->
  is_net_step s = false ->
  fails_at K mountNs netNs s e ->
  let run := forked_child Join K ns timeout toExecute in
  let text := step_text s ++ B ": " ++ Errno_Error e in
  opened (trace_of run) = [netNs; mountNs]
  /\ In CLONE_NEWNET (joined (trace_of run))
  /\ ~ In EvCall_toExecute (trace_of run)
  /\ (Carries K (message (@None T) (Some text)) timeout ->
      value_of (observed Join K ns timeout toExecute)
      = Returns None (Some text)).
Proof.
  intros Hcl Hnet Hfail run text. subst run.
  destruct (switchNs_fails_at K mountNs netNs s e Hfail)
    as (Hval & Hopened & Hjoined & _ & Hcall).
  rewrite Hnet in Hopened.
  assert (Henc : encoded K mountNs netNs toExecute = Gives None (Some text)).
  { unfold encoded. rewrite Hval. reflexivity. }
  rewrite (in_forked_child timeout toExecute Hcl). cbn [trace_of fst].
  destruct (child_run (in_child K) pipes mountNs netNs toExecute)
    as (tw & Ht & Hw & _).
  cbn zeta in Ht.
  change (switchNs (in_child K) mountNs netNs) with (switchNs K mountNs netNs)
    in Ht.
  rewrite Hval in Ht. cbn [app] in Ht.
  destruct (writes_only Hw) as (Hwo & Hwj & Hwc & _).
  set (tail := match value_of (child (in_child K) pipes mountNs netNs toExecute)
               with
               | Exits _ => [EvClose (snd pipes) (k_close (in_child K) (snd pipes));
                             EvExitGroup 0]
               | _ => []
               end) in Ht.
  assert (Htail : opened tail = [] /\ joined tail = []
                  /\ ~ In EvCall_toExecute tail).
  { unfold tail. destruct (value_of (child _ _ _ _ _)); cbn;
      intuition discriminate. }
  destruct Htail as (Hto & Htj & Htc).
  rewrite Ht. cbn [opened joined].
  rewrite !opened_app, !joined_app, Hopened, Hjoined, Hwo, Hwj, Hto, Htj.
  split; [reflexivity|]. split.
  { destruct s; try discriminate Hnet; cbn; tauto. }
  split.
  { intros [H|[H|H]]; try discriminate.
    apply in_app_or in H. destruct H as [H|H]; [exact (Hcall H)|].
    apply in_app_or in H. destruct H as [H|H]; [exact (Hwc H) | exact (Htc H)]. }
  intros Hcar.
  assert (Hmsg : message (@None T) (Some text) = (B "err:" ++ text) ++ [x00])
    by reflexivity.
  rewrite (observed_relays (timeout := timeout) toExecute (B "err:" ++ text)
             Hcl Henc Hmsg (err_body_no_NUL s e) Hcar).
  rewrite Hmsg. apply on_done_err.
Qed.




(** A logic that never returns does not hang the caller: the child writes
    nothing and keeps the pipe open, the reader stays blocked in its first
    read, and the call returns the time-out error after it has signalled the
    child. *)
Theorem hanging_logic_times_out (K : Kernel) (ns : bytes) (timeout : Z)
    (pipes : Z * Z) (pid : Z) (mountNs netNs : bytes) :
  Cloned Join K ns pipes pid mountNs netNs ->
  switches K mountNs netNs ->
  answers_reads (k_read K) ->
  observed Join K ns timeout (@Runs_on T)
  = ([EvPipe (inr pipes); EvFork (SysOk pid);
      EvClose (snd pipes) (k_close K (snd pipes));
      EvKill pid SIGINT (k_kill K pid SIGINT)]
     ++ match k_kill K pid SIGINT with
        | Some e =>
            [EvLogrus WarnLevel
               (B "failed to kill setns process: " ++ Errno_Error e)]
        | None => []
        end,
     Returns None (Some (B "ForkAndSwitchToNamespace timed out"))).
Proof.
  intros Hcl Hsw Hr. apply switchNs_succeeds in Hsw.
  unfold observed. rewrite (cloned_pipe Hcl).
  rewrite (in_forked_child timeout (@Runs_on T) Hcl).
  destruct (child_run (in_child K) pipes mountNs netNs (@Runs_on T))
    as (tw & Ht & _ & Hl).
  cbn zeta in Ht.
  change (switchNs (in_child K) mountNs netNs) with (switchNs K mountNs netNs)
    in Ht.
  unfold encoded in Hl.
  change (switchNs (in_child K) mountNs netNs) with (switchNs K mountNs netNs)
    in Hl.
  rewrite Hsw in Ht, Hl. destruct Hl as [-> Hhang].
  rewrite Hhang in Ht. cbn [app] in Ht.
  set (f := feed_of _ _).
  assert (Hf : f = {| feed_bytes := []; feed_closed := false |}).
  { unfold f, feed_of. cbn [trace_of value_of fst snd piped].
    change (snd (child (in_child K) pipes mountNs netNs Runs_on))
      with (value_of (child (in_child K) pipes mountNs netNs (@Runs_on T))).
    change (fst (child (in_child K) pipes mountNs netNs Runs_on))
      with (trace_of (child (in_child K) pipes mountNs netNs (@Runs_on T))).
    rewrite Hhang, Ht, piped_app.
    rewrite (ns_events_piped _ (switchNs_events K mountNs netNs)).
    reflexivity. }
  rewrite (in_parent timeout (@Runs_on T) (Cloned_fed f Hcl)).
  assert (Hblocked : reader (fed_by f K) (fst pipes)
                     = {| rr_events := []; rr_done := None |}).
  { unfold reader. cbn [fed_by k_feed k_read]. rewrite Hf.
    cbn [feed_bytes feed_closed].
    destruct (k_read K) as [|a script]; [reflexivity|].
    destruct (Forall_inv Hr) as [more Hkind].
    cbn [reader_loop Nat.eqb]. unfold sys_read. rewrite Hkind. reflexivity. }
  assert (Hlate : deadline_first (reader (fed_by f K) (fst pipes)) timeout).
  { unfold deadline_first. rewrite Hblocked. exact I. }
  rewrite (parent_timer (fed_by f K) pipes pid timeout
             (select_after (fed_by f K) _ timeout Hlate)).
  rewrite Hblocked.
  assert (Hint : int pid = pid).
  { pose proof (cloned_pid Hcl). unfold int.
    destruct (pid <? 2 ^ 63)%Z eqn:E; [reflexivity | zbool; lia]. }
  rewrite Hint. reflexivity.
Qed.

End Relayed.

(** ** The write loop under every kernel *)

Lemma write_refused (fd : Z) (p : bytes) (e : Errno) :
  write fd p (SysErr e)
  = ([EvWrite fd p (SysErr e)], ((-1)%Z, Some (Errno_Error e))).
Proof. reflexivity. Qed.

Lemma write_loop_prefix (fd : Z) (script : list WriteAns) (msg : bytes) :
  forall w : nat,
    w <= length msg ->
    (Z.of_nat (length msg) < 2 ^ 63)%Z ->
    let run := write_loop fd script msg (Z.of_nat w) in
    exists k,
      piped fd (trace_of run) = firstn k (skipn w msg)
      /\ (forall t1 ev t2,
            trace_of run = t1 ++ ev :: t2 -> refused_write ev = true ->
            t2 = [])
      /\ (value_of run = true ->
          existsb refused_write (trace_of run) = false ->
          piped fd (trace_of run) = skipn w msg).
Proof.
  induction script as [|a script IH]; intros w Hw Hfit run; subst run.
  - cbn [write_loop].
    destruct (Z.of_nat w <? Z.of_nat (length msg))%Z eqn:E; zbool.
    + exists 0. cbn. repeat split.
      * intros [|? ?] ev t2 H; discriminate H.
      * discriminate.
    + assert (w = length msg) by lia. subst w.
      exists 0. cbn. rewrite skipn_all. repeat split.
      intros [|? ?] ev t2 H; discriminate H.
  - cbn [write_loop].
    destruct (Z.of_nat w <? Z.of_nat (length msg))%Z eqn:E; zbool.
    + unfold slice_from. rewrite Nat2Z.id.
      set (p := skipn w msg).
      assert (Hp : length p = length msg - w) by apply length_skipn.
      destruct a as [e|more]; cbn [sys_write].
      * rewrite write_refused. cbn [bind ret app trace_of value_of fst snd].
        exists 0. cbn [piped taken app firstn]. rewrite Z.eqb_refl.
        repeat split.
        -- intros [|x [|? ?]] ev t2 H; try discriminate H.
           injection H as _ H. symmetry. exact H.
        -- cbn. discriminate.
      * set (k := Nat.min (S more) (length p)).
        assert (Hk : 1 <= k <= length p) by (unfold k; lia).
        rewrite write_ok by lia. cbn [bind].
        rewrite <- Nat2Z.inj_add.
        destruct (IH (w + k)) as (k' & Hpiped & Hlast & Hall);
          [lia | exact Hfit |].
        cbn zeta in Hpiped, Hlast, Hall.
        destruct (write_loop fd script msg (Z.of_nat (w + k))) as [t v].
        cbn [trace_of value_of fst snd app] in *.
        assert (Hsplit : skipn (w + k) msg = skipn k p).
        { unfold p. rewrite skipn_skipn. f_equal. lia. }
        exists (k + k'). cbn [piped taken]. rewrite Z.eqb_refl, Nat2Z.id.
        repeat split.
        -- rewrite Hpiped, Hsplit.
           rewrite <- (firstn_skipn k p) at 3.
           rewrite firstn_app, length_firstn.
           replace (Nat.min k (length p)) with k by lia.
           replace (k + k' - k) with k' by lia.
           rewrite firstn_firstn.
           replace (Nat.min (k + k') k) with k by lia. reflexivity.
        -- intros [|x t1] ev t2 H Href.
           ++ injection H as <- _. discriminate Href.
           ++ injection H as _ H. exact (Hlast _ _ _ H Href).
        -- intros Hv Hnone. cbn [existsb refused_write orb] in Hnone.
           rewrite (Hall Hv Hnone), Hsplit. apply firstn_skipn.
    + assert (w = length msg) by lia. subst w.
      exists 0. cbn. rewrite skipn_all. repeat split.
      intros [|? ?] ev t2 H; discriminate H.
Qed.

(** Whatever the kernel answers to the writes, the bytes the write loop puts
    in the pipe are a prefix of the message; a write that the kernel refuses
    is the last one attempted; and when the loop is left with no write
    refused, the whole message is in the pipe, however it was cut into
    partial writes. *)
Theorem write_loop_pipes_a_prefix (fd : Z) (script : list WriteAns)
    (msg : bytes) :
  (Z.of_nat (length msg) < 2 ^ 63)%Z ->
  let run := write_loop fd script msg 0 in
  (exists k, piped fd (trace_of run) = firstn k msg)
  /\ (forall t1 ev t2,
        trace_of run = t1 ++ ev :: t2 -> refused_write ev = true -> t2 = [])
  /\ (value_of run = true ->
      existsb refused_write (trace_of run) = false ->
      piped fd (trace_of run) = msg).
Proof.
  intros Hfit run.
  destruct (@write_loop_prefix fd script msg 0 (Nat.le_0_l _) Hfit)
    as (k & Hpiped & Hlast & Hall).
  change (Z.of_nat 0) with 0%Z in *. fold run in Hpiped, Hlast, Hall.
  repeat split.
  - exists k. exact Hpiped.
  - exact Hlast.
  - exact Hall.
Qed.

(** ** The further properties at concrete inputs *)

(** Under the kernel [no_mnt] the open of the mount handle fails with
    ENOENT after the network namespace has been joined. *)
Lemma mount_failure_leaves_the_child_half_switched_witness :
  fails_at no_mnt mountNs netNs OpenMount ENOENT
  /\ In CLONE_NEWNET
        (joined (trace_of (forked_child Sample.Join no_mnt ns 100
                             (Gives (Some true) None))))
  /\ value_of (observed Sample.Join no_mnt ns 100 (Gives (Some true) None))
     = Returns None
         (Some (B "failed to open mount namespace: no such file or directory")).
Proof.
  assert (Hfail : fails_at no_mnt mountNs netNs OpenMount ENOENT).
  { exists 5%Z. split; [split; [reflexivity | lia]|].
    repeat split; reflexivity. }
  split; [exact Hfail|].
  pose proof (@mount_failure_leaves_the_child_half_switched bool _ Sample.Join
                no_mnt ns 100 (Gives (Some true) None) (3, 4)%Z 4243
                mountNs netNs OpenMount ENOENT
                (fine_cloned no_mnt eq_refl eq_refl) eq_refl Hfail) as H.
  cbn zeta in H. destruct H as (_ & Hj & _ & Hrelay).
  split; [exact Hj|].
  apply Hrelay. apply fine_carries; try reflexivity.
  - cbn. lia.
  - vm_compute. lia.
Defined.




(** Under the kernel [unkillable], whose kill answers ESRCH. *)
Lemma hanging_logic_times_out_witness :
  observed Sample.Join unkillable ns 100 (@Runs_on bool)
  = ([EvPipe (inr (3, 4)%Z); EvFork (SysOk 4243); EvClose 4 (SysOk 0);
      EvKill 4243 SIGINT (Some ESRCH);
      EvLogrus WarnLevel (B "failed to kill setns process: no such process")],
     Returns None (Some (B "ForkAndSwitchToNamespace timed out"))).
Proof.
  refine (@hanging_logic_times_out bool _ Sample.Join unkillable ns 100
            (3, 4)%Z 4243 mountNs netNs _ _ _).
  - apply fine_cloned; reflexivity.
  - exact fine_switches.
  - apply Forall_forall. intros a Ha. apply repeat_spec in Ha.
    subst a. eexists. reflexivity.
Defined.

(** A pipe that takes two bytes and then breaks: the first two bytes of
    the message are in it, and the refused write is the last call. *)
Lemma write_loop_pipes_a_prefix_witness :
  exists k,
    piped 4 (trace_of (write_loop 4 [WrOk 1; WrErr EPIPE; WrOk 7]
                         (B "ok:true") 0))
    = firstn k (B "ok:true").
Proof.
  refine (proj1 (@write_loop_pipes_a_prefix 4%Z [WrOk 1; WrErr EPIPE; WrOk 7]
                   (B "ok:true") _)).
  cbn. lia.
Defined.

(** * Properties of iscsi/initiator.go *)

(** ** Substrings *)

Lemma HasPrefix_spec (s prefix : bytes) :
  HasPrefix s prefix = true <-> exists q, s = prefix ++ q.
Proof.
  revert s. induction prefix as [|c p IH]; intros s; cbn.
  - split; [intros _; exists s; reflexivity | reflexivity].
  - destruct s as [|x s].
    + split; [discriminate | intros [q H]; discriminate H].
    + rewrite andb_true_iff, IH, byte_eqb_eq. split.
      * intros [-> [q ->]]. exists q. reflexivity.
      * intros [q [= -> ->]]. split; [reflexivity | exists q; reflexivity].
Qed.

Lemma Contains_spec (b sub : bytes) :
  Contains b sub = true <-> exists p q, b = p ++ sub ++ q.
Proof.
  induction b as [|c b IH]; cbn [Contains].
  - rewrite orb_false_r, HasPrefix_spec. split.
    + intros [q H]. exists [], q. exact H.
    + intros [[|x p] [q H]]; [exists q; exact H | discriminate H].
  - rewrite orb_true_iff, HasPrefix_spec, IH. split.
    + intros [[q H]|[p [q H]]].
      * exists [], q. exact H.
      * exists (c :: p), q. rewrite H. reflexivity.
    + intros [[|x p] [q H]].
      * left. exists q. exact H.
      * right. injection H as -> ->. exists p, q. reflexivity.
Qed.

Lemma HasSuffix_spec (s suffix : bytes) :
  HasSuffix s suffix = true <-> exists p, s = p ++ suffix.
Proof.
  unfold HasSuffix. rewrite HasPrefix_spec. split.
  - intros [q H]. exists (rev q).
    rewrite <- (rev_involutive s), H, rev_app_distr, rev_involutive.
    reflexivity.
  - intros [p ->]. exists (rev p). apply rev_app_distr.
Qed.

(** ** The scanner *)

Lemma session_found_spec (ip target : bytes) (lines : list bytes) :
  Iscsi.session_found ip target lines = true
  <-> exists line,
        In line lines
        /\ Contains line (ip ++ B ":") = true
        /\ (HasSuffix line (B " " ++ target)
            || Contains line (B " " ++ target ++ B " ")) = true.
Proof.
  induction lines as [|l lines IH]; cbn [Iscsi.session_found].
  - split; [discriminate | intros (line & [] & _)].
  - destruct (Contains l (ip ++ B ":")) eqn:Ec.
    + destruct (HasSuffix l (B " " ++ target)
                || Contains l (B " " ++ target ++ B " ")) eqn:Et.
      * split; [intros _ | reflexivity].
        exists l. split; [left; reflexivity | split; assumption].
      * rewrite IH. split.
        -- intros (line & Hin & H). exists line. split; [right; exact Hin | exact H].
        -- intros (line & [<-|Hin] & H1 & H2).
           ++ rewrite Et in H2. discriminate H2.
           ++ exists line. auto.
    + rewrite IH. split.
      * intros (line & Hin & H). exists line. split; [right; exact Hin | exact H].
      * intros (line & [<-|Hin] & H1 & H2).
        -- rewrite Ec in H1. discriminate H1.
        -- exists line. auto.
Qed.

(** ** The scan of a session listing *)

Section Scan.

Variable TrimSpace : bytes -> bytes.
Variables output targetLine ipLine lunLine : bytes.

Let scan := Iscsi.scan_for_disk TrimSpace output targetLine ipLine lunLine.

Lemma scan_examines (d : bytes) (rest : list bytes) :
  Contains d ipLine = false -> Contains d lunLine = false ->
  scan (d :: rest) true true true = examined TrimSpace output d.
Proof.
  intros Hi Hl. unfold scan, examined. cbn [Iscsi.scan_for_disk].
  rewrite Hi, Hl. cbn [negb andb].
  destruct (Contains d (B "Attached scsi disk")); reflexivity.
Qed.

Lemma scan_in_lun (l4 : list bytes) (d : bytes) (rest : list bytes) :
  Forall (fun x => Contains x ipLine = true \/ Contains x lunLine = true) l4 ->
  Contains d ipLine = false -> Contains d lunLine = false ->
  scan (l4 ++ d :: rest) true true true = examined TrimSpace output d.
Proof.
  intros H Hi Hl. induction H as [|x l4 Hx _ IH].
  - apply scan_examines; assumption.
  - rewrite <- IH. unfold scan. cbn [app Iscsi.scan_for_disk negb andb].
    destruct (Contains x ipLine); [reflexivity|].
    destruct Hx as [Hx|Hx]; [discriminate Hx|]. rewrite Hx. reflexivity.
Qed.

Lemma scan_in_ip (l3 : list bytes) (u : bytes) (tail : list bytes) :
  Forall (fun x => Contains x ipLine = true \/ Contains x lunLine = false) l3 ->
  Contains u ipLine = false -> Contains u lunLine = true ->
  scan (l3 ++ u :: tail) true true false = scan tail true true true.
Proof.
  intros H Hi Hl. induction H as [|x l3 Hx _ IH].
  - unfold scan. cbn [app Iscsi.scan_for_disk negb andb].
    rewrite Hi, Hl. reflexivity.
  - rewrite <- IH. unfold scan. cbn [app Iscsi.scan_for_disk negb andb].
    destruct (Contains x ipLine); [reflexivity|].
    destruct Hx as [Hx|Hx]; [discriminate Hx|]. rewrite Hx. reflexivity.
Qed.

Lemma scan_in_target (l2 : list bytes) (i : bytes) (tail : list bytes) :
  Forall (fun x => Contains x ipLine = false) l2 ->
  Contains i ipLine = true ->
  scan (l2 ++ i :: tail) true false false = scan tail true true false.
Proof.
  intros H Hi. induction H as [|x l2 Hx _ IH].
  - unfold scan. cbn [app Iscsi.scan_for_disk negb andb].
    rewrite Hi. reflexivity.
  - rewrite <- IH. unfold scan. cbn [app Iscsi.scan_for_disk negb andb].
    rewrite Hx. reflexivity.
Qed.

Lemma scan_outside (l1 : list bytes) (t : bytes) (tail : list bytes) :
  Forall (fun x => names_target targetLine x = false) l1 ->
  names_target targetLine t = true ->
  scan (l1 ++ t :: tail) false false false = scan tail true false false.
Proof.
  unfold names_target. intros H Ht. induction H as [|x l1 Hx _ IH].
  - unfold scan. cbn [app Iscsi.scan_for_disk negb andb].
    rewrite Ht. reflexivity.
  - rewrite <- IH. unfold scan. cbn [app Iscsi.scan_for_disk negb andb].
    rewrite Hx. reflexivity.
Qed.

(** A listing that leads to the line [d] is scanned up to [d]. *)
Lemma scan_leads_to (lines : list bytes) (d : bytes) :
  leads_to targetLine ipLine lunLine lines d ->
  scan lines false false false = examined TrimSpace output d.
Proof.
  intros (l1 & t & l2 & i & l3 & u & l4 & rest & -> & H1 & Ht & H2 & Hi & H3
          & [Hui Hul] & H4 & [Hdi Hdl]).
  rewrite (@scan_outside l1 t _ H1 Ht), (@scan_in_target l2 i _ H2 Hi),
    (@scan_in_ip l3 u _ H3 Hui Hul).
  apply scan_in_lun; assumption.
Qed.

(** Conversely, a scan that ends with a name or with an error has met the
    lines in that order. *)
Lemma scan_in_lun_inv (lines : list bytes) :
  scan lines true true true <> Ok [] ->
  exists l4 d rest,
    lines = l4 ++ d :: rest
    /\ Forall (fun x => Contains x ipLine = true \/ Contains x lunLine = true)
         l4
    /\ (Contains d ipLine = false /\ Contains d lunLine = false).
Proof.
  induction lines as [|x lines IH].
  - intros H. exfalso. apply H. reflexivity.
  - unfold scan. cbn [Iscsi.scan_for_disk negb andb].
    destruct (Contains x ipLine) eqn:Ei;
      [|destruct (Contains x lunLine) eqn:El].
    + intros H. destruct (IH H) as (l4 & d & rest & -> & H4 & Hd).
      exists (x :: l4), d, rest. split; [reflexivity|]. split; [|exact Hd].
      constructor; [left; exact Ei | exact H4].
    + intros H. destruct (IH H) as (l4 & d & rest & -> & H4 & Hd).
      exists (x :: l4), d, rest. split; [reflexivity|]. split; [|exact Hd].
      constructor; [right; exact El | exact H4].
    + intros _. exists [], x, lines. repeat split; [constructor | | ]; assumption.
Qed.

Lemma scan_in_ip_inv (lines : list bytes) :
  scan lines true true false <> Ok [] ->
  exists l3 u tail,
    lines = l3 ++ u :: tail
    /\ Forall (fun x => Contains x ipLine = true \/ Contains x lunLine = false)
         l3
    /\ (Contains u ipLine = false /\ Contains u lunLine = true)
    /\ scan tail true true true <> Ok [].
Proof.
  induction lines as [|x lines IH].
  - intros H. exfalso. apply H. reflexivity.
  - unfold scan. cbn [Iscsi.scan_for_disk negb andb].
    destruct (Contains x ipLine) eqn:Ei;
      [|destruct (Contains x lunLine) eqn:El].
    + intros H. destruct (IH H) as (l3 & u & tail & -> & H3 & Hu & Ht).
      exists (x :: l3), u, tail. split; [reflexivity|].
      split; [|split; assumption].
      constructor; [left; exact Ei | exact H3].
    + intros H. exists [], x, lines.
      split; [reflexivity|]. split; [constructor|]. split; [split; assumption|].
      exact H.
    + intros H. destruct (IH H) as (l3 & u & tail & -> & H3 & Hu & Ht).
      exists (x :: l3), u, tail. split; [reflexivity|].
      split; [|split; assumption].
      constructor; [right; exact El | exact H3].
Qed.

Lemma scan_in_target_inv (lines : list bytes) :
  scan lines true false false <> Ok [] ->
  exists l2 i tail,
    lines = l2 ++ i :: tail
    /\ Forall (fun x => Contains x ipLine = false) l2
    /\ Contains i ipLine = true
    /\ scan tail true true false <> Ok [].
Proof.
  induction lines as [|x lines IH].
  - intros H. exfalso. apply H. reflexivity.
  - unfold scan. cbn [Iscsi.scan_for_disk negb andb].
    destruct (Contains x ipLine) eqn:Ei.
    + intros H. exists [], x, lines.
      split; [reflexivity|]. split; [constructor|]. split; assumption.
    + intros H. destruct (IH H) as (l2 & i & tail & -> & H2 & Hi & Ht).
      exists (x :: l2), i, tail. split; [reflexivity|].
      split; [|split; assumption].
      constructor; assumption.
Qed.

Lemma scan_outside_inv (lines : list bytes) :
  scan lines false false false <> Ok [] ->
  exists l1 t tail,
    lines = l1 ++ t :: tail
    /\ Forall (fun x => names_target targetLine x = false) l1
    /\ names_target targetLine t = true
    /\ scan tail true false false <> Ok [].
Proof.
  induction lines as [|x lines IH].
  - intros H. exfalso. apply H. reflexivity.
  - unfold scan. cbn [Iscsi.scan_for_disk negb andb].
    destruct (Contains x (targetLine ++ B " ") || HasSuffix x targetLine)
      eqn:Et.
    + intros H. exists [], x, lines.
      split; [reflexivity|]. split; [constructor|]. split; assumption.
    + intros H. destruct (IH H) as (l1 & t & tail & -> & H1 & Ht & Htl).
      exists (x :: l1), t, tail. split; [reflexivity|].
      split; [|split; assumption].
      constructor; assumption.
Qed.

Lemma scan_leads_to_inv (lines : list bytes) :
  scan lines false false false <> Ok [] ->
  exists d, leads_to targetLine ipLine lunLine lines d.
Proof.
  intros H.
  destruct (@scan_outside_inv _ H) as (l1 & t & tail1 & -> & H1 & Ht & Hr1).
  destruct (@scan_in_target_inv _ Hr1) as (l2 & i & tail2 & -> & H2 & Hi & Hr2).
  destruct (@scan_in_ip_inv _ Hr2) as (l3 & u & tail3 & -> & H3 & Hu & Hr3).
  destruct (@scan_in_lun_inv _ Hr3) as (l4 & d & rest & -> & H4 & Hd).
  exists d, l1, t, l2, i, l3, u, l4, rest. repeat split; try assumption.
  - apply Hu.
  - apply Hu.
  - apply Hd.
  - apply Hd.
Qed.

End Scan.

(** ** [findScsiDevice] *)

Section FindScsiDevice.

Variable KernelDevice : Type.
Variable TrimSpace : bytes -> bytes.
Variable ne : NamespaceExecutor KernelDevice.

(** The command [findScsiDevice] runs. *)
Let session : Call :=
  CallExecute Iscsi.iscsiBinary [B "-m"; B "session"; B "-P"; B "3"].

Lemma findScsiDevice_unfold (ip target : bytes) (lun : Z) (h : list Call) :
  Iscsi.findScsiDevice TrimSpace ne ip target lun h
  = match ne_answer ne h session with
    | (_, Some e) => (h ++ [session], (None, Some e))
    | (output, None) =>
        match Iscsi.scan_for_disk TrimSpace output (B "Target: " ++ target)
                (B " " ++ ip ++ B ":") (B "Lun: " ++ Itoa lun)
                (Scanner_lines output) false false false with
        | Err e => (h ++ [session], (None, Some e))
        | Ok [] =>
            (h ++ [session], (None, Some (B "cannot find iSCSI device")))
        | Ok (c :: name) =>
            ((h ++ [session]) ++ [CallGetKnownDevices],
             match ne_devices ne (h ++ [session]) with
             | (_, Some e) => (None, Some e)
             | (devices, None) =>
                 match devices (c :: name) with
                 | None =>
                     (None,
                      Some (B "cannot find kernel device for iSCSI device: "
                              ++ c :: name))
                 | Some dev => (Some dev, None)
                 end
             end)
        end
    end.
Proof.
  unfold Iscsi.findScsiDevice, sh_bind, Iscsi.Execute, Iscsi.GetKnownDevices.
  fold session.
  destruct (ne_answer ne h session) as [output [e|]]; [reflexivity|].
  destruct (Iscsi.scan_for_disk _ _ _ _ _ _ _ _ _) as [[|c name]|e];
    try reflexivity.
  destruct (ne_devices ne (h ++ [session])) as [devices [e|]];
    [reflexivity|].
  destruct (devices (c :: name)); reflexivity.
Qed.

(** When the listing leads to a disk line that gives a name, [findScsiDevice]
    asks for the known devices and returns the one of that name, or the
    error of the lookup, or an error that the name is not known. *)
Theorem findScsiDevice_returns_the_disk_of_the_listing (ip target : bytes)
    (lun : Z) (h : list Call) (output d : bytes) :
  ne_answer ne h session = (output, None) ->
  leads_to (B "Target: " ++ target) (B " " ++ ip ++ B ":")
    (B "Lun: " ++ Itoa lun) (Scanner_lines output) d ->
  Contains d (B "Attached scsi disk") = true ->
  disk_name TrimSpace d <> [] ->
  Iscsi.findScsiDevice TrimSpace ne ip target lun h
  = (h ++ [session; CallGetKnownDevices],
     match ne_devices ne (h ++ [session]) with
     | (_, Some e) => (None, Some e)
     | (devices, None) =>
         match devices (disk_name TrimSpace d) with
         | None =>
             (None,
              Some (B "cannot find kernel device for iSCSI device: "
                      ++ disk_name TrimSpace d))
         | Some dev => (Some dev, None)
         end
     end).
Proof.
  intros Hans Hlead Hdisk Hname.
  rewrite findScsiDevice_unfold, Hans, (@scan_leads_to TrimSpace output _ _ _ _ _ Hlead).
  unfold examined. rewrite Hdisk.
  destruct (disk_name TrimSpace d) as [|c name]; [congruence|].
  rewrite <- app_assoc. reflexivity.
Qed.

(** [findScsiDevice] returns a device only when the listing leads to a disk
    line, and the device is the one known under the name of that line. *)
Theorem findScsiDevice_returns_only_a_listed_disk (ip target : bytes)
    (lun : Z) (h : list Call) (dev : KernelDevice) :
  snd (Iscsi.findScsiDevice TrimSpace ne ip target lun h) = (Some dev, None) ->
  snd (ne_answer ne h session) = None
  /\ exists d,
       leads_to (B "Target: " ++ target) (B " " ++ ip ++ B ":")
         (B "Lun: " ++ Itoa lun)
         (Scanner_lines (fst (ne_answer ne h session))) d
       /\ Contains d (B "Attached scsi disk") = true
       /\ fst (ne_devices ne (h ++ [session])) (disk_name TrimSpace d)
          = Some dev.
Proof.
  rewrite findScsiDevice_unfold.
  destruct (ne_answer ne h session) as [output [e|]]; cbn [fst snd];
    [discriminate|].
  intros H. split; [reflexivity|].
  destruct (Iscsi.scan_for_disk _ _ _ _ _ _ _ _ _) as [[|c name]|e] eqn:Escan;
    try discriminate H.
  assert (Hne : Iscsi.scan_for_disk TrimSpace output (B "Target: " ++ target)
                  (B " " ++ ip ++ B ":") (B "Lun: " ++ Itoa lun)
                  (Scanner_lines output) false false false <> Ok []).
  { rewrite Escan. discriminate. }
  destruct (@scan_leads_to_inv TrimSpace output _ _ _ _ Hne) as [d Hlead].
  exists d. split; [exact Hlead|].
  rewrite (@scan_leads_to TrimSpace output _ _ _ _ _ Hlead) in Escan.
  unfold examined in Escan.
  destruct (Contains d (B "Attached scsi disk")); [|discriminate Escan].
  split; [reflexivity|].
  injection Escan as ->.
  cbn [snd] in H.
  destruct (ne_devices ne (h ++ [session])) as [devices [e|]];
    [discriminate H|].
  cbn [fst]. destruct (devices (c :: name)); [|discriminate H].
  congruence.
Qed.

(** When the listing does not lead to any line, [findScsiDevice] fails with
    [cannot find iSCSI device] and has not asked for the known devices. *)
Theorem findScsiDevice_finds_nothing (ip target : bytes) (lun : Z)
    (h : list Call) (output : bytes) :
  ne_answer ne h session = (output, None) ->
  (forall d,
     ~ leads_to (B "Target: " ++ target) (B " " ++ ip ++ B ":")
         (B "Lun: " ++ Itoa lun) (Scanner_lines output) d) ->
  Iscsi.findScsiDevice TrimSpace ne ip target lun h
  = (h ++ [session], (None, Some (B "cannot find iSCSI device"))).
Proof.
  intros Hans Hnone. rewrite findScsiDevice_unfold, Hans.
  destruct (Iscsi.scan_for_disk _ _ _ _ _ _ _ _ _) as [[|c name]|e] eqn:Escan;
    [reflexivity| |].
  - exfalso.
    assert (Hne : Iscsi.scan_for_disk TrimSpace output
                    (B "Target: " ++ target) (B " " ++ ip ++ B ":")
                    (B "Lun: " ++ Itoa lun) (Scanner_lines output)
                    false false false <> Ok []).
    { rewrite Escan. discriminate. }
    destruct (@scan_leads_to_inv TrimSpace output _ _ _ _ Hne) as [d Hlead]. exact (Hnone d Hlead).
  - exfalso.
    assert (Hne : Iscsi.scan_for_disk TrimSpace output
                    (B "Target: " ++ target) (B " " ++ ip ++ B ":")
                    (B "Lun: " ++ Itoa lun) (Scanner_lines output)
                    false false false <> Ok []).
    { rewrite Escan. discriminate. }
    destruct (@scan_leads_to_inv TrimSpace output _ _ _ _ Hne) as [d Hlead]. exact (Hnone d Hlead).
Qed.

(** When the line the listing leads to is not a disk line, [findScsiDevice]
    fails with an error that quotes the line and the whole listing, and has
    not asked for the known devices. *)
Theorem findScsiDevice_rejects_another_line (ip target : bytes) (lun : Z)
    (h : list Call) (output d : bytes) :
  ne_answer ne h session = (output, None) ->
  leads_to (B "Target: " ++ target) (B " " ++ ip ++ B ":")
    (B "Lun: " ++ Itoa lun) (Scanner_lines output) d ->
  Contains d (B "Attached scsi disk") = false ->
  Iscsi.findScsiDevice TrimSpace ne ip target lun h
  = (h ++ [session],
     (None,
      Some (B "invalid output format, cannot find disk in: " ++ d
              ++ [x0a] ++ B " " ++ output))).
Proof.
  intros Hans Hlead Hdisk.
  rewrite findScsiDevice_unfold, Hans, (@scan_leads_to TrimSpace output _ _ _ _ _ Hlead).
  unfold examined. rewrite Hdisk. reflexivity.
Qed.

End FindScsiDevice.

(** ** [GetDevice] *)

Section GetDevice.

Variable KernelDevice : Type.
Variable TrimSpace : bytes -> bytes.
Variables DeviceWaitRetryCounts DeviceWaitRetryInterval : Z.
Variable ne : NamespaceExecutor KernelDevice.
Variables ip target : bytes.
Variable lun : Z.

Let attempt : Sh (option KernelDevice * option error) :=
  Iscsi.findScsiDevice TrimSpace ne ip target lun.

Let loop :=
  Iscsi.GetDevice_loop TrimSpace DeviceWaitRetryInterval ne ip target lun.

Lemma GetDevice_loop_spec (n : nat) :
  forall (h0 : list Call) (k0 : nat) (h : list Call)
         (dev : option KernelDevice) (err : option error),
    failed_attempts attempt DeviceWaitRetryInterval h0 k0 h err ->
    exists k h' e,
      failed_attempts attempt DeviceWaitRetryInterval h0 k h' e
      /\ ((k < k0 + n
           /\ exists h'' dev',
                attempt h' = (h'', (dev', None))
                /\ loop n dev err h = (h'', (dev', None)))
          \/ (k = k0 + n
              /\ exists dev', loop n dev err h = (h', (dev', e)))).
Proof.
  induction n as [|n IH]; intros h0 k0 h dev err Hfailed.
  - exists k0, h, err. split; [exact Hfailed|]. right.
    split; [lia|]. exists dev. reflexivity.
  - unfold loop. cbn [Iscsi.GetDevice_loop]. unfold sh_bind.
    fold attempt. destruct (attempt h) as [h1 [d1 [e1|]]] eqn:Eatt.
    + unfold Iscsi.Sleep.
      destruct (IH h0 (S k0) (h1 ++ [CallSleep DeviceWaitRetryInterval])
                  d1 (Some e1) (failed_more Hfailed Eatt))
        as (k & h' & e & Hf & Hcase).
      exists k, h', e. split; [exact Hf|].
      destruct Hcase as [[Hk Hrun]|[Hk Hrun]].
      * left. split; [lia | exact Hrun].
      * right. split; [lia | exact Hrun].
    + exists k0, h, err. split; [exact Hfailed|]. left.
      split; [lia|]. exists h1, d1. split; [exact Eatt | reflexivity].
Qed.

(** [GetDevice] tries [findScsiDevice] until an attempt succeeds, and
    [DeviceWaitRetryCounts] times at most.  It sleeps after every failed
    attempt, the last one too.  It returns what the first successful attempt
    returned, and when all have failed a nil device with the error of the
    last attempt. *)
Theorem GetDevice_retries_until_the_device_shows (h : list Call) :
  let n := Z.to_nat DeviceWaitRetryCounts in
  let run :=
    Iscsi.GetDevice TrimSpace DeviceWaitRetryCounts DeviceWaitRetryInterval
      ne ip target lun h in
  exists k h' e,
    failed_attempts attempt DeviceWaitRetryInterval h k h' e
    /\ ((k < n
         /\ exists h'' dev,
              attempt h' = (h'', (dev, None)) /\ run = (h'', (dev, None)))
        \/ (k = n /\ run = (h', (None, e)))).
Proof.
  intros n run. subst run. unfold Iscsi.GetDevice, sh_bind. fold loop n.
  destruct n as [|n'] eqn:En.
  - exists 0, h, None. split; [constructor|]. right. split; reflexivity.
  - destruct (@GetDevice_loop_spec (S n') h 0 h None None
                (failed_none attempt DeviceWaitRetryInterval h))
      as (k & h' & e & Hf & Hcase).
    exists k, h', e. split; [exact Hf|].
    destruct Hcase as [[Hk (h'' & dev & Hatt & Hrun)]|[Hk [dev Hrun]]].
    + left. split; [lia|]. exists h'', dev. split; [exact Hatt|].
      rewrite Hrun. reflexivity.
    + right. split; [lia|]. rewrite Hrun.
      inversion Hf; subst; [discriminate|]. reflexivity.
Qed.

(** With a retry count of zero or less [GetDevice] makes no attempt: it
    returns a nil device together with a nil error. *)
Theorem GetDevice_without_attempts (h : list Call) :
  (DeviceWaitRetryCounts <= 0)%Z ->
  Iscsi.GetDevice TrimSpace DeviceWaitRetryCounts DeviceWaitRetryInterval
    ne ip target lun h
  = (h, (None, None)).
Proof.
  intros Hn. unfold Iscsi.GetDevice, sh_bind.
  replace (Z.to_nat DeviceWaitRetryCounts) with 0 by lia. reflexivity.
Qed.

End GetDevice.

(** ** [IsTargetLoggedIn], [LoginTarget] and [DiscoverTarget] *)

Section Sessions.

Variable KernelDevice : Type.
Variable ne : NamespaceExecutor KernelDevice.

(** [IsTargetLoggedIn] answers true exactly when the session listing
    succeeded and one of its lines holds the ip followed by a colon, and the
    target after a space, at the end of the line or followed by a space. *)
Theorem IsTargetLoggedIn_reads_the_sessions (ip target : bytes)
    (h : list Call) :
  let listing :=
    ne_answer ne h (CallExecute Iscsi.iscsiBinary [B "-m"; B "session"]) in
  snd (Iscsi.IsTargetLoggedIn ne ip target h) = true
  <-> snd listing = None
      /\ exists line,
           In line (Scanner_lines (fst listing))
           /\ (exists p q, line = p ++ (ip ++ B ":") ++ q)
           /\ ((exists p, line = p ++ B " " ++ target)
               \/ exists p q, line = p ++ (B " " ++ target ++ B " ") ++ q).
Proof.
  intros listing. subst listing.
  unfold Iscsi.IsTargetLoggedIn, sh_bind, Iscsi.Execute.
  destruct (ne_answer ne h _) as [output [e|]]; cbn [fst snd sh_ret].
  - split; [discriminate | intros [H _]; discriminate H].
  - rewrite session_found_spec. split.
    + intros (line & Hin & Hip & Ht). split; [reflexivity|].
      exists line. split; [exact Hin|].
      apply Contains_spec in Hip. split; [exact Hip|].
      apply orb_true_iff in Ht. destruct Ht as [Ht|Ht].
      * left. apply HasSuffix_spec in Ht. exact Ht.
      * right. apply Contains_spec in Ht. exact Ht.
    + intros (_ & line & Hin & Hip & Ht). exists line.
      split; [exact Hin|]. split; [apply Contains_spec; exact Hip|].
      apply orb_true_iff. destruct Ht as [Ht|Ht].
      * left. apply HasSuffix_spec. exact Ht.
      * right. apply Contains_spec. exact Ht.
Qed.

(** [LoginTarget] runs the login, then asks for the scan mode of the node,
    and runs a rescan exactly when both succeeded and the answer holds
    [node.session.scan = manual]; nothing else is run.  It returns nil
    exactly when the login and the query succeeded and the rescan, when
    there was one, succeeded too. *)
Theorem LoginTarget_rescans_in_manual_mode_only (ip target : bytes)
    (h : list Call) :
  let node := [B "-m"; B "node"; B "-T"; target; B "-p"; ip] in
  let login := CallExecute Iscsi.iscsiBinary (node ++ [B "--login"]) in
  let show :=
    CallExecuteWithTimeout Iscsi.ScanTimeout Iscsi.iscsiBinary
      (node ++ [B "-o"; B "show"]) in
  let rescan :=
    CallExecuteWithTimeout Iscsi.ScanTimeout Iscsi.iscsiBinary
      (node ++ [B "--rescan"]) in
  let note :=
    CallInfof (B "Manually rescan LUNs of the target " ++ target
                 ++ B ":" ++ ip) in
  let logged_in := snd (ne_answer ne h login) = None in
  let shown := ne_answer ne (h ++ [login]) show in
  let manual :=
    Contains (fst shown) (B "node.session.scan = manual") = true in
  let rescanned :=
    snd (ne_answer ne (((h ++ [login]) ++ [show]) ++ [note]) rescan) = None in
  let run := Iscsi.LoginTarget ne ip target h in
  (exists calls,
     fst run = h ++ calls
     /\ (In rescan calls <-> logged_in /\ snd shown = None /\ manual)
     /\ forall c, In c calls ->
          c = login \/ c = show \/ c = rescan
          \/ exists msg, c = CallInfof msg)
  /\ (snd run = None
      <-> logged_in /\ snd shown = None /\ (manual -> rescanned)).
Proof.
  intros node login show rescan note logged_in shown manual rescanned run.
  assert (Hls : login <> rescan) by discriminate.
  assert (Hss : show <> rescan).
  { unfold show, rescan, node. cbn [app]. intros H.
    injection H as H. discriminate H. }
  unfold run, logged_in, manual, rescanned. unfold shown, note.
  clear run logged_in shown manual rescanned.
  unfold Iscsi.LoginTarget, Iscsi.getIscsiNodeSessionScanMode,
    Iscsi.manualScanSession, Iscsi.Execute, Iscsi.ExecuteWithTimeout,
    Iscsi.Infof, sh_bind, sh_ret.
  cbv beta.
  change (CallExecute Iscsi.iscsiBinary
            [B "-m"; B "node"; B "-T"; target; B "-p"; ip; B "--login"])
    with login.
  change (CallExecuteWithTimeout Iscsi.ScanTimeout Iscsi.iscsiBinary
            [B "-m"; B "node"; B "-T"; target; B "-p"; ip; B "-o"; B "show"])
    with show.
  change (CallExecuteWithTimeout Iscsi.ScanTimeout Iscsi.iscsiBinary
            [B "-m"; B "node"; B "-T"; target; B "-p"; ip; B "--rescan"])
    with rescan.
  destruct (ne_answer ne h login) as [o1 [e1|]]; cbn [fst snd].
  { split.
    - exists [login]. split; [reflexivity|]. split.
      + split; [intros [H|[]]; contradiction | intros [H _]; discriminate H].
      + intros c [<-|[]]. left. reflexivity.
    - split; [discriminate | intros [H _]; discriminate H]. }
  destruct (ne_answer ne (h ++ [login]) show) as [o2 [e2|]];
    cbn [fst snd Wrapf].
  { split.
    - exists [login; show]. split; [rewrite <- app_assoc; reflexivity|]. split.
      + split; [intros [H|[H|[]]]; contradiction
               | intros (_ & H & _); discriminate H].
      + intros c [<-|[<-|[]]]; auto.
    - split; [discriminate | intros (_ & H & _); discriminate H]. }
  destruct (Contains o2 (B "node.session.scan = manual")) eqn:Eman.
  - change (if list_eq_dec byte_eq_dec Iscsi.scanModeManual
                 Iscsi.scanModeManual then ?a else ?b) with a.
    cbv beta.
    destruct (ne_answer ne _ rescan) as [o3 [e3|]]; cbn [fst snd Wrapf].
    + split.
      * exists [login; show; note; rescan].
        split; [rewrite <- !app_assoc; reflexivity|]. split.
        -- split; [auto | intros _; right; right; right; left; reflexivity].
        -- intros c [<-|[<-|[<-|[<-|[]]]]]; auto.
           right; right; right. eexists. reflexivity.
      * split; [discriminate | intros (_ & _ & H); discriminate (H eq_refl)].
    + split.
      * exists [login; show; note; rescan].
        split; [rewrite <- !app_assoc; reflexivity|]. split.
        -- split; [auto | intros _; right; right; right; left; reflexivity].
        -- intros c [<-|[<-|[<-|[<-|[]]]]]; auto.
           right; right; right. eexists. reflexivity.
      * split; auto.
  - change (if list_eq_dec byte_eq_dec Iscsi.scanModeAuto
                 Iscsi.scanModeManual then ?a else ?b) with b.
    cbv beta.
    cbn [fst snd]. split.
    + eexists [login; show; CallInfof _].
      split; [rewrite <- !app_assoc; reflexivity|]. split.
      * split; [intros [H|[H|[H|[]]]]; try contradiction; discriminate H
               | intros (_ & _ & H); discriminate H].
      * intros c [<-|[<-|[<-|[]]]]; auto.
        right; right; right. eexists. reflexivity.
    + split; [|reflexivity]. intros _.
      split; [reflexivity|]. split; [reflexivity|]. discriminate.
Qed.

(** [DiscoverTarget] runs one discovery and returns nil exactly when the
    command succeeded and its output holds the target and does not hold
    [Could not]. *)
Theorem DiscoverTarget_checks_the_output (ip target : bytes)
    (h : list Call) :
  let discovery :=
    CallExecute Iscsi.iscsiBinary
      [B "-m"; B "discovery"; B "-t"; B "sendtargets"; B "-p"; ip] in
  let run := Iscsi.DiscoverTarget ne ip target h in
  let output := fst (ne_answer ne h discovery) in
  fst run = h ++ [discovery]
  /\ (snd run = None
      <-> snd (ne_answer ne h discovery) = None
          /\ (exists p q, output = p ++ target ++ q)
          /\ ~ exists p q, output = p ++ B "Could not" ++ q).
Proof.
  intros discovery run output. subst run output.
  unfold Iscsi.DiscoverTarget, sh_bind, Iscsi.Execute. fold discovery.
  destruct (ne_answer ne h discovery) as [output [e|]]; cbn [fst snd].
  { split; [reflexivity|].
    split; [discriminate | intros [H _]; discriminate H]. }
  rewrite <- !Contains_spec.
  destruct (Contains output (B "Could not")) eqn:Ec; cbn [fst snd sh_ret].
  { split; [reflexivity|].
    split; [discriminate | intros (_ & _ & H); exfalso; apply H; reflexivity]. }
  destruct (Contains output target) eqn:Et; cbn [negb fst snd sh_ret].
  - split; [reflexivity|]. split; [|reflexivity]. intros _.
    split; [reflexivity|]. split; [reflexivity | discriminate].
  - split; [reflexivity|].
    split; [discriminate | intros (_ & H & _); discriminate H].
Qed.

End Sessions.

(** ** The properties of iscsi/initiator.go at concrete inputs *)

(** On the listing [two_targets], asked for LUN 1 of the first target,
    which has none: the scan goes on into the lines of the second target,
    and the disk of its LUN 1 is returned. *)
Lemma two_targets_lead_to_sdc :
  leads_to (B "Target: " ++ B "iqn.2019-10.io.longhorn:vol1")
    (B " " ++ B "172.17.0.2" ++ B ":") (B "Lun: " ++ Itoa 1)
    (Scanner_lines two_targets)
    (B "        Attached scsi disk sdc      State: running").
Proof.
  exists [],
    (B "Target: iqn.2019-10.io.longhorn:vol1 (non-flash)"),
    [],
    (B "    Current Portal: 172.17.0.2:3260,1"),
    [B "    Attached SCSI devices:";
     B "    scsi12 Channel 00 Id 0 Lun: 0";
     B "Target: iqn.2019-10.io.longhorn:vol2 (non-flash)";
     B "    Current Portal: 172.17.0.3:3260,1";
     B "    scsi13 Channel 00 Id 0 Lun: 0"],
    (B "    scsi13 Channel 00 Id 0 Lun: 1"),
    [], [].
  split; [vm_compute; reflexivity|].
  split; [constructor|].
  split; [vm_compute; reflexivity|].
  split; [constructor|].
  split; [vm_compute; reflexivity|].
  split; [repeat constructor; right; vm_compute; reflexivity|].
  split; [split; vm_compute; reflexivity|].
  split; [constructor|].
  split; vm_compute; reflexivity.
Defined.

Lemma findScsiDevice_returns_the_disk_of_the_listing_witness :
  Iscsi.findScsiDevice Sample.TrimSpace (host 0 two_targets)
    (B "172.17.0.2") (B "iqn.2019-10.io.longhorn:vol1") 1 []
  = ([CallExecute Iscsi.iscsiBinary [B "-m"; B "session"; B "-P"; B "3"];
      CallGetKnownDevices],
     (Some sdc, None)).
Proof.
  refine (eq_trans
            (@findScsiDevice_returns_the_disk_of_the_listing _
               Sample.TrimSpace (host 0 two_targets) (B "172.17.0.2")
               (B "iqn.2019-10.io.longhorn:vol1") 1 [] two_targets
               (B "        Attached scsi disk sdc      State: running")
               eq_refl two_targets_lead_to_sdc _ _) _).
  - vm_compute. reflexivity.
  - vm_compute. discriminate.
  - vm_compute. reflexivity.
Defined.

Lemma findScsiDevice_returns_only_a_listed_disk_witness :
  exists d,
    leads_to (B "Target: " ++ B "iqn.2019-10.io.longhorn:vol1")
      (B " " ++ B "172.17.0.2" ++ B ":") (B "Lun: " ++ Itoa 1)
      (Scanner_lines two_targets) d
    /\ Contains d (B "Attached scsi disk") = true
    /\ (if list_eq_dec byte_eq_dec (disk_name Sample.TrimSpace d) (B "sdc")
        then Some sdc else None) = Some sdc.
Proof.
  refine (proj2
            (@findScsiDevice_returns_only_a_listed_disk _ Sample.TrimSpace
               (host 0 two_targets) (B "172.17.0.2")
               (B "iqn.2019-10.io.longhorn:vol1") 1 [] sdc _)).
  vm_compute. reflexivity.
Defined.

(** On the listing [two_targets], asked for a third target. *)
Lemma findScsiDevice_finds_nothing_witness :
  Iscsi.findScsiDevice Sample.TrimSpace (host 0 two_targets)
    (B "172.17.0.2") (B "iqn.2019-10.io.longhorn:vol3") 1 []
  = ([CallExecute Iscsi.iscsiBinary [B "-m"; B "session"; B "-P"; B "3"]],
     (None, Some (B "cannot find iSCSI device"))).
Proof.
  refine (@findScsiDevice_finds_nothing _ Sample.TrimSpace
            (host 0 two_targets) (B "172.17.0.2")
            (B "iqn.2019-10.io.longhorn:vol3") 1 [] two_targets eq_refl _).
  intros d (l1 & t & l2 & i & l3 & u & l4 & rest & Hlines & _ & Ht & _).
  assert (Hall : Forall
                   (fun x =>
                      names_target
                        (B "Target: " ++ B "iqn.2019-10.io.longhorn:vol3") x
                      = false)
                   (Scanner_lines two_targets)).
  { repeat constructor. }
  rewrite Hlines in Hall. apply Forall_app in Hall.
  destruct Hall as [_ Hall]. apply Forall_inv in Hall.
  rewrite Hall in Ht. discriminate Ht.
Defined.

(** On the listing [no_disk_yet], the line after the LUN is the line of
    the next target. *)
Lemma findScsiDevice_rejects_another_line_witness :
  Iscsi.findScsiDevice Sample.TrimSpace (host 0 no_disk_yet)
    (B "172.17.0.2") (B "iqn.2019-10.io.longhorn:vol1") 1 []
  = ([CallExecute Iscsi.iscsiBinary [B "-m"; B "session"; B "-P"; B "3"]],
     (None,
      Some (B "invalid output format, cannot find disk in: "
              ++ B "Target: iqn.2019-10.io.longhorn:vol2 (non-flash)"
              ++ [x0a] ++ B " " ++ no_disk_yet))).
Proof.
  refine (@findScsiDevice_rejects_another_line _ Sample.TrimSpace
            (host 0 no_disk_yet) (B "172.17.0.2")
            (B "iqn.2019-10.io.longhorn:vol1") 1 [] no_disk_yet
            (B "Target: iqn.2019-10.io.longhorn:vol2 (non-flash)")
            eq_refl _ _).
  - exists [],
      (B "Target: iqn.2019-10.io.longhorn:vol1 (non-flash)"),
      [],
      (B "    Current Portal: 172.17.0.2:3260,1"),
      [],
      (B "    scsi12 Channel 00 Id 0 Lun: 1"),
      [], [].
    split; [vm_compute; reflexivity|].
    split; [constructor|].
    split; [vm_compute; reflexivity|].
    split; [constructor|].
    split; [vm_compute; reflexivity|].
    split; [constructor|].
    split; [split; vm_compute; reflexivity|].
    split; [constructor|].
    split; vm_compute; reflexivity.
  - vm_compute. reflexivity.
Defined.

(** With a retry count of zero. *)
Lemma GetDevice_without_attempts_witness :
  Iscsi.GetDevice Sample.TrimSpace 0 Second (host 0 two_targets)
    (B "172.17.0.2") (B "iqn.2019-10.io.longhorn:vol2") 1 []
  = ([], (None, None)).
Proof.
  refine (@GetDevice_without_attempts _ Sample.TrimSpace 0 Second
            (host 0 two_targets) (B "172.17.0.2")
            (B "iqn.2019-10.io.longhorn:vol2") 1 [] _).
  lia.
Defined.

(** ** [CleanupScsiNodes] *)

Lemma each_call_app (P : list Call -> Call -> Prop) (a b h : list Call) :
  each_call P h a -> each_call P (h ++ a) b -> each_call P h (a ++ b).
Proof.
  revert h. induction a as [|c a IH]; intros h Ha Hb; cbn [app each_call].
  - rewrite app_nil_r in Hb. exact Hb.
  - destruct Ha as [Hc Ha]. split; [exact Hc|].
    apply IH; [exact Ha|]. rewrite <- app_assoc. exact Hb.
Qed.

Section Cleanup.

Variable KernelDevice : Type.
Variable ScsiNodesDirs : list bytes.
Variable Join : bytes -> bytes -> bytes.
Variable Dir : bytes -> bytes.
Variable Any : Type.
Context {codec_any : JSON Any}.
Context {codec_paths : JSON (list bytes)}.
Context {codec_info : JSON (option FileInfo)}.
Variable ne : NamespaceExecutor KernelDevice.

Let accounted := accounted_for (Any := Any) Join Dir ne.

(** A call into the namespace adds one call to the record. *)
Lemma in_namespace_call (T : Type) (codec : JSON T) (job : Job)
    (logic : list Call -> Logic T) (h : list Call) :
  fst (Iscsi.in_namespace Join ne job logic h) = h ++ [into_namespace ne job].
Proof. reflexivity. Qed.

Lemma clean_files_accounted (files : list bytes) :
  forall h,
    exists calls,
      fst (Iscsi.clean_files (Any := Any) Join Dir ne files h) = h ++ calls
      /\ each_call accounted h calls.
Proof.
  induction files as [|file files IH]; intros h.
  - exists []. split; [symmetry; apply app_nil_r | exact I].
  - cbn [Iscsi.clean_files]. unfold sh_bind.
    destruct (Iscsi.stat_file Join ne file h) as [h1 stat] eqn:Estat.
    assert (Hh1 : h1 = h ++ [into_namespace ne (JobStat file)]).
    { change h1 with (fst (h1, stat)). rewrite <- Estat. reflexivity. }
    assert (Hstat : snd (Iscsi.stat_file Join ne file h) = stat).
    { rewrite Estat. reflexivity. }
    assert (Hone : forall o : option (Outcome unit),
               exists calls,
                 fst (sh_ret o h1) = h ++ calls /\ each_call accounted h calls).
    { intros o. exists [into_namespace ne (JobStat file)].
      split; [exact Hh1 | split; exact I]. }
    destruct stat as [output [e|]| | | |]; try apply Hone.
    destruct output as [[info|]|]; try apply Hone.
    destruct ((Size info =? 0)%Z && IsRegular info) eqn:Eempty.
    + apply andb_true_iff in Eempty. destruct Eempty as [Hsize Hreg].
      apply Z.eqb_eq in Hsize.
      assert (Hrep : reported_empty Join ne h1 file).
      { exists h, info. repeat split; assumption. }
      destruct (Iscsi.remove_path (Any := Any) Join ne file h1) as [h2 removed] eqn:Erem.
      assert (Hh2 : h2 = h1 ++ [into_namespace ne (JobRemove file)]).
      { change h2 with (fst (h2, removed)). rewrite <- Erem. reflexivity. }
      assert (Hrem : snd (Iscsi.remove_path (Any := Any) Join ne file h1) = removed).
      { rewrite Erem. reflexivity. }
      assert (Htwo : forall o : option (Outcome unit),
                 exists calls,
                   fst (sh_ret o h2) = h ++ calls
                   /\ each_call accounted h calls).
      { intros o.
        exists [into_namespace ne (JobStat file);
                into_namespace ne (JobRemove file)].
        split; [rewrite Hh2, Hh1, <- app_assoc; reflexivity|].
        split; [exact I|]. split; [|exact I].
        left. rewrite <- Hh1. exact Hrep. }
      destruct removed as [out [e|]| | | |]; try apply Htwo.
      destruct (Iscsi.remove_path (Any := Any) Join ne (Dir file) h2) as [h3 upper]
        eqn:Eup.
      assert (Hh3 : h3 = h2 ++ [into_namespace ne (JobRemove (Dir file))]).
      { change h3 with (fst (h3, upper)). rewrite <- Eup. reflexivity. }
      assert (Hthree : each_call accounted h
                         [into_namespace ne (JobStat file);
                          into_namespace ne (JobRemove file);
                          into_namespace ne (JobRemove (Dir file))]).
      { split; [exact I|]. split; [left; rewrite <- Hh1; exact Hrep|].
        split; [|exact I]. right. exists h1, file, out.
        split; [rewrite <- Hh1; reflexivity|].
        split; [exact Hrep|]. split; [exact Hrem | reflexivity]. }
      assert (Hh3' : h3 = h ++ [into_namespace ne (JobStat file);
                                into_namespace ne (JobRemove file);
                                into_namespace ne (JobRemove (Dir file))]).
      { rewrite Hh3, Hh2, Hh1, <- !app_assoc. reflexivity. }
      destruct upper as [out' e'| | | |];
        try (eexists; split; [exact Hh3' | exact Hthree]).
      destruct (IH h3) as (calls & Hcalls & Hacc).
      exists ([into_namespace ne (JobStat file);
               into_namespace ne (JobRemove file);
               into_namespace ne (JobRemove (Dir file))] ++ calls).
      split.
      * rewrite Hcalls, Hh3', <- app_assoc. reflexivity.
      * apply each_call_app; [exact Hthree|]. rewrite <- Hh3'. exact Hacc.
    + destruct (IH h1) as (calls & Hcalls & Hacc).
      exists (into_namespace ne (JobStat file) :: calls). split.
      * rewrite Hcalls, Hh1, <- app_assoc. reflexivity.
      * split; [exact I|]. rewrite <- Hh1. exact Hacc.
Qed.

(** [CleanupScsiNodes] removes nothing but files that a stat, made just
    before, reported as empty regular files, and the directory of such a
    file once the file itself has been removed. *)
Theorem CleanupScsiNodes_removes_empty_files_only (target : bytes)
    (h : list Call) :
  exists calls,
    fst (Iscsi.CleanupScsiNodes (Any := Any) ScsiNodesDirs Join Dir ne target h)
    = h ++ calls
    /\ each_call (accounted_for (Any := Any) Join Dir ne) h calls.
Proof.
  unfold Iscsi.CleanupScsiNodes. fold accounted. revert h.
  generalize ScsiNodesDirs as dirs.
  induction dirs as [|dir dirs IH]; intros h.
  - exists []. split; [symmetry; apply app_nil_r | exact I].
  - cbn [Iscsi.clean_dirs]. unfold sh_bind.
    destruct (Iscsi.check_exists (Any := Any) Join ne dir h) as [h1 found] eqn:E1.
    assert (Hh1 : h1 = h ++ [into_namespace ne (JobExists dir)]).
    { change h1 with (fst (h1, found)). rewrite <- E1. reflexivity. }
    assert (Hone : each_call accounted h [into_namespace ne (JobExists dir)])
      by (split; exact I).
    assert (Hnext : exists calls,
               fst (Iscsi.clean_dirs (Any := Any) Join Dir ne target dirs h1) = h ++ calls
               /\ each_call accounted h calls).
    { destruct (IH h1) as (calls & Hcalls & Hacc).
      exists ([into_namespace ne (JobExists dir)] ++ calls). split.
      - rewrite Hcalls, Hh1, <- app_assoc. reflexivity.
      - apply each_call_app; [exact Hone|]. rewrite <- Hh1. exact Hacc. }
    destruct found as [out [e|]| | | |];
      try exact Hnext;
      try (eexists; split; [exact Hh1 | exact Hone]).
    destruct (Iscsi.check_exists (Any := Any) Join ne (Join dir target) h1)
      as [h2 found'] eqn:E2.
    assert (Hh2 : h2 = h ++ [into_namespace ne (JobExists dir);
                            into_namespace ne (JobExists (Join dir target))]).
    { transitivity (h1 ++ [into_namespace ne (JobExists (Join dir target))]).
      - change h2 with (fst (h2, found')). rewrite <- E2. reflexivity.
      - rewrite Hh1, <- app_assoc. reflexivity. }
    assert (Htwo : each_call accounted h
                     [into_namespace ne (JobExists dir);
                      into_namespace ne (JobExists (Join dir target))])
      by (repeat split).
    assert (Hnext2 : exists calls,
               fst (Iscsi.clean_dirs (Any := Any) Join Dir ne target dirs h2) = h ++ calls
               /\ each_call accounted h calls).
    { destruct (IH h2) as (calls & Hcalls & Hacc).
      eexists (_ ++ calls). split.
      - rewrite Hcalls, Hh2, <- app_assoc. reflexivity.
      - apply each_call_app; [exact Htwo|]. rewrite <- Hh2. exact Hacc. }
    destruct found' as [out' [e'|]| | | |];
      try exact Hnext2;
      try (eexists; split; [exact Hh2 | exact Htwo]).
    destruct (Iscsi.list_files Join ne (Join dir target) h2)
      as [h3 listed] eqn:E3.
    assert (Hh3 : h3 = h ++ [into_namespace ne (JobExists dir);
                            into_namespace ne (JobExists (Join dir target));
                            into_namespace ne (JobList (Join dir target))]).
    { transitivity (h2 ++ [into_namespace ne (JobList (Join dir target))]).
      - change h3 with (fst (h3, listed)). rewrite <- E3. reflexivity.
      - rewrite Hh2, <- app_assoc. reflexivity. }
    assert (Hthree : each_call accounted h
                       [into_namespace ne (JobExists dir);
                        into_namespace ne (JobExists (Join dir target));
                        into_namespace ne (JobList (Join dir target))])
      by (repeat split).
    destruct listed as [output [e''|]| | | |];
      try (eexists; split; [exact Hh3 | exact Hthree]).
    destruct output as [files|];
      [|eexists; split; [exact Hh3 | exact Hthree]].
    destruct (clean_files_accounted files h3) as (calls & Hcalls & Hacc).
    destruct (Iscsi.clean_files (Any := Any) Join Dir ne files h3) as [h4 ended] eqn:E4.
    cbn [fst] in Hcalls.
    assert (Hfour : each_call accounted h
                      ([into_namespace ne (JobExists dir);
                        into_namespace ne (JobExists (Join dir target));
                        into_namespace ne (JobList (Join dir target))]
                         ++ calls)).
    { apply each_call_app; [exact Hthree|]. rewrite <- Hh3. exact Hacc. }
    assert (Hh4 : h4 = h ++ [into_namespace ne (JobExists dir);
                            into_namespace ne (JobExists (Join dir target));
                            into_namespace ne (JobList (Join dir target))]
                         ++ calls).
    { rewrite Hcalls, Hh3, <- app_assoc. reflexivity. }
    destruct ended as [o|].
    + eexists. split; [exact Hh4 | exact Hfour].
    + destruct (IH h4) as (calls' & Hcalls' & Hacc').
      eexists (_ ++ calls'). split.
      * rewrite Hcalls', Hh4, <- app_assoc. reflexivity.
      * apply each_call_app; [exact Hfour|]. rewrite <- Hh4. exact Hacc'.
Qed.

Lemma clean_files_errors (files : list bytes) :
  forall h,
    match snd (Iscsi.clean_files (Any := Any) Join Dir ne files h) with
    | Some (Returns out (Some e)) => out = None /\ cleanup_error e
    | Some (Returns out None) => False
    | _ => True
    end.
Proof.
  induction files as [|file files IH]; intros h; [exact I|].
  cbn [Iscsi.clean_files]. unfold sh_bind.
  destruct (Iscsi.stat_file Join ne file h) as [h1 stat].
  destruct stat as [output [e|]| | | |]; try exact I.
  { cbn [snd sh_ret Wrapf]. split; [reflexivity|].
    exists file, e. right. left. reflexivity. }
  destruct output as [[info|]|]; try exact I.
  destruct ((Size info =? 0)%Z && IsRegular info); [|apply IH].
  destruct (Iscsi.remove_path (Any := Any) Join ne file h1) as [h2 removed].
  destruct removed as [out [e|]| | | |]; try exact I.
  { cbn [snd sh_ret Wrapf]. split; [reflexivity|].
    exists file, e. right. right. reflexivity. }
  destruct (Iscsi.remove_path (Any := Any) Join ne (Dir file) h2) as [h3 upper].
  destruct upper as [out' e'| | | |]; try exact I.
  apply IH.
Qed.

(** Every error that [CleanupScsiNodes] returns is one of the three it
    wraps: that of the listing, of the stat of a listed file, or of the
    removal of a file.  What the existence checks and the removal of the
    upper directory return is never passed on. *)
Theorem CleanupScsiNodes_returns_its_three_errors_only (target : bytes)
    (h : list Call) :
  match snd (Iscsi.CleanupScsiNodes (Any := Any) ScsiNodesDirs Join Dir ne target h) with
  | Returns out (Some e) => out = None /\ cleanup_error e
  | Returns out None => out = None
  | _ => True
  end.
Proof.
  unfold Iscsi.CleanupScsiNodes. revert h.
  generalize ScsiNodesDirs as dirs.
  induction dirs as [|dir dirs IH]; intros h; [reflexivity|].
  cbn [Iscsi.clean_dirs]. unfold sh_bind.
  destruct (Iscsi.check_exists (Any := Any) Join ne dir h) as [h1 found].
  destruct found as [out [e|]| | | |]; try exact I; try apply IH.
  destruct (Iscsi.check_exists (Any := Any) Join ne (Join dir target) h1) as [h2 found'].
  destruct found' as [out' [e'|]| | | |]; try exact I; try apply IH.
  destruct (Iscsi.list_files Join ne (Join dir target) h2) as [h3 listed].
  destruct listed as [output [e''|]| | | |]; try exact I.
  { cbn [snd sh_ret Wrapf]. split; [reflexivity|].
    exists (Join dir target), e''. left. reflexivity. }
  destruct output as [files|]; [|exact I].
  pose proof (clean_files_errors files h3) as Hfiles.
  destruct (Iscsi.clean_files (Any := Any) Join Dir ne files h3) as [h4 [o|]];
    cbn [snd] in Hfiles; [|apply IH].
  cbn [snd sh_ret]. destruct o as [out'' [e3|]| | | |]; try exact I.
  - exact Hfiles.
  - destruct Hfiles.
Qed.

(** A stat that fails in the child comes back as its error, when the call
    into the namespace works. *)
Lemma check_exists_fails (h : list Call) (path : bytes)
    (info : option FileInfo) (e : error) (pipes : Z * Z) (pid : Z)
    (mountNs netNs : bytes) :
  ne_NsStat ne h path = Back (info, Some e) ->
  ~ In x00 e ->
  Cloned Join (ne_kernel ne h) (ne_namespace ne) pipes pid mountNs netNs ->
  switches (ne_kernel ne h) mountNs netNs ->
  Carries (ne_kernel ne h) (message (@None Any) (Some e)) Iscsi.Minute ->
  Iscsi.check_exists (Any := Any) Join ne path h
  = (h ++ [into_namespace ne (JobExists path)], Returns None (Some e)).
Proof.
  intros Hstat He Hcl Hsw Hcar.
  unfold Iscsi.check_exists, Iscsi.in_namespace. rewrite Hstat.
  fold (into_namespace ne (JobExists path)). f_equal.
  assert (Hmsg : message (@None Any) (Some e) = (B "err:" ++ e) ++ [x00])
    by reflexivity.
  rewrite (@observed_relays Any _ Join (ne_kernel ne h) (ne_namespace ne)
             Iscsi.Minute (Gives None (Some e)) pipes pid mountNs netNs
             None (Some e) (B "err:" ++ e) Hcl).
  - rewrite Hmsg. apply on_done_err.
  - unfold encoded. rewrite (switchNs_succeeds Hsw). reflexivity.
  - exact Hmsg.
  - intros H. apply in_app_or in H. destruct H as [H|H]; [|exact (He H)].
    cbn in H. intuition discriminate.
  - exact Hcar.
Qed.

(** When [util.NsStat] fails on each directory of [ScsiNodesDirs], and the
    calls into the namespace work, [CleanupScsiNodes] checks each directory
    once, in order, does nothing else, and returns nil. *)
Theorem CleanupScsiNodes_skips_missing_directories (target : bytes)
    (h : list Call) :
  (forall h' dir,
     In dir ScsiNodesDirs ->
     exists info e pipes pid mountNs netNs,
       ne_NsStat ne h' dir = Back (info, Some e)
       /\ ~ In x00 e
       /\ Cloned Join (ne_kernel ne h') (ne_namespace ne) pipes pid
            mountNs netNs
       /\ switches (ne_kernel ne h') mountNs netNs
       /\ Carries (ne_kernel ne h') (message (@None Any) (Some e))
            Iscsi.Minute) ->
  Iscsi.CleanupScsiNodes (Any := Any) ScsiNodesDirs Join Dir ne target h
  = (h ++ map (fun dir => into_namespace ne (JobExists dir)) ScsiNodesDirs,
     Returns None None).
Proof.
  unfold Iscsi.CleanupScsiNodes. revert h.
  generalize ScsiNodesDirs as dirs.
  induction dirs as [|dir dirs IH]; intros h Hmissing.
  - cbn. rewrite app_nil_r. reflexivity.
  - destruct (Hmissing h dir (or_introl eq_refl))
      as (info & e & pipes & pid & mountNs & netNs & Hstat & He & Hcl & Hsw
          & Hcar).
    cbn [Iscsi.clean_dirs map]. unfold sh_bind.
    rewrite (@check_exists_fails h dir info e pipes pid mountNs netNs
               Hstat He Hcl Hsw Hcar).
    rewrite IH.
    + rewrite <- app_assoc. reflexivity.
    + intros h' dir' Hin. apply Hmissing. right. exact Hin.
Qed.

End Cleanup.

(** ** What a call can return *)

Section Decoded.

Context {T : Type} {codec : JSON T}.
Variable Join : bytes -> bytes -> bytes.

Lemma on_done_decoded (buf : bytes) (v : T) :
  on_done buf = Returns (Some v) None ->
  exists base, Unmarshal base zero = Ok v.
Proof.
  unfold on_done.
  destruct (index buf _) as [c|]; [|discriminate].
  destruct (negb (Byte.eqb c x00)); [discriminate|].
  destruct (HasPrefix _ (B "err:")); [discriminate|].
  destruct (HasPrefix _ (B "ok:")); [|discriminate].
  destruct (Unmarshal _ zero) as [u|e] eqn:E; [|discriminate].
  intros [= ->]. eexists. exact E.
Qed.

(** A result that a call returns with a nil error was decoded by
    [json.Unmarshal] into a zero value. *)
Lemma returned_result_is_decoded (K : Kernel) (ns : bytes) (timeout : Z)
    (toExecute : Logic T) (v : T) :
  value_of (ForkAndSwitchToNamespace Join K ns timeout toExecute)
  = Returns (Some v) None ->
  exists base, Unmarshal base zero = Ok v.
Proof.
  unfold ForkAndSwitchToNamespace.
  destruct (BytePtrFromString (Join ns (B "mnt"))) as [e|mountNs];
    [discriminate|].
  destruct (BytePtrFromString (Join ns (B "net"))) as [e|netNs];
    [discriminate|].
  unfold unix_Pipe. destruct (k_pipe K) as [e|pipes]; [discriminate|].
  cbn [bind emit ret value_of snd].
  destruct (RawSyscall (k_fork K)) as [pid e].
  destruct (int pid =? -1)%Z; [discriminate|].
  destruct (negb (pid =? 0)%Z).
  - unfold parent.
    destruct (close_raw K (snd pipes)) as [tc vc].
    destruct (select K (reader K (fst pipes)) timeout) as [buf|].
    + cbn. apply on_done_decoded.
    + unfold unix_Kill. destruct (k_kill K (int pid) SIGINT); discriminate.
  - unfold child.
    destruct (switchNs K mountNs netNs) as [ts [e'|]].
    + cbn [bind ret]. destruct (write_loop _ _ _ _) as [tw [|]].
      * destruct (close_raw K (snd pipes)). discriminate.
      * discriminate.
    + cbn [bind ret emit]. destruct toExecute as [out err| |].
      * destruct (write_loop _ _ _ _) as [tw [|]].
        -- destruct (close_raw K (snd pipes)). discriminate.
        -- discriminate.
      * discriminate.
      * discriminate.
Qed.

Lemma observed_result_is_decoded (K : Kernel) (ns : bytes) (timeout : Z)
    (toExecute : Logic T) (v : T) :
  value_of (observed Join K ns timeout toExecute) = Returns (Some v) None ->
  exists base, Unmarshal base zero = Ok v.
Proof.
  unfold observed. destruct (k_pipe K) as [e|pipes];
    apply returned_result_is_decoded.
Qed.

End Decoded.

(** ** [CleanupScsiNodes] and the file status *)

Section CleanupDecodes.

Variable KernelDevice : Type.
Variable ScsiNodesDirs : list bytes.
Variable Join : bytes -> bytes -> bytes.
Variable Dir : bytes -> bytes.
Variable Any : Type.
Context {codec_any : JSON Any}.
Context {codec_paths : JSON (list bytes)}.
Context {codec_info : JSON (option FileInfo)}.
Variable ne : NamespaceExecutor KernelDevice.

Hypothesis no_status : decodes_no_status codec_info.

(** No stat comes back with a file status. *)
Lemma stat_file_gives_no_status (file : bytes) (h : list Call)
    (info : FileInfo) :
  snd (Iscsi.stat_file Join ne file h) <> Returns (Some (Some info)) None.
Proof.
  unfold Iscsi.stat_file, Iscsi.in_namespace. cbn [snd]. intros H.
  apply observed_result_is_decoded in H. destruct H as [base H].
  apply no_status in H. discriminate H.
Qed.

(** The loop over the files ends at the first one. *)
Lemma clean_files_stops (files : list bytes) (h : list Call) :
  match files with
  | [] => Iscsi.clean_files (Any := Any) Join Dir ne files h = (h, None)
  | file :: _ =>
      exists o,
        Iscsi.clean_files (Any := Any) Join Dir ne files h
        = (h ++ [into_namespace ne (JobStat file)], Some o)
        /\ forall out, o <> Returns out None
  end.
Proof.
  destruct files as [|file files]; [reflexivity|].
  cbn [Iscsi.clean_files]. unfold sh_bind.
  pose proof (stat_file_gives_no_status file h) as Hno.
  assert (Hh : fst (Iscsi.stat_file Join ne file h)
               = h ++ [into_namespace ne (JobStat file)]) by reflexivity.
  destruct (Iscsi.stat_file Join ne file h) as [h1 stat].
  cbn [fst snd] in Hh, Hno. subst h1.
  destruct stat as [output [e|]| | | |];
    try (eexists; split; [reflexivity | intros out; discriminate]).
  destruct output as [[info|]|];
    try (eexists; split; [reflexivity | intros out; discriminate]).
  exfalso. exact (Hno info eq_refl).
Qed.

(** The calls are existence checks and listings, followed at most by one
    stat, after which the run does not return nil. *)
Let looked_only (r : list Call * Outcome unit) (calls : list Call) : Prop :=
  forallb looks_only calls = true
  \/ exists pre file,
       calls = pre ++ [into_namespace ne (JobStat file)]
       /\ forallb looks_only pre = true
       /\ forall out, snd r <> Returns out None.

Lemma looked_only_removes_nothing (r : list Call * Outcome unit)
    (calls : list Call) :
  looked_only r calls -> existsb is_removal calls = false.
Proof.
  assert (Hall : forall l, forallb looks_only l = true ->
                           existsb is_removal l = false).
  { induction l as [|c l IH]; [reflexivity|].
    cbn [forallb existsb]. intros H. apply andb_true_iff in H.
    destruct H as [Hc Hl]. rewrite (IH Hl), orb_false_r.
    destruct c as [| | | | |ns t [p|p|p|p]]; try reflexivity;
      discriminate Hc. }
  intros [H|(pre & file & -> & H & _)]; [exact (Hall _ H)|].
  rewrite existsb_app, (Hall _ H). reflexivity.
Qed.

Lemma looked_only_after (r : list Call * Outcome unit)
    (pre calls : list Call) :
  forallb looks_only pre = true ->
  looked_only r calls -> looked_only r (pre ++ calls).
Proof.
  intros Hpre [H|(pre' & file & -> & H & Hr)].
  - left. rewrite forallb_app, Hpre, H. reflexivity.
  - right. exists (pre ++ pre'), file.
    split; [apply app_assoc|].
    split; [rewrite forallb_app, Hpre, H; reflexivity | exact Hr].
Qed.

(** As encoding/json decodes no file status into an [fs.FileInfo],
    [CleanupScsiNodes] removes nothing: its calls are existence checks and
    listings, followed at most by one stat of a listed path; the stat is its
    last call, and it then does not return nil. *)
Theorem CleanupScsiNodes_removes_nothing_through_the_interface
    (target : bytes) (h : list Call) :
  let run :=
    Iscsi.CleanupScsiNodes (Any := Any) ScsiNodesDirs Join Dir ne target h in
  exists calls,
    fst run = h ++ calls
    /\ existsb is_removal calls = false
    /\ (forallb looks_only calls = true
        \/ exists pre file,
             calls = pre ++ [into_namespace ne (JobStat file)]
             /\ forallb looks_only pre = true
             /\ forall out, snd run <> Returns out None).
Proof.
  cbv zeta. unfold Iscsi.CleanupScsiNodes.
  assert (Hshape : forall dirs h0,
            exists calls,
              fst (Iscsi.clean_dirs (Any := Any) Join Dir ne target dirs h0)
              = h0 ++ calls
              /\ looked_only
                   (Iscsi.clean_dirs (Any := Any) Join Dir ne target dirs h0)
                   calls).
  { induction dirs as [|dir dirs IH]; intros h0.
    { exists []. split; [symmetry; apply app_nil_r | left; reflexivity]. }
    assert (Hnext : forall pre,
              forallb looks_only pre = true ->
              exists calls,
                fst (Iscsi.clean_dirs (Any := Any) Join Dir ne target dirs
                       (h0 ++ pre))
                = h0 ++ calls
                /\ looked_only
                     (Iscsi.clean_dirs (Any := Any) Join Dir ne target dirs
                        (h0 ++ pre))
                     calls).
    { intros pre Hpre. destruct (IH (h0 ++ pre)) as (calls & Hfst & Hlook).
      exists (pre ++ calls). split.
      - rewrite Hfst, app_assoc. reflexivity.
      - apply looked_only_after; assumption. }
    assert (Hend : forall pre (o : Outcome unit),
              forallb looks_only pre = true ->
              exists calls,
                fst (sh_ret o (h0 ++ pre)) = h0 ++ calls
                /\ looked_only (sh_ret o (h0 ++ pre)) calls).
    { intros pre o Hpre. exists pre.
      split; [reflexivity | left; exact Hpre]. }
    cbn [Iscsi.clean_dirs]. unfold sh_bind.
    assert (Hh1 : fst (Iscsi.check_exists (Any := Any) Join ne dir h0)
                  = h0 ++ [into_namespace ne (JobExists dir)])
      by reflexivity.
    destruct (Iscsi.check_exists (Any := Any) Join ne dir h0) as [h1 found].
    cbn [fst] in Hh1. subst h1.
    destruct found as [out [e|]| | | |];
      try (apply Hnext; reflexivity); try (apply Hend; reflexivity).
    assert (Hh2 : fst (Iscsi.check_exists (Any := Any) Join ne
                         (Join dir target)
                         (h0 ++ [into_namespace ne (JobExists dir)]))
                  = h0 ++ [into_namespace ne (JobExists dir);
                           into_namespace ne (JobExists (Join dir target))]).
    { cbn [fst Iscsi.check_exists Iscsi.in_namespace].
      rewrite <- app_assoc. reflexivity. }
    destruct (Iscsi.check_exists (Any := Any) Join ne (Join dir target) _)
      as [h2 found'].
    cbn [fst] in Hh2. subst h2.
    destruct found' as [out' [e'|]| | | |];
      try (apply Hnext; reflexivity); try (apply Hend; reflexivity).
    set (three := [into_namespace ne (JobExists dir);
                   into_namespace ne (JobExists (Join dir target));
                   into_namespace ne (JobList (Join dir target))]).
    assert (Hh3 : fst (Iscsi.list_files Join ne (Join dir target)
                         (h0 ++ [into_namespace ne (JobExists dir);
                                 into_namespace ne
                                   (JobExists (Join dir target))]))
                  = h0 ++ three).
    { cbn [fst Iscsi.list_files Iscsi.in_namespace].
      rewrite <- app_assoc. reflexivity. }
    destruct (Iscsi.list_files Join ne (Join dir target) _) as [h3 listed].
    cbn [fst] in Hh3. subst h3.
    destruct listed as [output [e''|]| | | |];
      try (apply Hend; reflexivity).
    destruct output as [files|]; [|apply Hend; reflexivity].
    pose proof (clean_files_stops files (h0 ++ three)) as Hfiles.
    destruct files as [|file files].
    - rewrite Hfiles. apply Hnext. reflexivity.
    - destruct Hfiles as (o & -> & Ho).
      exists (three ++ [into_namespace ne (JobStat file)]). split.
      + cbn [fst sh_ret]. rewrite app_assoc. reflexivity.
      + right. exists three, file.
        split; [reflexivity|]. split; [reflexivity | exact Ho]. }
  destruct (Hshape ScsiNodesDirs h) as (calls & Hfst & Hlook).
  exists calls. split; [exact Hfst|].
  split; [exact (looked_only_removes_nothing Hlook) | exact Hlook].
Qed.

End CleanupDecodes.

(** On the host [host], which holds no file: both directories of
    [ScsiNodesDirs] are checked and skipped. *)
Lemma CleanupScsiNodes_skips_missing_directories_witness :
  @Iscsi.CleanupScsiNodes _ Sample.ScsiNodesDirs Sample.Join Sample.Dir
    unit (JSON_of_nil tt) (JSON_of_nil []) (JSON_of_nil None) (host 0 two_targets)
    (B "iqn.2019-10.io.longhorn:vol1") []
  = ([CallForkAndSwitchToNamespace ns Iscsi.Minute
        (JobExists (B "/etc/iscsi/nodes/"));
      CallForkAndSwitchToNamespace ns Iscsi.Minute
        (JobExists (B "/var/lib/iscsi/nodes/"))],
     Returns None None).
Proof.
  refine (@CleanupScsiNodes_skips_missing_directories _ Sample.ScsiNodesDirs
            Sample.Join Sample.Dir unit (JSON_of_nil tt) (JSON_of_nil [])
            (JSON_of_nil None) (host 0 two_targets)
            (B "iqn.2019-10.io.longhorn:vol1") [] _).
  intros h' dir _.
  exists None, (B "no such file or directory"), (3, 4)%Z, 4243%Z,
    mountNs, netNs.
  split; [reflexivity|].
  split; [cbn; intuition discriminate|].
  split; [exact (fine_cloned fine eq_refl eq_refl)|].
  split; [exact fine_switches|].
  apply fine_carries; try reflexivity.
  - cbn. lia.
  - unfold Iscsi.Minute, Second. lia.
Defined.

(** ** A call into the namespace that goes through *)

Section IntoNamespace.

Variable KernelDevice : Type.
Variable Join : bytes -> bytes -> bytes.
Variable ne : NamespaceExecutor KernelDevice.
Context {T : Type} {codec : JSON T}.

(** When the call clones and switches, and the kernel carries the message
    within the minute, the caller is handed what the message of the logic's
    result decodes to. *)
Lemma in_namespace_relays (job : Job) (logic : list Call -> Logic T)
    (h : list Call) (pipes : Z * Z) (pid : Z) (mountNs netNs : bytes)
    (out : option T) (err : option error) (body : bytes) :
  Cloned Join (ne_kernel ne h) (ne_namespace ne) pipes pid mountNs netNs ->
  switches (ne_kernel ne h) mountNs netNs ->
  logic h = Gives out err ->
  message out err = body ++ [x00] ->
  ~ In x00 body ->
  Carries (ne_kernel ne h) (message out err) Iscsi.Minute ->
  Iscsi.in_namespace Join ne job logic h
  = (h ++ [into_namespace ne job], on_done (message out err)).
Proof.
  intros Hcl Hsw Hlogic Hmsg Hbody Hcar.
  unfold Iscsi.in_namespace, into_namespace. f_equal.
  rewrite Hlogic.
  apply (observed_relays (timeout := Iscsi.Minute) (Gives out err) body Hcl).
  - unfold encoded. rewrite (switchNs_succeeds Hsw). reflexivity.
  - exact Hmsg.
  - exact Hbody.
  - exact Hcar.
Qed.

End IntoNamespace.

Lemma total_dt_repeat (a : ReadAns) (n : nat) :
  total_dt (repeat a n) = n * ra_dt a.
Proof.
  induction n as [|n IH]; [reflexivity|].
  cbn [repeat total_dt fold_right]. fold (total_dt (repeat a n)).
  rewrite IH. reflexivity.
Qed.

Lemma steady_carries (msg : bytes) :
  length msg < 400 -> Carries steady msg Iscsi.Minute.
Proof.
  intros Hlen. constructor.
  - apply Forall_forall. intros a Ha. apply repeat_spec in Ha. eauto.
  - cbn [k_write steady]. rewrite repeat_length. lia.
  - apply Forall_forall. intros a Ha. apply repeat_spec in Ha.
    subst a. eexists. reflexivity.
  - cbn [k_read steady]. rewrite repeat_length. lia.
  - lia.
  - cbn [k_read steady]. rewrite total_dt_repeat. cbn [ra_dt].
    unfold millisecond, Iscsi.Minute, Second. lia.
Defined.

Lemma steady_cloned :
  Cloned Join_clean steady ns (3, 4)%Z 4243 mountNs netNs.
Proof.
  constructor; try reflexivity. split; reflexivity.
Defined.

Lemma busy_exists (path : bytes) (h : list Call) :
  Iscsi.check_exists (Any := unit) (codec_any := JSON_of_nil tt) Join_clean
    busy path h
  = (h ++ [into_namespace busy (JobExists path)], Returns (Some tt) None).
Proof.
  unfold Iscsi.check_exists.
  rewrite (@in_namespace_relays _ Join_clean busy unit (JSON_of_nil tt)
             (JobExists path) _ h (3, 4)%Z 4243 mountNs netNs None None
             (B "ok:null") steady_cloned fine_switches).
  - reflexivity.
  - cbn [ne_NsStat busy].
    destruct (HasSuffix path (B "/default")); reflexivity.
  - reflexivity.
  - cbn. intuition discriminate.
  - apply steady_carries. cbn. lia.
Defined.

Lemma busy_list (h : list Call) :
  Iscsi.list_files (codec_paths := JSON_strings) Join_clean busy
    (B "/etc/iscsi/nodes/iqn.2019-10.io.longhorn:vol1") h
  = (h ++ [into_namespace busy
             (JobList (B "/etc/iscsi/nodes/iqn.2019-10.io.longhorn:vol1"))],
     Returns
       (Some [B "/etc/iscsi/nodes/iqn.2019-10.io.longhorn:vol1";
              B "/etc/iscsi/nodes/iqn.2019-10.io.longhorn:vol1/default"])
       None).
Proof.
  unfold Iscsi.list_files.
  rewrite (@in_namespace_relays _ Join_clean busy (list bytes) JSON_strings
             (JobList (B "/etc/iscsi/nodes/iqn.2019-10.io.longhorn:vol1"))
             _ h (3, 4)%Z 4243 mountNs netNs
             (Some [B "/etc/iscsi/nodes/iqn.2019-10.io.longhorn:vol1";
                    B "/etc/iscsi/nodes/iqn.2019-10.io.longhorn:vol1/default"])
             None
             (B "ok:[" ++ [x22]
                ++ B "/etc/iscsi/nodes/iqn.2019-10.io.longhorn:vol1"
                ++ [x22] ++ B "," ++ [x22]
                ++ B "/etc/iscsi/nodes/iqn.2019-10.io.longhorn:vol1/default"
                ++ [x22] ++ B "]")
             steady_cloned fine_switches).
  - reflexivity.
  - reflexivity.
  - vm_compute. reflexivity.
  - vm_compute. intuition discriminate.
  - apply steady_carries. vm_compute. lia.
Defined.

Lemma busy_stat (h : list Call) :
  Iscsi.stat_file (codec_info := JSON_FileInfo) Join_clean busy
    (B "/etc/iscsi/nodes/iqn.2019-10.io.longhorn:vol1") h
  = (h ++ [into_namespace busy
             (JobStat (B "/etc/iscsi/nodes/iqn.2019-10.io.longhorn:vol1"))],
     Returns None
       (Some (B "json: cannot unmarshal object into Go value of type fs.FileInfo"))).
Proof.
  unfold Iscsi.stat_file.
  rewrite (@in_namespace_relays _ Join_clean busy (option FileInfo)
             JSON_FileInfo
             (JobStat (B "/etc/iscsi/nodes/iqn.2019-10.io.longhorn:vol1"))
             _ h (3, 4)%Z 4243 mountNs netNs
             (Some (Some {| Size := 4096; IsRegular := false |})) None
             (B "ok:{}") steady_cloned fine_switches).
  - reflexivity.
  - reflexivity.
  - reflexivity.
  - cbn. intuition discriminate.
  - apply steady_carries. cbn. lia.
Defined.

(** On the host [busy] the directory of the target exists and holds an
    empty regular file, and yet nothing is removed: the directory is found
    and listed, and the stat of the first path listed, which the child
    encodes as an object, is not decoded by the caller. *)
Lemma CleanupScsiNodes_removes_nothing_through_the_interface_witness :
  decodes_no_status JSON_FileInfo
  /\ @Iscsi.CleanupScsiNodes _ Sample.ScsiNodesDirs Join_clean Sample.Dir
       unit (JSON_of_nil tt) JSON_strings JSON_FileInfo busy
       (B "iqn.2019-10.io.longhorn:vol1") []
     = ([CallForkAndSwitchToNamespace ns Iscsi.Minute
           (JobExists (B "/etc/iscsi/nodes/"));
         CallForkAndSwitchToNamespace ns Iscsi.Minute
           (JobExists (B "/etc/iscsi/nodes/iqn.2019-10.io.longhorn:vol1"));
         CallForkAndSwitchToNamespace ns Iscsi.Minute
           (JobList (B "/etc/iscsi/nodes/iqn.2019-10.io.longhorn:vol1"));
         CallForkAndSwitchToNamespace ns Iscsi.Minute
           (JobStat (B "/etc/iscsi/nodes/iqn.2019-10.io.longhorn:vol1"))],
        Returns None
          (Some (B "failed to check iSCSI node file /etc/iscsi/nodes/iqn.2019-10.io.longhorn:vol1: json: cannot unmarshal object into Go value of type fs.FileInfo")))
  /\ existsb is_removal
       (fst (@Iscsi.CleanupScsiNodes _ Sample.ScsiNodesDirs Join_clean
               Sample.Dir unit (JSON_of_nil tt) JSON_strings JSON_FileInfo
               busy (B "iqn.2019-10.io.longhorn:vol1") []))
     = false.
Proof.
  assert (Hno : decodes_no_status JSON_FileInfo).
  { intros base v. cbn. unfold Unmarshal_FileInfo.
    destruct (list_eq_dec byte_eq_dec base (B "null")); [|discriminate].
    intros [= <-]. reflexivity. }
  split; [exact Hno|]. split.
  - unfold Iscsi.CleanupScsiNodes, Sample.ScsiNodesDirs.
    cbn [Iscsi.clean_dirs]. unfold sh_bind.
    rewrite busy_exists.
    assert (Htd : Join_clean (B "/etc/iscsi/nodes/")
                    (B "iqn.2019-10.io.longhorn:vol1")
                  = B "/etc/iscsi/nodes/iqn.2019-10.io.longhorn:vol1")
      by (vm_compute; reflexivity).
    rewrite Htd, busy_exists, busy_list.
    cbn [Iscsi.clean_files]. unfold sh_bind.
    rewrite busy_stat. reflexivity.
  - destruct (@CleanupScsiNodes_removes_nothing_through_the_interface _
                Sample.ScsiNodesDirs Join_clean Sample.Dir unit
                (JSON_of_nil tt) JSON_strings JSON_FileInfo busy Hno
                (B "iqn.2019-10.io.longhorn:vol1") [])
      as (calls & Hcalls & Hnone & _).
    rewrite Hcalls. exact Hnone.
Defined.
